(** * Child bridge supervisor (src/childBridgeService.ts)

    A shallow embedding of [ChildBridgeService]: the object's fields are a
    record, every method is a computation in a small state-and-exception
    monad over the object together with the part of the Node.js runtime it
    talks to (the forked processes and their listeners, the pending timers,
    the pending file reads and port requests) and the outputs it produces
    (status notifications, forks, signals, IPC sends, log lines). *)

From Stdlib Require Import List String Ascii Bool Arith ZArith Lia.
Import ListNotations.
Open Scope string_scope.
Open Scope bool_scope.
Open Scope list_scope.
Open Scope nat_scope.

Set Warnings "-register-all".

(** ** JavaScript values that travel over the IPC channel

    The channel uses JSON serialization, so an inbound message is a JSON
    value; [undefined] never travels and is the [None] of [option JsValue].
    Numbers are kept as integers: the code only tests them for truthiness.
    The counters and delays of the supervisor are integers of small size,
    kept in [Z]. *)

Inductive JsValue : Type :=
| JNull
| JBool (b : bool)
| JNum (n : Z)
| JStr (s : string)
| JArr (items : list JsValue)
| JObj (fields : list (string * JsValue)).

Inductive JsType := TObject | TBoolean | TNumber | TString.

(** [typeof v]; note [typeof null === 'object']. *)
Definition typeof (v : JsValue) : JsType :=
  match v with
  | JNull => TObject
  | JBool _ => TBoolean
  | JNum _ => TNumber
  | JStr _ => TString
  | JArr _ => TObject
  | JObj _ => TObject
  end.

Definition is_object_type (t : JsType) : bool :=
  match t with TObject => true | _ => false end.

(** ToBoolean on a possibly undefined value. *)
Definition truthy (v : option JsValue) : bool :=
  match v with
  | None => false
  | Some JNull => false
  | Some (JBool b) => b
  | Some (JNum n) => negb (Z.eqb n 0)
  | Some (JStr s) => negb (String.eqb s EmptyString)
  | Some (JArr _) => true
  | Some (JObj _) => true
  end.

Fixpoint assoc {A : Type} (k : string) (l : list (string * A)) : option A :=
  match l with
  | [] => None
  | (k', v) :: tl => if String.eqb k k' then Some v else assoc k tl
  end.

Inductive JsError :=
| TypeError (reading : string)   (* a property read on null or on undefined *)
| IoError (message : string).    (* rejection of fs.readJson: I/O or parse *)

Inductive Outcome (A : Type) :=
| Ret (a : A)
| Throw (e : JsError).
Arguments Ret {A} a.
Arguments Throw {A} e.

(** [v.k] for a value that may be undefined: reading a property of [null]
    or [undefined] throws; primitives and arrays have none of the
    properties read here; an object gives its own property. *)
Definition prop (v : option JsValue) (k : string) : Outcome (option JsValue) :=
  match v with
  | None => Throw (TypeError k)
  | Some JNull => Throw (TypeError k)
  | Some (JObj fields) => Ret (assoc k fields)
  | Some _ => Ret None
  end.

(** ** Strings: the few operations of String.prototype the code uses,
    on ASCII text. *)

Definition is_space (c : ascii) : bool :=
  let n := nat_of_ascii c in
  Nat.eqb n 32 || Nat.eqb n 9 || Nat.eqb n 10 || Nat.eqb n 11
  || Nat.eqb n 12 || Nat.eqb n 13.

Fixpoint trim_start (s : string) : string :=
  match s with
  | EmptyString => EmptyString
  | String c tl => if is_space c then trim_start tl else s
  end.

Fixpoint rev_string (s : string) (acc : string) : string :=
  match s with
  | EmptyString => acc
  | String c tl => rev_string tl (String c acc)
  end.

Definition trim (s : string) : string :=
  rev_string (trim_start (rev_string (trim_start s) EmptyString)) EmptyString.

(** [s.replace(/:/g, '')] *)
Fixpoint remove_colons (s : string) : string :=
  match s with
  | EmptyString => EmptyString
  | String c tl =>
      if Ascii.eqb c ":"%char then remove_colons tl else String c (remove_colons tl)
  end.

Definition upper_char (c : ascii) : ascii :=
  let n := nat_of_ascii c in
  if Nat.leb 97 n && Nat.leb n 122 then ascii_of_nat (n - 32) else c.

Fixpoint toUpperCase (s : string) : string :=
  match s with
  | EmptyString => EmptyString
  | String c tl => String (upper_char c) (toUpperCase tl)
  end.

(** [a || b] on optional strings: the empty string is falsy. *)
Definition str_truthy (a : option string) : bool :=
  match a with
  | Some s => negb (String.eqb s EmptyString)
  | None => false
  end.

Definition str_or (a b : option string) : option string :=
  if str_truthy a then a else b.

Definition str_or_dflt (a : option string) (b : string) : string :=
  match a with
  | Some s => if String.eqb s EmptyString then b else s
  | None => b
  end.

(** ** Enumerations *)

(** From api.ts, which the sources on hand do not include; the two plugin
    kinds [refreshConfig] tests for. *)
Inductive PluginType := PLATFORM | ACCESSORY.

Inductive ChildProcessMessageEventType :=
| READY | LOAD | LOADED | START | ONLINE
| PORT_REQUEST | PORT_ALLOCATED | STATUS_UPDATE.

(** The string each member of the const enum compiles to. *)
Definition event_id (t : ChildProcessMessageEventType) : string :=
  match t with
  | READY => "ready"
  | LOAD => "load"
  | LOADED => "loaded"
  | START => "start"
  | ONLINE => "online"
  | PORT_REQUEST => "portRequest"
  | PORT_ALLOCATED => "portAllocated"
  | STATUS_UPDATE => "status"
  end.

Inductive ChildBridgeStatus := PENDING | OK | DOWN.

(** ** Configuration records (bridgeService.ts, server.ts and plugin.ts are
    not among the sources; the fields are those this file reads) *)

Record BridgeEnvironment := {
  env_DEBUG : option string;
  env_NODE_OPTIONS : option string
}.

Record BridgeConfiguration := {
  bc_name : option string;
  bc_username : string;
  bc_pin : option string;
  bc_port : option Z;
  bc_advertiser : option string;
  bc_bind : option string;
  bc_setupID : option string;
  bc_manufacturer : option string;
  bc_model : option string;
  bc_firmwareRevision : option string;
  bc_debugModeEnabled : bool;
  bc_env : option BridgeEnvironment
}.

(** PlatformConfig | AccessoryConfig: a platform block carries [platform],
    an accessory block carries [accessory]. *)
Record ConfigBlock := {
  cb_platform : option string;
  cb_accessory : option string;
  cb_name : option string;
  cb_bridge : option BridgeConfiguration;   (* _bridge *)
  cb_rest : list (string * JsValue)
}.

Record HomebridgeConfig := {
  hc_bridge : BridgeConfiguration;
  hc_ports : option JsValue;
  hc_platforms : option (list ConfigBlock);
  hc_accessories : option (list ConfigBlock)
}.

Record HomebridgeOptions := {
  forceColourLogging : bool;
  insecureAccess : bool;
  noLogTimestamps : bool;
  keepOrphanedCachedAccessories : bool;
  customStoragePath : option string;
  customPluginPath : option string
}.

Record Plugin := {
  getPluginIdentifier : string;
  getPluginPath : string
}.

(** ForkOptions; the field initializer [{}] has neither key. *)
Record ForkOptions := {
  fo_env : option (list (string * string));
  fo_silent : bool
}.

Record ChildMetadata := {
  md_status : ChildBridgeStatus;
  md_paired : option JsValue;
  md_setupUri : option JsValue;
  md_username : string;
  md_pin : option string;
  md_name : string;
  md_plugin : string;
  md_identifier : string;
  md_manuallyStopped : bool;
  md_pid : option nat
}.

(** ** The supervisor object *)

Definition maxRestarts : Z := 4.

Record ChildBridgeService := {
  child : option nat;   (* private child?: ChildProcess (a handle into the process table) *)
  args : list string;
  processEnv : ForkOptions;
  shuttingDown : bool;
  lastBridgeStatus : ChildBridgeStatus;
  pairedStatus : option JsValue;   (* boolean | null by its type; whatever the worker sent at run time *)
  manuallyStopped : bool;
  setupUri : option JsValue;
  pluginConfig : list ConfigBlock;
  log : string;   (* the prefix of the Logging object *)
  displayName : option string;
  restartCount : Z;
  type : PluginType;
  identifier : string;
  plugin : Plugin;
  bridgeConfig : BridgeConfiguration;
  homebridgeConfig : HomebridgeConfig;
  homebridgeOptions : HomebridgeOptions
}.

Definition with_child (v : option nat) (s : ChildBridgeService) : ChildBridgeService :=
  {| child := v; args := args s; processEnv := processEnv s;
     shuttingDown := shuttingDown s; lastBridgeStatus := lastBridgeStatus s;
     pairedStatus := pairedStatus s; manuallyStopped := manuallyStopped s;
     setupUri := setupUri s; pluginConfig := pluginConfig s; log := log s;
     displayName := displayName s; restartCount := restartCount s; type := type s;
     identifier := identifier s; plugin := plugin s; bridgeConfig := bridgeConfig s;
     homebridgeConfig := homebridgeConfig s; homebridgeOptions := homebridgeOptions s |}.

Definition with_args (v : list string) (s : ChildBridgeService) : ChildBridgeService :=
  {| child := child s; args := v; processEnv := processEnv s;
     shuttingDown := shuttingDown s; lastBridgeStatus := lastBridgeStatus s;
     pairedStatus := pairedStatus s; manuallyStopped := manuallyStopped s;
     setupUri := setupUri s; pluginConfig := pluginConfig s; log := log s;
     displayName := displayName s; restartCount := restartCount s; type := type s;
     identifier := identifier s; plugin := plugin s; bridgeConfig := bridgeConfig s;
     homebridgeConfig := homebridgeConfig s; homebridgeOptions := homebridgeOptions s |}.

Definition with_processEnv (v : ForkOptions) (s : ChildBridgeService) : ChildBridgeService :=
  {| child := child s; args := args s; processEnv := v; shuttingDown := shuttingDown s;
     lastBridgeStatus := lastBridgeStatus s; pairedStatus := pairedStatus s;
     manuallyStopped := manuallyStopped s; setupUri := setupUri s;
     pluginConfig := pluginConfig s; log := log s; displayName := displayName s;
     restartCount := restartCount s; type := type s; identifier := identifier s;
     plugin := plugin s; bridgeConfig := bridgeConfig s;
     homebridgeConfig := homebridgeConfig s; homebridgeOptions := homebridgeOptions s |}.

Definition with_shuttingDown (v : bool) (s : ChildBridgeService) : ChildBridgeService :=
  {| child := child s; args := args s; processEnv := processEnv s; shuttingDown := v;
     lastBridgeStatus := lastBridgeStatus s; pairedStatus := pairedStatus s;
     manuallyStopped := manuallyStopped s; setupUri := setupUri s;
     pluginConfig := pluginConfig s; log := log s; displayName := displayName s;
     restartCount := restartCount s; type := type s; identifier := identifier s;
     plugin := plugin s; bridgeConfig := bridgeConfig s;
     homebridgeConfig := homebridgeConfig s; homebridgeOptions := homebridgeOptions s |}.

Definition with_lastBridgeStatus (v : ChildBridgeStatus) (s : ChildBridgeService) : ChildBridgeService :=
  {| child := child s; args := args s; processEnv := processEnv s;
     shuttingDown := shuttingDown s; lastBridgeStatus := v;
     pairedStatus := pairedStatus s; manuallyStopped := manuallyStopped s;
     setupUri := setupUri s; pluginConfig := pluginConfig s; log := log s;
     displayName := displayName s; restartCount := restartCount s; type := type s;
     identifier := identifier s; plugin := plugin s; bridgeConfig := bridgeConfig s;
     homebridgeConfig := homebridgeConfig s; homebridgeOptions := homebridgeOptions s |}.

Definition with_pairedStatus (v : option JsValue) (s : ChildBridgeService) : ChildBridgeService :=
  {| child := child s; args := args s; processEnv := processEnv s;
     shuttingDown := shuttingDown s; lastBridgeStatus := lastBridgeStatus s;
     pairedStatus := v; manuallyStopped := manuallyStopped s; setupUri := setupUri s;
     pluginConfig := pluginConfig s; log := log s; displayName := displayName s;
     restartCount := restartCount s; type := type s; identifier := identifier s;
     plugin := plugin s; bridgeConfig := bridgeConfig s;
     homebridgeConfig := homebridgeConfig s; homebridgeOptions := homebridgeOptions s |}.

Definition with_manuallyStopped (v : bool) (s : ChildBridgeService) : ChildBridgeService :=
  {| child := child s; args := args s; processEnv := processEnv s;
     shuttingDown := shuttingDown s; lastBridgeStatus := lastBridgeStatus s;
     pairedStatus := pairedStatus s; manuallyStopped := v; setupUri := setupUri s;
     pluginConfig := pluginConfig s; log := log s; displayName := displayName s;
     restartCount := restartCount s; type := type s; identifier := identifier s;
     plugin := plugin s; bridgeConfig := bridgeConfig s;
     homebridgeConfig := homebridgeConfig s; homebridgeOptions := homebridgeOptions s |}.

Definition with_setupUri (v : option JsValue) (s : ChildBridgeService) : ChildBridgeService :=
  {| child := child s; args := args s; processEnv := processEnv s;
     shuttingDown := shuttingDown s; lastBridgeStatus := lastBridgeStatus s;
     pairedStatus := pairedStatus s; manuallyStopped := manuallyStopped s; setupUri := v;
     pluginConfig := pluginConfig s; log := log s; displayName := displayName s;
     restartCount := restartCount s; type := type s; identifier := identifier s;
     plugin := plugin s; bridgeConfig := bridgeConfig s;
     homebridgeConfig := homebridgeConfig s; homebridgeOptions := homebridgeOptions s |}.

Definition with_pluginConfig (v : list ConfigBlock) (s : ChildBridgeService) : ChildBridgeService :=
  {| child := child s; args := args s; processEnv := processEnv s;
     shuttingDown := shuttingDown s; lastBridgeStatus := lastBridgeStatus s;
     pairedStatus := pairedStatus s; manuallyStopped := manuallyStopped s;
     setupUri := setupUri s; pluginConfig := v; log := log s;
     displayName := displayName s; restartCount := restartCount s; type := type s;
     identifier := identifier s; plugin := plugin s; bridgeConfig := bridgeConfig s;
     homebridgeConfig := homebridgeConfig s; homebridgeOptions := homebridgeOptions s |}.

Definition with_log (v : string) (s : ChildBridgeService) : ChildBridgeService :=
  {| child := child s; args := args s; processEnv := processEnv s;
     shuttingDown := shuttingDown s; lastBridgeStatus := lastBridgeStatus s;
     pairedStatus := pairedStatus s; manuallyStopped := manuallyStopped s;
     setupUri := setupUri s; pluginConfig := pluginConfig s; log := v;
     displayName := displayName s; restartCount := restartCount s; type := type s;
     identifier := identifier s; plugin := plugin s; bridgeConfig := bridgeConfig s;
     homebridgeConfig := homebridgeConfig s; homebridgeOptions := homebridgeOptions s |}.

Definition with_displayName (v : option string) (s : ChildBridgeService) : ChildBridgeService :=
  {| child := child s; args := args s; processEnv := processEnv s;
     shuttingDown := shuttingDown s; lastBridgeStatus := lastBridgeStatus s;
     pairedStatus := pairedStatus s; manuallyStopped := manuallyStopped s;
     setupUri := setupUri s; pluginConfig := pluginConfig s; log := log s;
     displayName := v; restartCount := restartCount s; type := type s;
     identifier := identifier s; plugin := plugin s; bridgeConfig := bridgeConfig s;
     homebridgeConfig := homebridgeConfig s; homebridgeOptions := homebridgeOptions s |}.

Definition with_restartCount (v : Z) (s : ChildBridgeService) : ChildBridgeService :=
  {| child := child s; args := args s; processEnv := processEnv s;
     shuttingDown := shuttingDown s; lastBridgeStatus := lastBridgeStatus s;
     pairedStatus := pairedStatus s; manuallyStopped := manuallyStopped s;
     setupUri := setupUri s; pluginConfig := pluginConfig s; log := log s;
     displayName := displayName s; restartCount := v; type := type s;
     identifier := identifier s; plugin := plugin s; bridgeConfig := bridgeConfig s;
     homebridgeConfig := homebridgeConfig s; homebridgeOptions := homebridgeOptions s |}.

Definition with_bridgeConfig (v : BridgeConfiguration) (s : ChildBridgeService) : ChildBridgeService :=
  {| child := child s; args := args s; processEnv := processEnv s;
     shuttingDown := shuttingDown s; lastBridgeStatus := lastBridgeStatus s;
     pairedStatus := pairedStatus s; manuallyStopped := manuallyStopped s;
     setupUri := setupUri s; pluginConfig := pluginConfig s; log := log s;
     displayName := displayName s; restartCount := restartCount s; type := type s;
     identifier := identifier s; plugin := plugin s; bridgeConfig := v;
     homebridgeConfig := homebridgeConfig s; homebridgeOptions := homebridgeOptions s |}.

(** ** The runtime around the object *)

(** A forked worker as the parent sees it. *)
Record ChildProcess := {
  connected : bool;       (* subprocess.connected: the IPC channel is open *)
  closeListener : bool;   (* the once('close') listener is still attached *)
  closed : bool           (* 'close' has been emitted *)
}.

Record BridgeOptions := {
  cachedAccessoriesDir : string;
  cachedAccessoriesItemName : string;
  bo_assigned : HomebridgeOptions     (* Object.assign(bridgeOptions, homebridgeOptions) *)
}.

Record ChildProcessLoadEventData := {
  ld_type : PluginType;
  ld_identifier : string;
  ld_pluginPath : string;
  ld_pluginConfig : list ConfigBlock;
  ld_bridgeConfig : BridgeConfiguration;
  ld_homebridgeConfig : HomebridgeConfig;
  ld_bridgeOptions : BridgeOptions
}.

Inductive Payload :=
| NoData
| LoadData (d : ChildProcessLoadEventData)
| PortAllocatedData (username : option JsValue) (port : option nat).

Inductive LogLevel := LInfo | LSuccess | LWarn | LError.

(** The log lines of the class, by their text and interpolated values. *)
Inductive LogMessage :=
| ChildBridgeStarting (pid : option nat)
| StartedSuccessfully (accessories : option nat) (version : option JsValue)
| ChildBridgeProcessError
| ChildBridgeEnded (code : option Z) (signal : option string) (crash : bool)
| WillAutomaticallyRestart (delay attempt max : Z)
| WillNoLongerRestart (failures : Z)
| ChildBridgeRestarting
| ChildBridgeStopping
| AlreadyShuttingDown
| CannotBeStarted
| PlatformConfigNotFound
| AccessoryConfigNotFound
| FailedToRefresh (error : JsError).   (* ends with [error.message], of the error caught *)

(** What the supervisor does to the outside world. *)
Inductive Effect :=
| StatusUpdate (m : ChildMetadata)
    (* ipcService.sendMessage(CHILD_BRIDGE_STATUS_UPDATE, metadata) *)
| Fork (handle : nat) (argv : list string) (opts : ForkOptions)
| Send (handle : nat) (id : ChildProcessMessageEventType) (data : Payload)
| Kill (handle : nat)                      (* child.kill('SIGTERM') *)
| SetTimeout (ms : Z)
| ReadJson                                 (* fs.readJson(User.configPath()) *)
| RequestPort (username : option JsValue)  (* externalPortService.requestPort *)
| UnhandledRejection (e : JsError)
| Log (prefix : string) (level : LogLevel) (msg : LogMessage).

(** Values the process gives the class from outside it. *)
Record Host := {
  process_env : list (string * string);   (* process.env *)
  cachedAccessoryPath : string;           (* User.cachedAccessoryPath() *)
  pids : nat -> option nat                (* the [pid] of the worker with that handle, as
                                             fork() left it: undefined when the spawn failed *)
}.

Record Machine := {
  this : ChildBridgeService;
  host : Host;
  procs : list ChildProcess;          (* every worker forked so far, by handle *)
  timers : list Z;                    (* pending restart timers, their delay in ms *)
  reads : nat;                        (* refreshConfig calls awaiting fs.readJson *)
  portRequests : list (option JsValue);  (* handlePortRequest calls awaiting a port *)
  out : list Effect                   (* outputs so far, oldest first *)
}.

Definition with_this (v : ChildBridgeService) (m : Machine) : Machine :=
  {| this := v; host := host m; procs := procs m; timers := timers m;
     reads := reads m; portRequests := portRequests m; out := out m |}.
Definition with_procs (v : list ChildProcess) (m : Machine) : Machine :=
  {| this := this m; host := host m; procs := v; timers := timers m;
     reads := reads m; portRequests := portRequests m; out := out m |}.
Definition with_timers (v : list Z) (m : Machine) : Machine :=
  {| this := this m; host := host m; procs := procs m; timers := v;
     reads := reads m; portRequests := portRequests m; out := out m |}.
Definition with_reads (v : nat) (m : Machine) : Machine :=
  {| this := this m; host := host m; procs := procs m; timers := timers m;
     reads := v; portRequests := portRequests m; out := out m |}.
Definition with_portRequests (v : list (option JsValue)) (m : Machine) : Machine :=
  {| this := this m; host := host m; procs := procs m; timers := timers m;
     reads := reads m; portRequests := v; out := out m |}.
Definition with_out (v : list Effect) (m : Machine) : Machine :=
  {| this := this m; host := host m; procs := procs m; timers := timers m;
     reads := reads m; portRequests := portRequests m; out := v |}.

(** ** The monad: state, and exceptions that keep the state *)

Definition M (A : Type) : Type := Machine -> Outcome A * Machine.

Definition ret {A : Type} (a : A) : M A := fun m => (Ret a, m).

Definition bind {A B : Type} (c : M A) (k : A -> M B) : M B :=
  fun m =>
    match c m with
    | (Ret a, m') => k a m'
    | (Throw e, m') => (Throw e, m')
    end.

Definition throw {A : Type} (e : JsError) : M A := fun m => (Throw e, m).

Definition lift {A : Type} (o : Outcome A) : M A := fun m => (o, m).

(** try { c } catch (error) { h error } *)
Definition try_catch (c : M unit) (h : JsError -> M unit) : M unit :=
  fun m =>
    match c m with
    | (Ret a, m') => (Ret a, m')
    | (Throw e, m') => h e m'
    end.

Declare Scope js_scope.
Delimit Scope js_scope with js.
Notation "x <- c ;; k" := (bind c (fun x => k))
  (at level 61, c at next level, right associativity) : js_scope.
Notation "c ;; k" := (bind c (fun _ => k))
  (at level 61, right associativity) : js_scope.
Open Scope js_scope.

Definition get : M ChildBridgeService := fun m => (Ret (this m), m).

Definition get_host : M Host := fun m => (Ret (host m), m).

Definition update (f : ChildBridgeService -> ChildBridgeService) : M unit :=
  fun m => (Ret tt, with_this (f (this m)) m).

Definition emit (e : Effect) : M unit :=
  fun m => (Ret tt, with_out (out m ++ [e]) m).

Definition when (b : bool) (c : M unit) : M unit := if b then c else ret tt.

Definition log_line (level : LogLevel) (msg : LogMessage) : M unit :=
  s <- get ;; emit (Log (log s) level msg).

(** ** The methods of ChildBridgeService *)

(** [this.child?.pid] *)
Definition child_pid (h : Host) (s : ChildBridgeService) : option nat :=
  match child s with
  | Some c => pids h c
  | None => None
  end.

(** getMetadata() *)
Definition getMetadata (h : Host) (s : ChildBridgeService) : ChildMetadata :=
  {| md_status := lastBridgeStatus s;     (* the bridgeStatus getter *)
     md_paired := pairedStatus s;
     md_setupUri := setupUri s;
     md_username := bc_username (bridgeConfig s);
     md_pin := str_or (bc_pin (bridgeConfig s)) (bc_pin (hc_bridge (homebridgeConfig s)));
     md_name := str_or_dflt (bc_name (bridgeConfig s))
                  (str_or_dflt (displayName s) (getPluginIdentifier (plugin s)));
     md_plugin := getPluginIdentifier (plugin s);
     md_identifier := identifier s;
     md_manuallyStopped := manuallyStopped s;
     md_pid := child_pid h s |}.

(** sendStatusUpdate() *)
Definition sendStatusUpdate : M unit :=
  h <- get_host ;; s <- get ;; emit (StatusUpdate (getMetadata h s)).

(** The bridgeStatus setter; nothing else writes lastBridgeStatus. *)
Definition set_bridgeStatus (value : ChildBridgeStatus) : M unit :=
  update (with_lastBridgeStatus value) ;;
  sendStatusUpdate.

(** [this.child && this.child.connected] *)
Definition child_connected (m : Machine) : bool :=
  match child (this m) with
  | Some h =>
      match nth_error (procs m) h with
      | Some p => connected p
      | None => false
      end
  | None => false
  end.

(** fork(childBridgeFork.js, this.args, this.processEnv): a new process
    with an open channel; its handle is its place in the table. *)
Definition fork : M nat :=
  fun m =>
    let h := List.length (procs m) in
    (Ret h,
     with_out (out m ++ [Fork h (args (this m)) (processEnv (this m))])
       (with_procs
          (procs m ++ [{| connected := true; closeListener := false; closed := false |}])
          m)).

Fixpoint set_nth {A : Type} (n : nat) (f : A -> A) (l : list A) : list A :=
  match l, n with
  | [], _ => []
  | x :: tl, O => f x :: tl
  | x :: tl, S n' => x :: set_nth n' f tl
  end.

(** child.once('close', ...) and child.removeAllListeners('close') *)
Definition set_closeListener (b : bool) (h : nat) : M unit :=
  fun m =>
    (Ret tt,
     with_procs
       (set_nth h (fun p => {| connected := connected p; closeListener := b;
                               closed := closed p |}) (procs m)) m).

(** startChildProcess(); the 'error', 'close' and 'message' listeners it
    attaches are [on_error], [handleProcessClose] and [on_message] below,
    dispatched by [step]. *)
Definition startChildProcess : M unit :=
  set_bridgeStatus PENDING ;;
  h <- fork ;;
  update (with_child (Some h)) ;;
  set_closeListener true h.

(** setTimeout(() => { if (!this.shuttingDown) this.startChildProcess() }, ms) *)
Definition setTimeout (ms : Z) : M unit :=
  fun m => (Ret tt, with_out (out m ++ [SetTimeout ms]) (with_timers (timers m ++ [ms]) m)).

Definition restart_timer_callback : M unit :=
  s <- get ;;
  if negb (shuttingDown s) then startChildProcess else ret tt.

(** handleProcessClose(code, signal) *)
Definition handleProcessClose (code : option Z) (signal : option string) : M unit :=
  let isLikelyPluginCrash :=
    match code with Some c => Z.eqb c 1 | None => false end
    && match signal with None => true | Some _ => false end in
  log_line LWarn (ChildBridgeEnded code signal isLikelyPluginCrash) ;;
  if isLikelyPluginCrash then
    s <- get ;;
    if (restartCount s <? maxRestarts)%Z then
      set_bridgeStatus PENDING ;;
      update (fun s => with_restartCount (restartCount s + 1)%Z s) ;;
      s <- get ;;
      let delay := (restartCount s * 10)%Z in
      log_line LInfo (WillAutomaticallyRestart delay (restartCount s) maxRestarts) ;;
      setTimeout (delay * 1000)%Z
    else
      set_bridgeStatus DOWN ;;
      update (with_manuallyStopped true) ;;
      log_line LError (WillNoLongerRestart (maxRestarts + 1)%Z)
  else
    s <- get ;;
    if negb (shuttingDown s) then
      set_bridgeStatus DOWN ;;
      update (with_restartCount 0%Z) ;;
      startChildProcess
    else ret tt.

(** sendMessage(type, data) *)
Definition sendMessage (t : ChildProcessMessageEventType) (data : Payload) : M unit :=
  fun m =>
    if child_connected m then
      match child (this m) with
      | Some h => emit (Send h t data) m
      | None => (Ret tt, m)
      end
    else (Ret tt, m).

Definition push_args (l : list string) : M unit :=
  update (fun s => with_args (args s ++ l) s).

(** setProcessFlags() *)
Definition setProcessFlags : M unit :=
  s <- get ;;
  when (bc_debugModeEnabled (bridgeConfig s)) (push_args ["-D"]) ;;
  when (forceColourLogging (homebridgeOptions s)) (push_args ["-C"]) ;;
  when (insecureAccess (homebridgeOptions s)) (push_args ["-I"]) ;;
  when (noLogTimestamps (homebridgeOptions s)) (push_args ["-T"]) ;;
  when (keepOrphanedCachedAccessories (homebridgeOptions s)) (push_args ["-K"]) ;;
  when (str_truthy (customStoragePath (homebridgeOptions s)))
       (push_args ["-U"; str_or_dflt (customStoragePath (homebridgeOptions s)) EmptyString]) ;;
  when (str_truthy (customPluginPath (homebridgeOptions s)))
       (push_args ["-P"; str_or_dflt (customPluginPath (homebridgeOptions s)) EmptyString]).

(** { ...o, k: v }: an existing key keeps its place, a new one goes last. *)
Fixpoint assign (k v : string) (o : list (string * string)) : list (string * string) :=
  match o with
  | [] => [(k, v)]
  | (k', v') :: tl => if String.eqb k k' then (k, v) :: tl else (k', v') :: assign k v tl
  end.

Definition bridge_env (s : ChildBridgeService) (f : BridgeEnvironment -> option string)
  : option string :=
  match bc_env (bridgeConfig s) with
  | Some e => f e
  | None => None
  end.

(** setProcessEnv() *)
Definition setProcessEnv : M unit :=
  fun m =>
    let s := this m in
    let penv := process_env (host m) in
    let debug :=
      trim (str_or_dflt (assoc "DEBUG" penv) EmptyString ++ " "
            ++ str_or_dflt (bridge_env s env_DEBUG) EmptyString)%string in
    let node_options :=
      trim (str_or_dflt (assoc "NODE_OPTIONS" penv) EmptyString ++ " "
            ++ str_or_dflt (bridge_env s env_NODE_OPTIONS) EmptyString)%string in
    update (with_processEnv
              {| fo_env := Some (assign "NODE_OPTIONS" node_options (assign "DEBUG" debug penv));
                 fo_silent := true |}) m.

(** loadPlugin() *)
Definition loadPlugin : M unit :=
  fun m =>
    let s := this m in
    let hb := hc_bridge (homebridgeConfig s) in
    let bridgeConfig' :=
      {| bc_name := Some (str_or_dflt (bc_name (bridgeConfig s))
                            (str_or_dflt (displayName s) (getPluginIdentifier (plugin s))));
         bc_port := bc_port (bridgeConfig s);
         bc_username := bc_username (bridgeConfig s);
         bc_advertiser := bc_advertiser hb;
         bc_pin := str_or (bc_pin (bridgeConfig s)) (bc_pin hb);
         bc_bind := bc_bind hb;
         bc_setupID := bc_setupID (bridgeConfig s);
         bc_manufacturer := str_or (bc_manufacturer (bridgeConfig s)) (bc_manufacturer hb);
         bc_model := str_or (bc_model (bridgeConfig s)) (bc_model hb);
         bc_firmwareRevision :=
           str_or (bc_firmwareRevision (bridgeConfig s)) (bc_firmwareRevision hb);
         bc_debugModeEnabled := false;
         bc_env := None |} in
    let bridgeOptions :=
      {| cachedAccessoriesDir := cachedAccessoryPath (host m);
         cachedAccessoriesItemName :=
           ("cachedAccessories."
            ++ toUpperCase (remove_colons (bc_username (bridgeConfig s))))%string;
         bo_assigned := homebridgeOptions s |} in
    sendMessage LOAD
      (LoadData
         {| ld_type := type s;
            ld_identifier := identifier s;
            ld_pluginPath := getPluginPath (plugin s);
            ld_pluginConfig := pluginConfig s;
            ld_bridgeConfig := bridgeConfig';
            ld_bridgeOptions := bridgeOptions;
            ld_homebridgeConfig :=
              {| hc_bridge := hb;
                 hc_ports := hc_ports (homebridgeConfig s);
                 hc_accessories := Some [];
                 hc_platforms := Some [] |} |}) m.

(** startBridge() *)
Definition startBridge : M unit := sendMessage START NoData.

(** handlePortRequest(request), up to its await: a failure to read
    [request.username] rejects the promise the message handler drops. *)
Definition handlePortRequest (request : option JsValue) : M unit :=
  fun m =>
    match prop request "username" with
    | Throw e => emit (UnhandledRejection e) m
    | Ret u =>
        (Ret tt,
         with_out (out m ++ [RequestPort u]) (with_portRequests (portRequests m ++ [u]) m))
    end.

(** handlePortRequest after the await *)
Definition port_allocated (username : option JsValue) (port : option nat) : M unit :=
  sendMessage PORT_ALLOCATED (PortAllocatedData username port).

(** teardown() *)
Definition teardown : M unit :=
  fun m =>
    if child_connected m then
      (set_bridgeStatus DOWN ;;
       match child (this m) with
       | Some h => emit (Kill h)
       | None => ret tt
       end) m
    else (Ret tt, m).

(** refreshConfig(), up to its await: the read of config.json is started. *)
Definition refreshConfig : M unit :=
  fun m => (Ret tt, with_out (out m ++ [ReadJson]) (with_reads (S (reads m)) m)).

(** What [await fs.readJson(User.configPath())] gives back. *)
Inductive ReadOutcome :=
| ReadFailed (message : string)      (* I/O or parse error *)
| ReadNull                           (* the file holds the JSON value null *)
| ReadOk (homebridgeConfig : HomebridgeConfig).

(** x.platform === this.identifier && x._bridge?.username === this.bridgeConfig.username
    (with [cb_accessory] as [key] for an accessory) *)
Definition block_matches (s : ChildBridgeService) (key : ConfigBlock -> option string)
    (x : ConfigBlock) : bool :=
  match key x with Some k => String.eqb k (identifier s) | None => false end
  && match cb_bridge x with
     | Some b => String.eqb (bc_username b) (bc_username (bridgeConfig s))
     | None => false
     end.

(** The body shared by the two branches on the plugin type; [config] is
    the result of [blocks?.filter(...)], undefined when [blocks] is. *)
Definition use_config (config : option (list ConfigBlock)) (notFound : LogMessage) : M unit :=
  match config with
  | None => throw (TypeError "length")
  | Some [] => log_line LWarn notFound
  | Some (c0 :: rest) =>
      update (with_pluginConfig (c0 :: rest)) ;;
      update (fun s => with_bridgeConfig
                         (match cb_bridge c0 with Some b => b | None => bridgeConfig s end) s)
  end.

(** refreshConfig() after its await, with its try/catch. *)
Definition refreshConfig_resume (r : ReadOutcome) : M unit :=
  try_catch
    (match r with
     | ReadFailed msg => throw (IoError msg)
     | ReadNull =>
         s <- get ;;
         throw (TypeError match type s with PLATFORM => "platforms" | ACCESSORY => "accessories" end)
     | ReadOk hc =>
         s <- get ;;
         match type s with
         | PLATFORM =>
             use_config (option_map (filter (block_matches s cb_platform)) (hc_platforms hc))
               PlatformConfigNotFound
         | ACCESSORY =>
             use_config (option_map (filter (block_matches s cb_accessory)) (hc_accessories hc))
               AccessoryConfigNotFound
         end
     end)
    (fun error => log_line LError (FailedToRefresh error)).

(** startChildBridge() *)
Definition startChildBridge : M unit :=
  fun m =>
    let s := this m in
    if manuallyStopped s
       && match lastBridgeStatus s with DOWN => true | _ => false end
       && negb (child_connected m)
    then
      (refreshConfig ;;
       startChildProcess ;;
       update (with_shuttingDown false) ;;
       update (with_manuallyStopped false)) m
    else log_line LWarn CannotBeStarted m.

(** restartChildBridge() *)
Definition restartChildBridge : M unit :=
  s <- get ;;
  if manuallyStopped s then
    update (with_restartCount 0%Z) ;;
    startChildBridge
  else
    log_line LWarn ChildBridgeRestarting ;;
    refreshConfig ;;
    teardown.

(** stopChildBridge() *)
Definition stopChildBridge : M unit :=
  s <- get ;;
  if negb (shuttingDown s) then
    log_line LWarn ChildBridgeStopping ;;
    update (with_shuttingDown true) ;;
    update (with_manuallyStopped true) ;;
    update (with_restartCount 0%Z) ;;
    set_bridgeStatus DOWN ;;
    match child s with
    | Some h => set_closeListener false h
    | None => ret tt
    end ;;
    teardown
  else
    log_line LWarn AlreadyShuttingDown.

(** start() *)
Definition start : M unit :=
  setProcessFlags ;;
  setProcessEnv ;;
  startChildProcess ;;
  s <- get ;;
  (if (1 <? List.length (pluginConfig s)) || (List.length (pluginConfig s) =? 0) then
     update (with_displayName (Some (getPluginIdentifier (plugin s))))
   else
     update (with_displayName
               (Some (str_or_dflt
                        match pluginConfig s with c :: _ => cb_name c | [] => None end
                        (getPluginIdentifier (plugin s)))))) ;;
  s <- get ;;
  update (with_log match displayName s with Some d => d | None => EmptyString end).

(** addConfig(config) *)
Definition addConfig (config : ConfigBlock) : M unit :=
  update (fun s => with_pluginConfig (pluginConfig s ++ [config]) s).

(** The 'error' listener of a worker. *)
Definition on_error : M unit :=
  set_bridgeStatus DOWN ;;
  log_line LError ChildBridgeProcessError.

(** The 'message' listener of a worker. A pid, when there is one, is
    positive, so the truthiness test in the READY log line is a test for
    a pid that is defined. *)
Definition on_message (message : JsValue) : M unit :=
  if negb (is_object_type (typeof message)) then ret tt
  else
    id <- lift (prop (Some message) "id") ;;
    if negb (truthy id) then ret tt
    else
      match id with
      | Some (JStr tag) =>
          if String.eqb tag (event_id READY) then
            h <- get_host ;;
            s <- get ;;
            log_line LInfo (ChildBridgeStarting (child_pid h s)) ;;
            loadPlugin
          else if String.eqb tag (event_id LOADED) then
            data <- lift (prop (Some message) "data") ;;
            version <- lift (prop data "version") ;;
            s <- get ;;
            (if 1 <? List.length (pluginConfig s) then
               log_line LSuccess
                 (StartedSuccessfully (Some (List.length (pluginConfig s))) version)
             else log_line LSuccess (StartedSuccessfully None version)) ;;
            startBridge
          else if String.eqb tag (event_id ONLINE) then
            set_bridgeStatus OK
          else if String.eqb tag (event_id PORT_REQUEST) then
            data <- lift (prop (Some message) "data") ;;
            handlePortRequest data
          else if String.eqb tag (event_id STATUS_UPDATE) then
            data <- lift (prop (Some message) "data") ;;
            paired <- lift (prop data "paired") ;;
            update (with_pairedStatus paired) ;;
            uri <- lift (prop data "setupUri") ;;
            update (with_setupUri uri) ;;
            sendStatusUpdate
          else ret tt
      | _ => ret tt
      end.

(** The api 'shutdown' listener the constructor registers. *)
Definition on_shutdown : M unit :=
  update (with_shuttingDown true) ;;
  teardown.

(** new ChildBridgeService(...): the field initializers and the
    constructor body. *)
Definition constructor (type : PluginType) (identifier : string) (plugin : Plugin)
    (bridgeConfig : BridgeConfiguration) (homebridgeConfig : HomebridgeConfig)
    (homebridgeOptions : HomebridgeOptions) : ChildBridgeService :=
  {| child := None;
     args := [];
     processEnv := {| fo_env := None; fo_silent := false |};
     shuttingDown := false;
     lastBridgeStatus := PENDING;
     pairedStatus := Some JNull;
     manuallyStopped := false;
     setupUri := Some JNull;
     pluginConfig := [];
     log := getPluginIdentifier plugin;
     displayName := None;
     restartCount := 0%Z;
     type := type;
     identifier := identifier;
     plugin := plugin;
     bridgeConfig := bridgeConfig;
     homebridgeConfig := homebridgeConfig;
     homebridgeOptions := homebridgeOptions |}.

(** The machine a new supervisor starts in: no worker, no timer, no output. *)
Definition boot (h : Host) (s : ChildBridgeService) : Machine :=
  {| this := s; host := h; procs := []; timers := []; reads := 0;
     portRequests := []; out := [] |}.

(** ** The event loop: what can happen to a supervisor *)

Inductive Event :=
| CallStart
| CallAddConfig (config : ConfigBlock)
| CallRestartChildBridge
| CallStopChildBridge
| CallStartChildBridge
| CallRefreshConfig
| ApiShutdown
| ProcMessage (h : nat) (message : JsValue)
| ProcError (h : nat)
| ProcDisconnect (h : nat)
| ProcClose (h : nat) (code : option Z) (signal : option string)
| TimerFired (k : nat)
| ConfigRead (r : ReadOutcome)
| PortResolved (k : nat) (port : option nat).

Fixpoint remove_nth {A : Type} (n : nat) (l : list A) : list A :=
  match l, n with
  | [], _ => []
  | _ :: tl, O => tl
  | x :: tl, S n' => x :: remove_nth n' tl
  end.

(** One turn of the event loop; [None] when the event cannot happen in
    this machine (a message from a worker whose channel is gone, a timer
    that is not pending, ...). A worker emits 'close' once, after its IPC
    channel has ended, and the listener was attached with [once]. *)
Definition step (e : Event) (m : Machine) : option (Outcome unit * Machine) :=
  match e with
  | CallStart => Some (start m)
  | CallAddConfig c => Some (addConfig c m)
  | CallRestartChildBridge => Some (restartChildBridge m)
  | CallStopChildBridge => Some (stopChildBridge m)
  | CallStartChildBridge => Some (startChildBridge m)
  | CallRefreshConfig => Some (refreshConfig m)
  | ApiShutdown => Some (on_shutdown m)
  | ProcMessage h v =>
      match nth_error (procs m) h with
      | Some p => if connected p then Some (on_message v m) else None
      | None => None
      end
  | ProcError h =>
      match nth_error (procs m) h with
      | Some p => if closed p then None else Some (on_error m)
      | None => None
      end
  | ProcDisconnect h =>
      match nth_error (procs m) h with
      | Some p =>
          if connected p then
            Some (Ret tt,
                  with_procs
                    (set_nth h (fun p => {| connected := false;
                                            closeListener := closeListener p;
                                            closed := closed p |}) (procs m)) m)
          else None
      | None => None
      end
  | ProcClose h code signal =>
      match nth_error (procs m) h with
      | Some p =>
          if closed p then None
          else
            let m1 :=
              with_procs
                (set_nth h (fun _ => {| connected := false; closeListener := false;
                                        closed := true |}) (procs m)) m in
            Some (if closeListener p then handleProcessClose code signal m1
                  else (Ret tt, m1))
      | None => None
      end
  | TimerFired k =>
      match nth_error (timers m) k with
      | Some _ => Some (restart_timer_callback (with_timers (remove_nth k (timers m)) m))
      | None => None
      end
  | ConfigRead r =>
      match reads m with
      | S n => Some (refreshConfig_resume r (with_reads n m))
      | O => None
      end
  | PortResolved k port =>
      match nth_error (portRequests m) k with
      | Some u =>
          Some (port_allocated u port
                  (with_portRequests (remove_nth k (portRequests m)) m))
      | None => None
      end
  end.

(** A run of events; an exception no handler catches ends it. *)
Fixpoint run (es : list Event) (m : Machine) : option (Outcome unit * Machine) :=
  match es with
  | [] => Some (Ret tt, m)
  | e :: tl =>
      match step e m with
      | Some (Ret _, m') => run tl m'
      | Some (Throw err, m') => Some (Throw err, m')
      | None => None
      end
  end.

(** The outputs a computation added. *)
Definition emitted (before after : Machine) : list Effect :=
  skipn (List.length (out before)) (out after).

Definition is_fork (e : Effect) : bool :=
  match e with Fork _ _ _ => true | _ => false end.
Definition is_set_timeout (e : Effect) : bool :=
  match e with SetTimeout _ => true | _ => false end.
Definition is_kill (e : Effect) : bool :=
  match e with Kill _ => true | _ => false end.
Definition is_status_update (e : Effect) : bool :=
  match e with StatusUpdate _ => true | _ => false end.

(** ** A sample supervisor, for the concrete runs below *)

Definition sample_bridge : BridgeConfiguration :=
  {| bc_name := None; bc_username := "0E:3C:22:18:EC:79"; bc_pin := None;
     bc_port := None; bc_advertiser := None; bc_bind := None; bc_setupID := None;
     bc_manufacturer := None; bc_model := None; bc_firmwareRevision := None;
     bc_debugModeEnabled := true; bc_env := None |}.

Definition sample_host_bridge : BridgeConfiguration :=
  {| bc_name := Some "Homebridge"; bc_username := "CC:22:3D:E3:CE:30";
     bc_pin := Some "031-45-154"; bc_port := Some 51826%Z; bc_advertiser := None;
     bc_bind := None; bc_setupID := None; bc_manufacturer := None; bc_model := None;
     bc_firmwareRevision := None; bc_debugModeEnabled := false; bc_env := None |}.

Definition sample_block : ConfigBlock :=
  {| cb_platform := Some "ExamplePlatform"; cb_accessory := None;
     cb_name := Some "Example"; cb_bridge := Some sample_bridge; cb_rest := [] |}.

Definition sample_supervisor : ChildBridgeService :=
  constructor PLATFORM "ExamplePlatform"
    {| getPluginIdentifier := "homebridge-example";
       getPluginPath := "/usr/lib/node_modules/homebridge-example" |}
    sample_bridge
    {| hc_bridge := sample_host_bridge; hc_ports := None;
       hc_platforms := Some [sample_block]; hc_accessories := None |}
    {| forceColourLogging := false; insecureAccess := false; noLogTimestamps := false;
       keepOrphanedCachedAccessories := false; customStoragePath := None;
       customPluginPath := None |}.

Definition sample_host : Host :=
  {| process_env := [("PATH", "/usr/bin")];
     cachedAccessoryPath := "/var/lib/homebridge/accessories";
     pids := fun h => Some (100 + h) |}.

(** The orchestrator attaches the block, then starts the supervisor. *)
Definition sample_machine : Machine :=
  snd (addConfig sample_block (boot sample_host sample_supervisor)).

Definition crash (h : nat) : Event := ProcClose h (Some 1%Z) None.

(** ** Vocabulary of the statements *)

(** code === 1 && signal === null *)
Definition likely_crash (code : option Z) (signal : option string) : bool :=
  match code with Some c => Z.eqb c 1 | None => false end
  && match signal with None => true | Some _ => false end.

(** A worker that has gone: it emitted 'close' and its channel is shut. *)
Definition gone (p : ChildProcess) : bool := closed p && negb (connected p).

(** A crash-close of some worker, or a restart timer firing. *)
Definition backoff_event (e : Event) : bool :=
  match e with
  | ProcClose _ code signal => likely_crash code signal
  | TimerFired _ => true
  | _ => false
  end.

Definition crash_close (e : Event) : bool :=
  match e with
  | ProcClose _ code signal => likely_crash code signal
  | _ => false
  end.

Definition crash_count (es : list Event) : nat := List.length (filter crash_close es).

(** The calls that start a worker on request: start(), startChildBridge()
    and restartChildBridge(), which calls startChildBridge(). *)
Definition explicit_start (e : Event) : bool :=
  match e with
  | CallStart | CallStartChildBridge | CallRestartChildBridge => true
  | _ => false
  end.

(** One live worker, the current child, forked last; no timer pending. *)
Definition running (k : nat) (m : Machine) : Prop :=
  restartCount (this m) = Z.of_nat k /\ k <= 4 /\
  shuttingDown (this m) = false /\ timers m = [] /\
  exists ps c,
    procs m = ps ++ [{| connected := c; closeListener := true; closed := false |}]
    /\ forallb gone ps = true.

(** No live worker; one restart timer pending. *)
Definition waiting (k : nat) (m : Machine) : Prop :=
  restartCount (this m) = Z.of_nat k /\ 1 <= k <= 4 /\
  shuttingDown (this m) = false /\ (exists d, timers m = [d]) /\
  forallb gone (procs m) = true.

(** The supervisor has given up: Down, manually stopped, nothing live and
    nothing pending. *)
Definition given_up (m : Machine) : Prop :=
  lastBridgeStatus (this m) = DOWN /\ manuallyStopped (this m) = true /\
  timers m = [] /\ forallb gone (procs m) = true.

(** The status the listener heard last, [d] if it heard none. *)
Fixpoint last_status (l : list Effect) (d : ChildBridgeStatus) : ChildBridgeStatus :=
  match l with
  | [] => d
  | StatusUpdate md :: tl => last_status tl (md_status md)
  | _ :: tl => last_status tl d
  end.

(** The events that set restartCount to 0, with the state they need. *)
Definition resets_restartCount (e : Event) (m : Machine) : Prop :=
  match e with
  | ProcClose h code signal =>
      likely_crash code signal = false /\ shuttingDown (this m) = false
  | CallRestartChildBridge => manuallyStopped (this m) = true
  | CallStopChildBridge => shuttingDown (this m) = false
  | _ => False
  end.

(** The launch flags setProcessFlags() appends. *)
Definition launch_flags (s : ChildBridgeService) : list string :=
  (if bc_debugModeEnabled (bridgeConfig s) then ["-D"] else [])
  ++ (if forceColourLogging (homebridgeOptions s) then ["-C"] else [])
  ++ (if insecureAccess (homebridgeOptions s) then ["-I"] else [])
  ++ (if noLogTimestamps (homebridgeOptions s) then ["-T"] else [])
  ++ (if keepOrphanedCachedAccessories (homebridgeOptions s) then ["-K"] else [])
  ++ (if str_truthy (customStoragePath (homebridgeOptions s))
      then ["-U"; str_or_dflt (customStoragePath (homebridgeOptions s)) EmptyString]
      else [])
  ++ (if str_truthy (customPluginPath (homebridgeOptions s))
      then ["-P"; str_or_dflt (customPluginPath (homebridgeOptions s)) EmptyString]
      else []).

(** The blocks of a configuration file a supervisor looks at. *)
Definition candidate_blocks (s : ChildBridgeService) (hc : HomebridgeConfig)
  : list ConfigBlock :=
  match type s with
  | PLATFORM => match hc_platforms hc with Some l => l | None => [] end
  | ACCESSORY => match hc_accessories hc with Some l => l | None => [] end
  end.

(** A block is for this supervisor: same plugin identity under the key of
    the supervisor's type, and a bridge block with the same username. *)
Definition block_is_for (s : ChildBridgeService) (x : ConfigBlock) : Prop :=
  match type s with
  | PLATFORM => cb_platform x = Some (identifier s)
  | ACCESSORY => cb_accessory x = Some (identifier s)
  end
  /\ exists b, cb_bridge x = Some b /\ bc_username b = bc_username (bridgeConfig s).

(** The read gave nothing to use: it failed, or no block is for this
    supervisor. *)
Definition nothing_to_use (s : ChildBridgeService) (r : ReadOutcome) : Prop :=
  match r with
  | ReadFailed _ => True
  | ReadNull => True
  | ReadOk hc => forall x, In x (candidate_blocks s hc) -> ~ block_is_for s x
  end.

(** A message the handler has no case for: not an object, without a
    truthy [id], or with an [id] that is none of the five tags handled. *)
Definition handled_tag (tag : string) : bool :=
  String.eqb tag (event_id READY) || String.eqb tag (event_id LOADED)
  || String.eqb tag (event_id ONLINE) || String.eqb tag (event_id PORT_REQUEST)
  || String.eqb tag (event_id STATUS_UPDATE).

Definition unrecognized (message : JsValue) : bool :=
  match message with
  | JObj fields =>
      match assoc "id" fields with
      | Some (JStr tag) => negb (handled_tag tag)
      | _ => true
      end
  | _ => true
  end.

(** The machine after a run from which every step returned. *)
Definition after (es : list Event) (m : Machine) : Machine :=
  match run es m with
  | Some (_, m') => m'
  | None => m
  end.


(** A worker as [startChildProcess] leaves it. *)
Definition new_worker : ChildProcess :=
  {| connected := true; closeListener := true; closed := false |}.

(** The machine stopChildBridge() has made when it calls teardown(). *)
Definition stopping (m : Machine) : Machine :=
  {| this := with_lastBridgeStatus DOWN
               (with_restartCount 0%Z
                  (with_manuallyStopped true (with_shuttingDown true (this m))));
     host := host m;
     procs := match child (this m) with
              | Some h =>
                  set_nth h (fun p => {| connected := connected p; closeListener := false;
                                         closed := closed p |}) (procs m)
              | None => procs m
              end;
     timers := timers m;
     reads := reads m;
     portRequests := portRequests m;
     out := out m ++
            [Log (log (this m)) LWarn ChildBridgeStopping;
             StatusUpdate
               (getMetadata (host m)
                  (with_lastBridgeStatus DOWN
                     (with_restartCount 0%Z
                        (with_manuallyStopped true (with_shuttingDown true (this m))))))] |}.

(** The blocks of a file that are for this supervisor, in file order. *)
Definition kept_blocks (s : ChildBridgeService) (hc : HomebridgeConfig) : list ConfigBlock :=
  filter (block_matches s match type s with PLATFORM => cb_platform | ACCESSORY => cb_accessory end)
    (candidate_blocks s hc).

(** The options start() forks the worker with. *)
Definition worker_options (m : Machine) : ForkOptions :=
  let penv := process_env (host m) in
  {| fo_env :=
       Some (assign "NODE_OPTIONS"
               (trim (str_or_dflt (assoc "NODE_OPTIONS" penv) EmptyString ++ " "
                      ++ str_or_dflt (bridge_env (this m) env_NODE_OPTIONS) EmptyString)%string)
               (assign "DEBUG"
                  (trim (str_or_dflt (assoc "DEBUG" penv) EmptyString ++ " "
                         ++ str_or_dflt (bridge_env (this m) env_DEBUG) EmptyString)%string)
                  penv));
     fo_silent := true |}.

(** The display name start() computes: the name of the only block when
    there is exactly one and it has a name, else the plugin's identifier. *)
Definition display_name (s : ChildBridgeService) : string :=
  match pluginConfig s with
  | [c] => str_or_dflt (cb_name c) (getPluginIdentifier (plugin s))
  | _ => getPluginIdentifier (plugin s)
  end.

(** The object after start(), given the handle of the worker it forked. *)
Definition started (m : Machine) : ChildBridgeService :=
  with_log (display_name (this m))
    (with_displayName (Some (display_name (this m)))
       (with_child (Some (List.length (procs m)))
          (with_lastBridgeStatus PENDING
             (with_processEnv (worker_options m)
                (with_args (args (this m) ++ launch_flags (this m)) (this m)))))).

(** The turns that run a method with an assignment to restartCount:
    restartChildBridge(), stopChildBridge() and the close listener. *)
Definition writes_restartCount (e : Event) : bool :=
  match e with
  | CallRestartChildBridge | CallStopChildBridge | ProcClose _ _ _ => true
  | _ => false
  end.

(** The outputs from [m] to [m'] end with the status [m'] is in: whatever
    the listener heard last is the status. *)
Definition heard (m m' : Machine) : Prop :=
  exists l,
    out m' = out m ++ l
    /\ last_status l (lastBridgeStatus (this m)) = lastBridgeStatus (this m').

Definition same_count (m m' : Machine) : Prop :=
  restartCount (this m') = restartCount (this m).

(** The run of a worker that crashes every time it is started, the first
    time after the handshake. *)
Definition five_crashes : list Event :=
  [ProcMessage 0 (JObj [("id", JStr "ready")]);
   ProcMessage 0 (JObj [("id", JStr "loaded"); ("data", JObj [("version", JStr "1.0.0")])]);
   ProcMessage 0 (JObj [("id", JStr "online")]);
   crash 0; TimerFired 0; crash 1; TimerFired 0; crash 2; TimerFired 0;
   crash 3; TimerFired 0; crash 4].

(** A stop and a start within the first backoff delay, so that the timer
    of the first crash is still pending when startChildBridge() forks:
    workers 1 and 2 then run side by side, and both keep crashing. *)
Definition stop_start_in_backoff : list Event :=
  [CallStart; crash 0; CallStopChildBridge; CallStartChildBridge; TimerFired 0].

Definition two_workers_crashing : list Event :=
  stop_start_in_backoff
  ++ [crash 1; TimerFired 0; crash 2; TimerFired 0; crash 3; TimerFired 0;
      crash 4; TimerFired 0; crash 5].

(** The machine start() leaves. *)
Definition started_machine (m : Machine) : Machine :=
  {| this := started m;
     host := host m;
     procs := procs m ++ [new_worker];
     timers := timers m;
     reads := reads m;
     portRequests := portRequests m;
     out := out m ++
            [StatusUpdate
               (getMetadata (host m)
                  (with_lastBridgeStatus PENDING
                     (with_processEnv (worker_options m)
                        (with_args (args (this m) ++ launch_flags (this m)) (this m)))));
             Fork (List.length (procs m)) (args (this m) ++ launch_flags (this m))
               (worker_options m)] |}.

(** A computation keeps the relation [R] between the machine it starts in
    and the machine it ends in, whether it returns or throws. *)
Definition preserves (R : Machine -> Machine -> Prop) {A : Type} (c : M A) : Prop :=
  forall m, R m (snd (c m)).


(** The turns that concern neither the workers' lives nor the calls that
    start and stop: messages and errors of a worker, configuration, ports. *)
Definition quiet_event (e : Event) : bool :=
  match e with
  | CallAddConfig _ | CallRefreshConfig | ProcMessage _ _ | ProcError _
  | ConfigRead _ | PortResolved _ _ => true
  | _ => false
  end.

(** What the backoff policy reads and writes is as it was. *)
Definition control_same (m m' : Machine) : Prop :=
  restartCount (this m') = restartCount (this m)
  /\ shuttingDown (this m') = shuttingDown (this m)
  /\ manuallyStopped (this m') = manuallyStopped (this m)
  /\ procs m' = procs m
  /\ timers m' = timers m.

(** The turns of a run in which a worker keeps crashing and nobody starts
    or stops the supervisor: crash-closes, restart timers, and the turns
    that touch neither; no other close, no call to start(), stop or
    restart, no shutdown of the api. *)
Definition crashing_run_event (e : Event) : bool :=
  backoff_event e || quiet_event e
  || match e with ProcDisconnect _ => true | _ => false end.

(** Where such a run stands after [k] crash-closes. *)
Definition phase (k : nat) (m : Machine) : Prop :=
  (k <= 4 /\ (running k m \/ waiting k m)) \/ (k = 5 /\ given_up m).

(** ** Vocabulary of the further properties *)

(** From [m] to [m'] the property [I] is kept and every output added
    satisfies [P]. *)
Definition emits (I : Machine -> Prop) (P : Effect -> bool) (m m' : Machine) : Prop :=
  I m -> I m' /\ exists l, out m' = out m ++ l /\ forallb P l = true.


(** The messages of a worker, as childBridgeFork sends them. *)
Definition msg_ready : JsValue := JObj [("id", JStr "ready")].
Definition msg_loaded (version : JsValue) : JsValue :=
  JObj [("id", JStr "loaded"); ("data", JObj [("version", version)])].
Definition msg_online : JsValue := JObj [("id", JStr "online")].
Definition msg_portRequest (data : JsValue) : JsValue :=
  JObj [("id", JStr "portRequest"); ("data", data)].
Definition msg_status_data (data : JsValue) : JsValue :=
  JObj [("id", JStr "status"); ("data", data)].
Definition msg_status (paired uri : JsValue) : JsValue :=
  msg_status_data (JObj [("paired", paired); ("setupUri", uri)]).

(** The payload of the LOAD message loadPlugin() sends. *)
Definition load_data (m : Machine) : ChildProcessLoadEventData :=
  let s := this m in
  let hb := hc_bridge (homebridgeConfig s) in
  {| ld_type := type s;
     ld_identifier := identifier s;
     ld_pluginPath := getPluginPath (plugin s);
     ld_pluginConfig := pluginConfig s;
     ld_bridgeConfig :=
       {| bc_name := Some (str_or_dflt (bc_name (bridgeConfig s))
                             (str_or_dflt (displayName s) (getPluginIdentifier (plugin s))));
          bc_port := bc_port (bridgeConfig s);
          bc_username := bc_username (bridgeConfig s);
          bc_advertiser := bc_advertiser hb;
          bc_pin := str_or (bc_pin (bridgeConfig s)) (bc_pin hb);
          bc_bind := bc_bind hb;
          bc_setupID := bc_setupID (bridgeConfig s);
          bc_manufacturer := str_or (bc_manufacturer (bridgeConfig s)) (bc_manufacturer hb);
          bc_model := str_or (bc_model (bridgeConfig s)) (bc_model hb);
          bc_firmwareRevision :=
            str_or (bc_firmwareRevision (bridgeConfig s)) (bc_firmwareRevision hb);
          bc_debugModeEnabled := false;
          bc_env := None |};
     ld_bridgeOptions :=
       {| cachedAccessoriesDir := cachedAccessoryPath (host m);
          cachedAccessoriesItemName :=
            ("cachedAccessories."
             ++ toUpperCase (remove_colons (bc_username (bridgeConfig s))))%string;
          bo_assigned := homebridgeOptions s |};
     ld_homebridgeConfig :=
       {| hc_bridge := hb;
          hc_ports := hc_ports (homebridgeConfig s);
          hc_accessories := Some [];
          hc_platforms := Some [] |} |}.

(** A message goes to worker [h], when there is one; anything else passes. *)
Definition sent_to (h : option nat) (e : Effect) : bool :=
  match e with
  | Send h' _ _ => match h with Some h0 => Nat.eqb h' h0 | None => false end
  | _ => true
  end.

(** The child a turn that starts in [m] can send to. *)
Definition addressee (m : Machine) : option nat :=
  if child_connected m then child (this m) else None.

(** What a message of a worker leaves as it was: the worker table, the
    timers, the reads in flight, and every field of the object but the
    status and the pairing data. *)
Definition message_frame (m m' : Machine) : Prop :=
  child (this m') = child (this m)
  /\ args (this m') = args (this m)
  /\ processEnv (this m') = processEnv (this m)
  /\ shuttingDown (this m') = shuttingDown (this m)
  /\ manuallyStopped (this m') = manuallyStopped (this m)
  /\ pluginConfig (this m') = pluginConfig (this m)
  /\ log (this m') = log (this m)
  /\ displayName (this m') = displayName (this m)
  /\ restartCount (this m') = restartCount (this m)
  /\ bridgeConfig (this m') = bridgeConfig (this m)
  /\ procs m' = procs m /\ timers m' = timers m /\ reads m' = reads m.

(** The outputs the message listener can make. *)
Definition message_output (e : Effect) : bool :=
  match e with
  | Log _ _ _ | StatusUpdate _ | Send _ _ _ | RequestPort _ | UnhandledRejection _ => true
  | _ => false
  end.

Definition no_fork (e : Effect) : bool := negb (is_fork e).

(** What only start() writes. *)
Definition launch_settings (m : Machine) : list string * ForkOptions * option string * string :=
  (args (this m), processEnv (this m), displayName (this m), log (this m)).

Definition calls_start (e : Event) : bool :=
  match e with CallStart => true | _ => false end.

(** A worker whose 'close' has been handled. *)
Definition closed_worker : ChildProcess :=
  {| connected := false; closeListener := false; closed := true |}.

(** The delays of the restart timers, in milliseconds. *)
Definition backoff_delays : list Z := [10000; 20000; 30000; 40000]%Z.

(** The restart count is between 0 and maxRestarts, and every pending
    timer has one of the four delays. *)
Definition within_bounds (m : Machine) : Prop :=
  (0 <= restartCount (this m) <= maxRestarts)%Z
  /\ Forall (fun d => In d backoff_delays) (timers m).

(** The status notifications among some outputs, oldest first. *)
Fixpoint notifications (l : list Effect) : list ChildMetadata :=
  match l with
  | [] => []
  | StatusUpdate md :: tl => md :: notifications tl
  | _ :: tl => notifications tl
  end.

(** A status notification that names the bridge [u] of plugin [pl] under
    the identifier [i]; any other output passes. *)
Definition names_bridge (u i pl : string) (e : Effect) : bool :=
  match e with
  | StatusUpdate md =>
      String.eqb (md_username md) u && String.eqb (md_identifier md) i
      && String.eqb (md_plugin md) pl
  | _ => true
  end.

(** ** Strings, for the statements about the environment and the cache *)

Definition starts_with_space (s : string) : bool :=
  match s with
  | String c _ => is_space c
  | EmptyString => false
  end.

(** Neither the first nor the last character is white space. *)
Definition trimmed (s : string) : Prop :=
  starts_with_space s = false /\ starts_with_space (rev_string s EmptyString) = false.

Fixpoint string_exists (f : ascii -> bool) (s : string) : bool :=
  match s with
  | EmptyString => false
  | String c tl => f c || string_exists f tl
  end.

(** Every character is an ASCII character, below 128: on such text the
    white space String.prototype.trim removes is the white space
    [is_space] tests for. *)
Definition ascii_only (s : string) : Prop :=
  string_exists (fun c => Nat.leb 128 (nat_of_ascii c)) s = false.

(** A value as the statements on the environment take it: ASCII, with no
    white space at either end. *)
Definition plain (s : string) : Prop := ascii_only s /\ trimmed s.

(** The two optional values joined as a list of words: both, with one
    space between, or the one that is set, or the empty string. *)
Definition joined (a b : option string) : string :=
  match str_truthy a, str_truthy b with
  | true, true => (str_or_dflt a EmptyString ++ " " ++ str_or_dflt b EmptyString)%string
  | true, false => str_or_dflt a EmptyString
  | false, true => str_or_dflt b EmptyString
  | false, false => EmptyString
  end.

Definition is_colon (c : ascii) : bool := Ascii.eqb c ":"%char.

Definition is_lower (c : ascii) : bool :=
  Nat.leb 97 (nat_of_ascii c) && Nat.leb (nat_of_ascii c) 122.

(** A supervisor whose bridge block sets DEBUG, in a process that sets it
    too. *)
Definition sample_env_machine : Machine :=
  boot {| process_env := [("PATH", "/usr/bin"); ("DEBUG", "HAP-NodeJS:*")];
          cachedAccessoryPath := "/var/lib/homebridge/accessories";
          pids := pids sample_host |}
    (with_bridgeConfig
       {| bc_name := None; bc_username := "0E:3C:22:18:EC:79"; bc_pin := None;
          bc_port := None; bc_advertiser := None; bc_bind := None; bc_setupID := None;
          bc_manufacturer := None; bc_model := None; bc_firmwareRevision := None;
          bc_debugModeEnabled := false;
          bc_env := Some {| env_DEBUG := Some "homebridge-example:*";
                            env_NODE_OPTIONS := None |} |}
       sample_supervisor).

(** The name of the cache file of a bridge with this username. *)
Definition cache_item_name (username : string) : string :=
  ("cachedAccessories." ++ toUpperCase (remove_colons username))%string.

(** ** Vocabulary of the statement on notifications *)

(** A notification carries the current metadata snapshot of the object
    [s], in the process [h]: field by field, the schema of the snapshot. *)
Definition carries (h : Host) (s : ChildBridgeService) (md : ChildMetadata) : Prop :=
  md_status md = lastBridgeStatus s
  /\ md_paired md = pairedStatus s
  /\ md_setupUri md = setupUri s
  /\ md_username md = bc_username (bridgeConfig s)
  /\ md_pin md = str_or (bc_pin (bridgeConfig s)) (bc_pin (hc_bridge (homebridgeConfig s)))
  /\ md_name md = str_or_dflt (bc_name (bridgeConfig s))
                    (str_or_dflt (displayName s) (getPluginIdentifier (plugin s)))
  /\ md_plugin md = getPluginIdentifier (plugin s)
  /\ md_identifier md = identifier s
  /\ md_manuallyStopped md = manuallyStopped s
  /\ md_pid md = match child s with
                 | Some c => pids h c
                 | None => None
                 end.

(** The condition of startChildBridge(). *)
Definition accepts_start (m : Machine) : bool :=
  manuallyStopped (this m)
  && match lastBridgeStatus (this m) with DOWN => true | _ => false end
  && negb (child_connected m).

(** What the 'message' listener publishes: for ONLINE, the object with
    the status Ok it assigns; for STATUS whose data can be read, the
    object with the pairing state and the setup URI of the message (the
    one notification sent without an assignment to the status);
    otherwise nothing. *)
Definition published_by_message (message : JsValue) (s : ChildBridgeService)
  : list ChildBridgeService :=
  match message with
  | JObj fields =>
      match assoc "id" fields with
      | Some (JStr tag) =>
          if String.eqb tag "online" then [with_lastBridgeStatus OK s]
          else if String.eqb tag "status" then
            match prop (assoc "data" fields) "paired",
                  prop (assoc "data" fields) "setupUri" with
            | Ret paired, Ret uri => [with_setupUri uri (with_pairedStatus paired s)]
            | _, _ => []
            end
          else []
      | _ => []
      end
  | _ => []
  end.

(** The objects a turn publishes, in order: the object as it is right
    after each assignment to the status that the turn's path through the
    source makes. start(), the restart timer and an accepted
    startChildBridge() assign Pending in startChildProcess(); the 'error'
    listener assigns Down; a close assigns Pending when it schedules a
    restart, Down when it gives up, and Down and then Pending when it
    respawns at once; stopChildBridge() assigns Down itself and teardown()
    assigns Down again when the child is connected, as it does for
    restartChildBridge() and for the shutdown of the api. *)
Definition published (e : Event) (m : Machine) : list ChildBridgeService :=
  let s := this m in
  match e with
  | CallStart =>
      [with_lastBridgeStatus PENDING
         (with_processEnv (worker_options m) (with_args (args s ++ launch_flags s) s))]
  | CallStartChildBridge =>
      if accepts_start m then [with_lastBridgeStatus PENDING s] else []
  | CallRestartChildBridge =>
      if manuallyStopped s then
        if accepts_start m
        then [with_lastBridgeStatus PENDING (with_restartCount 0%Z s)]
        else []
      else if child_connected m then [with_lastBridgeStatus DOWN s] else []
  | CallStopChildBridge =>
      if shuttingDown s then []
      else this (stopping m) :: (if child_connected m then [this (stopping m)] else [])
  | ApiShutdown =>
      if child_connected m
      then [with_lastBridgeStatus DOWN (with_shuttingDown true s)]
      else []
  | ProcMessage _ message => published_by_message message s
  | ProcError _ => [with_lastBridgeStatus DOWN s]
  | ProcClose h code signal =>
      match nth_error (procs m) h with
      | Some p =>
          if closeListener p then
            if likely_crash code signal then
              if (restartCount s <? maxRestarts)%Z
              then [with_lastBridgeStatus PENDING s]
              else [with_lastBridgeStatus DOWN s]
            else if shuttingDown s then []
            else [with_lastBridgeStatus DOWN s;
                  with_lastBridgeStatus PENDING
                    (with_restartCount 0%Z (with_lastBridgeStatus DOWN s))]
          else []
      | None => []
      end
  | TimerFired _ => if shuttingDown s then [] else [with_lastBridgeStatus PENDING s]
  | CallAddConfig _ | CallRefreshConfig | ProcDisconnect _ | ConfigRead _
  | PortResolved _ _ => []
  end.

(** From [m] to [m'] the notifications sent are the snapshots of [snaps],
    in order, and the status is the last one published, or as it was. *)
Definition publishes (m : Machine) (snaps : list ChildBridgeService) (m' : Machine) : Prop :=
  notifications (emitted m m') = map (getMetadata (host m)) snaps
  /\ lastBridgeStatus (this m') = last (map lastBridgeStatus snaps) (lastBridgeStatus (this m)).

(** * logger.ts *)

Module Logger.

(** enum LogLevel *)
Inductive LogLevel := INFO | SUCCESS | WARN | ERROR | DEBUG.

(** The colours of chalk the logger uses. *)
Inductive Colour := Green | Yellow | Red | Gray | Cyan | White.

(** console.log writes to stdout, console.error to stderr. *)
Inductive Stream := Stdout | Stderr.

(** A line is a concatenation of pieces of text, each plain or passed
    through one of chalk's colours. *)
Inductive Piece :=
| Plain (s : string)
| Styled (c : Colour) (s : string).

Record Line := {
  stream : Stream;
  pieces : list Piece
}.

(** A logging device: [Logger.internal], made with no prefix, or an object
    made by [withPrefix]. [ident] tells the objects apart, as [===] does. *)
Record Logging := {
  ident : nat;
  prefix : option string
}.

(** The static fields of the class, chalk's level as far as forceColor()
    sets it, and the number of devices made so far. *)
Record Statics := {
  loggerCache : list (string * Logging);   (* Map<string, Logging>, in insertion order *)
  debugEnabled : bool;
  timestampEnabled : bool;
  chalk_level : option nat;
  made : nat
}.

(** static readonly internal = new Logger() *)
Definition internal : Logging := {| ident := 0; prefix := None |}.

(** The class when the module has been loaded. *)
Definition loaded : Statics :=
  {| loggerCache := []; debugEnabled := false; timestampEnabled := true;
     chalk_level := None; made := 1 |}.

(** Logger.withPrefix(prefix); a device, being a function, is truthy. *)
Definition withPrefix (p : string) (st : Statics) : Logging * Statics :=
  match assoc p (loggerCache st) with
  | Some loggerStuff => (loggerStuff, st)
  | None =>
      let logging := {| ident := made st; prefix := Some p |} in
      (logging,
       {| loggerCache := loggerCache st ++ [(p, logging)];
          debugEnabled := debugEnabled st;
          timestampEnabled := timestampEnabled st;
          chalk_level := chalk_level st;
          made := S (made st) |})
  end.

Definition setDebugEnabled (enabled : bool) (st : Statics) : Statics :=
  {| loggerCache := loggerCache st; debugEnabled := enabled;
     timestampEnabled := timestampEnabled st; chalk_level := chalk_level st;
     made := made st |}.

Definition setTimestampEnabled (enabled : bool) (st : Statics) : Statics :=
  {| loggerCache := loggerCache st; debugEnabled := debugEnabled st;
     timestampEnabled := enabled; chalk_level := chalk_level st; made := made st |}.

(** chalk.level = 1 *)
Definition forceColor (st : Statics) : Statics :=
  {| loggerCache := loggerCache st; debugEnabled := debugEnabled st;
     timestampEnabled := timestampEnabled st; chalk_level := Some 1; made := made st |}.

(** getLogPrefix(prefix) *)
Definition getLogPrefix (p : string) : Piece := Styled Cyan ("[" ++ p ++ "]")%string.

Definition is_DEBUG (level : LogLevel) : bool :=
  match level with DEBUG => true | _ => false end.

Section Log.

(** util.format, of node:util. *)
Variable util_format : string -> list JsValue -> string.

(** log(level, message, ...parameters), called on the device [self] when
    [new Date().toLocaleString()] gives [now]: the lines written, none or
    one. *)
Definition log (st : Statics) (self : Logging) (now : string) (level : LogLevel)
    (message : string) (parameters : list JsValue) : list Line :=
  if is_DEBUG level && negb (debugEnabled st) then []
  else
    let message := util_format message parameters in
    let '(message, loggingFunction) :=
      match level with
      | SUCCESS => ([Styled Green message], Stdout)
      | WARN => ([Styled Yellow message], Stderr)
      | ERROR => ([Styled Red message], Stderr)
      | DEBUG => ([Styled Gray message], Stdout)
      | INFO => ([Plain message], Stdout)
      end in
    let message :=
      if str_truthy (prefix self)
      then getLogPrefix (str_or_dflt (prefix self) EmptyString) :: Plain " " :: message
      else message in
    let message :=
      if timestampEnabled st
      then Styled White ("[" ++ now ++ "] ")%string :: message
      else message in
    [{| stream := loggingFunction; pieces := message |}].

Definition info st self now := log st self now INFO.
Definition success st self now := log st self now SUCCESS.
Definition warn st self now := log st self now WARN.
Definition error st self now := log st self now ERROR.
Definition debug st self now := log st self now DEBUG.

End Log.

(** A run of calls to withPrefix: the devices returned, in order. *)
Fixpoint withPrefixes (ps : list string) (st : Statics) : list Logging * Statics :=
  match ps with
  | [] => ([], st)
  | p :: tl =>
      let '(l, st1) := withPrefix p st in
      let '(ls, st2) := withPrefixes tl st1 in
      (l :: ls, st2)
  end.

End Logger.

(** * cli.ts *)

Module Cli.

(** The variables the option callbacks of commander set. *)
Record Flags := {
  insecureAccess : bool;
  hideQRCode : bool;
  keepOrphans : bool;
  customPluginPath : option string;
  strictPluginResolution : bool;
  noLogTimestamps : bool;
  debugModeEnabled : bool;
  forceColourLogging : bool;
  customStoragePath : option string
}.

(** The part of cli() that configures the logger from the flags. *)
Definition configure_logger (f : Flags) (st : Logger.Statics) : Logger.Statics :=
  let st := if noLogTimestamps f then Logger.setTimestampEnabled false st else st in
  let st := if debugModeEnabled f then Logger.setDebugEnabled true st else st in
  if forceColourLogging f then Logger.forceColor st else st.

Inductive Signals := SIGINT | SIGTERM.

(** What the handlers of cli() do to the process and the server. *)
Inductive Output :=
| LogGotSignal (signal : Signals)     (* log.info('Got %s, shutting down Homebridge...') *)
| SetExitTimer (code : Z) (ms : Z)    (* setTimeout(() => process.exit(code), ms) *)
| ServerTeardown                      (* server.teardown() *)
| LogStack (stack : option JsValue)   (* log.error(error.stack) *)
| KillSelf (signal : Signals)         (* process.kill(process.pid, signal) *)
| Exit (code : Z)                     (* process.exit(code) *)
| Rejected (e : JsError).             (* the promise of server.start().catch(errorHandler)
                                         is rejected, and nothing handles it *)

(** How the process has ended. *)
Inductive Ending :=
| ExitCode (code : Z)                 (* process.exit(code) ran *)
| HandlerThrew (e : JsError).         (* the 'uncaughtException' listener itself threw *)

Record State := {
  shuttingDown : bool;
  exitTimers : list Z;        (* pending exit timers, by exit code *)
  ended : option Ending;
  out : list Output
}.

(** The closure state when cli() returns. *)
Definition started : State :=
  {| shuttingDown := false; exitTimers := []; ended := None; out := [] |}.

Definition print (o : Output) (s : State) : State :=
  {| shuttingDown := shuttingDown s; exitTimers := exitTimers s; ended := ended s;
     out := out s ++ [o] |}.

(** signalHandler(signal, signalNum) *)
Definition signalHandler (signal : Signals) (signalNum : Z) (s : State) : State :=
  if shuttingDown s then s
  else
    {| shuttingDown := true;
       exitTimers := exitTimers s ++ [(128 + signalNum)%Z];
       ended := ended s;
       out := out s ++ [LogGotSignal signal; SetExitTimer (128 + signalNum)%Z 5000%Z;
                        ServerTeardown] |}.

(** errorHandler(error), for whatever was thrown or given as the reason of
    the rejection: [None] is undefined. Reading [error.stack] throws when
    the value is null or undefined. *)
Definition errorHandler (error : option JsValue) (s : State) : Outcome unit * State :=
  match prop error "stack" with
  | Throw e => (Throw e, s)
  | Ret stack =>
      let s1 := if truthy stack then print (LogStack stack) s else s in
      (Ret tt, if negb (shuttingDown s1) then print (KillSelf SIGTERM) s1 else s1)
  end.

Inductive Event :=
| Signal (signal : Signals)                    (* the process receives the signal *)
| UncaughtException (error : option JsValue)   (* process 'uncaughtException' *)
| StartRejected (error : option JsValue)       (* server.start() rejects *)
| ExitTimerFired (k : nat).

(** One turn; [None] when the process has ended or the timer is not
    pending. The listeners are bound as
    [signalHandler.bind(undefined, 'SIGINT', 2)] and
    [signalHandler.bind(undefined, 'SIGTERM', 15)]. An exception that
    leaves the 'uncaughtException' listener ends the process; one that
    leaves the handler given to [catch] rejects the promise [catch]
    returned. *)
Definition step (e : Event) (s : State) : option State :=
  match ended s with
  | Some _ => None
  | None =>
      match e with
      | Signal SIGINT => Some (signalHandler SIGINT 2%Z s)
      | Signal SIGTERM => Some (signalHandler SIGTERM 15%Z s)
      | UncaughtException error =>
          match errorHandler error s with
          | (Ret _, s') => Some s'
          | (Throw err, s') =>
              Some {| shuttingDown := shuttingDown s'; exitTimers := exitTimers s';
                      ended := Some (HandlerThrew err); out := out s' |}
          end
      | StartRejected error =>
          match errorHandler error s with
          | (Ret _, s') => Some s'
          | (Throw err, s') => Some (print (Rejected err) s')
          end
      | ExitTimerFired k =>
          match nth_error (exitTimers s) k with
          | Some code =>
              Some {| shuttingDown := shuttingDown s;
                      exitTimers := remove_nth k (exitTimers s);
                      ended := Some (ExitCode code);
                      out := out s ++ [Exit code] |}
          | None => None
          end
      end
  end.

Fixpoint run (es : list Event) (s : State) : option State :=
  match es with
  | [] => Some s
  | e :: tl =>
      match step e s with
      | Some s' => run tl s'
      | None => None
      end
  end.

(** The first signal among some events. *)
Fixpoint first_signal (es : list Event) : option Signals :=
  match es with
  | [] => None
  | Signal sig :: _ => Some sig
  | _ :: tl => first_signal tl
  end.

Definition exit_code (sig : Signals) : Z :=
  match sig with SIGINT => 130%Z | SIGTERM => 143%Z end.

(** What the first signal makes the handler do. *)
Definition shutdown_outputs (sig : option Signals) : list Output :=
  match sig with
  | Some s => [LogGotSignal s; SetExitTimer (exit_code s) 5000%Z; ServerTeardown]
  | None => []
  end.

Definition is_signal_output (o : Output) : bool :=
  match o with
  | LogGotSignal _ | SetExitTimer _ _ | ServerTeardown => true
  | _ => false
  end.

(** null and undefined, the values that have no properties. *)
Definition nullish (error : option JsValue) : bool :=
  match error with
  | None | Some JNull => true
  | _ => false
  end.

(** An uncaught exception whose value is null or undefined. *)
Definition throws_nullish (e : Event) : bool :=
  match e with
  | UncaughtException error => nullish error
  | _ => false
  end.

Definition is_KillSelf (o : Output) : bool :=
  match o with KillSelf _ => true | _ => false end.

Definition is_LogStack (o : Output) : bool :=
  match o with LogStack _ => true | _ => false end.

Definition is_Rejected (o : Output) : bool :=
  match o with Rejected _ => true | _ => false end.

(** The error an event brings to errorHandler, if it is an error event. *)
Definition error_of (e : Event) : option (option JsValue) :=
  match e with
  | UncaughtException error | StartRejected error => Some error
  | _ => None
  end.

(** The events before the first signal. *)
Fixpoint before_signal (es : list Event) : list Event :=
  match es with
  | [] => []
  | Signal _ :: _ => []
  | e :: tl => e :: before_signal tl
  end.

(** The stacks logged for the error events of a run: one for each error
    that is not null or undefined and has a truthy [stack]. *)
Fixpoint logged_stacks (es : list Event) : list Output :=
  match es with
  | [] => []
  | e :: tl =>
      match error_of e with
      | Some error =>
          match prop error "stack" with
          | Ret stack =>
              if truthy stack then LogStack stack :: logged_stacks tl else logged_stacks tl
          | Throw _ => logged_stacks tl
          end
      | None => logged_stacks tl
      end
  end.

(** One SIGTERM to the process itself for each error event whose error
    is not null or undefined. *)
Fixpoint self_signals (es : list Event) : list Output :=
  match es with
  | [] => []
  | e :: tl =>
      match error_of e with
      | Some error =>
          if nullish error then self_signals tl else KillSelf SIGTERM :: self_signals tl
      | None => self_signals tl
      end
  end.

(** The rejections nothing handles: one for each rejection of
    server.start() whose reason is null or undefined. *)
Fixpoint unhandled (es : list Event) : list Output :=
  match es with
  | [] => []
  | StartRejected error :: tl =>
      match prop error "stack" with
      | Throw err => Rejected err :: unhandled tl
      | Ret _ => unhandled tl
      end
  | _ :: tl => unhandled tl
  end.

End Cli.

(** The cache answers for every prefix with a device of that prefix. *)
Definition cache_ok (st : Logger.Statics) : Prop :=
  forall q l, assoc q (Logger.loggerCache st) = Some l -> Logger.prefix l = Some q.

(** What is cached stays cached. *)
Definition cache_grows (st st' : Logger.Statics) : Prop :=
  forall q l, assoc q (Logger.loggerCache st) = Some l ->
              assoc q (Logger.loggerCache st') = Some l.

Definition is_some {A : Type} (a : option A) : bool :=
  match a with Some _ => true | None => false end.

Definition or_else {A : Type} (a b : option A) : option A :=
  match a with Some _ => a | None => b end.

(** What holds of the closure state of cli() when [fs] is the first signal
    received so far, if any. *)
Definition shutdown_state (fs : option Cli.Signals) (s : Cli.State) : Prop :=
  Cli.shuttingDown s = is_some fs
  /\ filter Cli.is_signal_output (Cli.out s) = Cli.shutdown_outputs fs
  /\ (forall code, In code (Cli.exitTimers s) ->
        exists sig, fs = Some sig /\ code = Cli.exit_code sig)
  /\ (forall code, Cli.ended s = Some (Cli.ExitCode code) ->
        exists sig, fs = Some sig /\ code = Cli.exit_code sig).

(** The body of a line: the formatted message in the colour of its level. *)
Definition body (level : Logger.LogLevel) (text : string) : Logger.Piece :=
  match level with
  | Logger.INFO => Logger.Plain text
  | Logger.SUCCESS => Logger.Styled Logger.Green text
  | Logger.WARN => Logger.Styled Logger.Yellow text
  | Logger.ERROR => Logger.Styled Logger.Red text
  | Logger.DEBUG => Logger.Styled Logger.Gray text
  end.

Definition goes_to (level : Logger.LogLevel) : Logger.Stream :=
  match level with
  | Logger.WARN | Logger.ERROR => Logger.Stderr
  | _ => Logger.Stdout
  end.
(** * Theorems *)

Ltac js := cbn -[Z.ltb Z.mul Z.add maxRestarts].

Ltac flat := rewrite <- ?app_assoc; cbn [app].

Lemma existsb_app_false {A : Type} (f : A -> bool) (l1 l2 : list A) :
  existsb f l1 = false -> existsb f l2 = false -> existsb f (l1 ++ l2) = false.
Proof.
  intros H1 H2. rewrite existsb_app, H1, H2. reflexivity.
Qed.

Lemma set_nth_last {A : Type} (f : A -> A) (l : list A) (x : A) :
  set_nth (List.length l) f (l ++ [x]) = l ++ [f x].
Proof.
  induction l as [|a l IH]; cbn; [reflexivity | now rewrite IH].
Qed.

Lemma length_set_nth {A : Type} (f : A -> A) (n : nat) (l : list A) :
  List.length (set_nth n f l) = List.length l.
Proof.
  revert n. induction l as [|a l IH]; intros [|n]; cbn; auto.
Qed.

Lemma nth_error_set_nth {A : Type} (f : A -> A) (n k : nat) (l : list A) :
  nth_error (set_nth n f l) k =
  if Nat.eqb n k then option_map f (nth_error l k) else nth_error l k.
Proof.
  revert n k.
  induction l as [|a l IH]; intros [|n] [|k]; cbn; auto;
    destruct (Nat.eqb n k); reflexivity.
Qed.

(** ** What each path of the class does, as one equation per path *)

Lemma startChildProcess_eq (m : Machine) :
  startChildProcess m =
  (Ret tt,
   {| this := with_child (Some (List.length (procs m)))
                (with_lastBridgeStatus PENDING (this m));
      host := host m;
      procs := procs m ++ [new_worker];
      timers := timers m;
      reads := reads m;
      portRequests := portRequests m;
      out := out m ++ [StatusUpdate (getMetadata (host m) (with_lastBridgeStatus PENDING (this m)));
                       Fork (List.length (procs m)) (args (this m)) (processEnv (this m))] |}).
Proof.
  unfold startChildProcess, set_bridgeStatus, sendStatusUpdate, get_host, fork, set_closeListener,
    bind, update, emit, get.
  cbn. rewrite set_nth_last. flat. reflexivity.
Qed.

Lemma handleProcessClose_backoff (code : option Z) (signal : option string) (m : Machine) :
  likely_crash code signal = true ->
  (restartCount (this m) < maxRestarts)%Z ->
  handleProcessClose code signal m =
  (Ret tt,
   {| this := with_restartCount (restartCount (this m) + 1)%Z
                (with_lastBridgeStatus PENDING (this m));
      host := host m;
      procs := procs m;
      timers := timers m ++ [((restartCount (this m) + 1) * 10 * 1000)%Z];
      reads := reads m;
      portRequests := portRequests m;
      out := out m ++
             [Log (log (this m)) LWarn (ChildBridgeEnded code signal true);
              StatusUpdate (getMetadata (host m) (with_lastBridgeStatus PENDING (this m)));
              Log (log (this m)) LInfo
                (WillAutomaticallyRestart ((restartCount (this m) + 1) * 10)%Z
                   (restartCount (this m) + 1)%Z maxRestarts);
              SetTimeout ((restartCount (this m) + 1) * 10 * 1000)%Z] |}).
Proof.
  intros Hc Hlt. apply Z.ltb_lt in Hlt.
  unfold handleProcessClose. unfold likely_crash in Hc. cbv zeta. rewrite Hc.
  unfold set_bridgeStatus, sendStatusUpdate, get_host, log_line, setTimeout, bind, update, emit, get.
  js. rewrite Hlt. js. flat. reflexivity.
Qed.

Lemma handleProcessClose_give_up (code : option Z) (signal : option string) (m : Machine) :
  likely_crash code signal = true ->
  (maxRestarts <= restartCount (this m))%Z ->
  handleProcessClose code signal m =
  (Ret tt,
   {| this := with_manuallyStopped true (with_lastBridgeStatus DOWN (this m));
      host := host m;
      procs := procs m;
      timers := timers m;
      reads := reads m;
      portRequests := portRequests m;
      out := out m ++
             [Log (log (this m)) LWarn (ChildBridgeEnded code signal true);
              StatusUpdate (getMetadata (host m) (with_lastBridgeStatus DOWN (this m)));
              Log (log (this m)) LError (WillNoLongerRestart (maxRestarts + 1)%Z)] |}).
Proof.
  intros Hc Hge. apply Z.ltb_ge in Hge.
  unfold handleProcessClose. unfold likely_crash in Hc. cbv zeta. rewrite Hc.
  unfold set_bridgeStatus, sendStatusUpdate, get_host, log_line, bind, update, emit, get.
  js. rewrite Hge. js. flat. reflexivity.
Qed.

Lemma handleProcessClose_respawn (code : option Z) (signal : option string) (m : Machine) :
  likely_crash code signal = false ->
  shuttingDown (this m) = false ->
  handleProcessClose code signal m =
  (Ret tt,
   {| this := with_child (Some (List.length (procs m)))
                (with_lastBridgeStatus PENDING
                   (with_restartCount 0%Z (with_lastBridgeStatus DOWN (this m))));
      host := host m;
      procs := procs m ++ [new_worker];
      timers := timers m;
      reads := reads m;
      portRequests := portRequests m;
      out := out m ++
             [Log (log (this m)) LWarn (ChildBridgeEnded code signal false);
              StatusUpdate (getMetadata (host m) (with_lastBridgeStatus DOWN (this m)));
              StatusUpdate
                (getMetadata (host m)
                   (with_lastBridgeStatus PENDING
                      (with_restartCount 0%Z (with_lastBridgeStatus DOWN (this m)))));
              Fork (List.length (procs m)) (args (this m)) (processEnv (this m))] |}).
Proof.
  intros Hc Hs.
  unfold handleProcessClose. unfold likely_crash in Hc. cbv zeta. rewrite Hc.
  unfold bind at 1. unfold bind at 1.
  unfold log_line at 1. unfold bind at 1. unfold get at 1, emit at 1, get at 1.
  cbn [this with_out]. rewrite Hs. cbn [negb].
  unfold bind at 1. unfold bind at 1.
  unfold set_bridgeStatus, sendStatusUpdate, get_host, bind, update, emit, get.
  cbn [this with_this with_out out].
  rewrite startChildProcess_eq. js. flat. reflexivity.
Qed.

Lemma handleProcessClose_ignore (code : option Z) (signal : option string) (m : Machine) :
  likely_crash code signal = false ->
  shuttingDown (this m) = true ->
  handleProcessClose code signal m =
  (Ret tt,
   with_out (out m ++ [Log (log (this m)) LWarn (ChildBridgeEnded code signal false)]) m).
Proof.
  intros Hc Hs.
  unfold handleProcessClose. unfold likely_crash in Hc. cbv zeta. rewrite Hc.
  unfold log_line, bind, update, emit, get. js. rewrite Hs. reflexivity.
Qed.

Lemma restart_timer_callback_eq (m : Machine) :
  restart_timer_callback m =
  if shuttingDown (this m) then (Ret tt, m) else startChildProcess m.
Proof.
  unfold restart_timer_callback, bind, get, ret.
  destruct (shuttingDown (this m)); reflexivity.
Qed.


Lemma likely_crash_inv (code : option Z) (signal : option string) :
  likely_crash code signal = true -> code = Some 1%Z /\ signal = None.
Proof.
  unfold likely_crash. destruct code as [c|]; [|discriminate].
  destruct signal as [s|]; [rewrite andb_false_r; discriminate|].
  rewrite andb_true_r. intros H. apply Z.eqb_eq in H. subst. split; reflexivity.
Qed.


(** ** Relations every handler keeps

    A relation between the machine before and after a computation that is
    reflexive and transitive and is kept by the elementary writes a method
    is made of, is kept by the method, whether it returns or throws. Each
    lemma asks of the relation only what the writes of its method need, so
    the same lemmas serve for the status the listener heard last, for
    restartCount, and for the state the backoff policy reads. *)

Section Preserved.

Variable R : Machine -> Machine -> Prop.

Hypothesis R_refl : forall m, R m m.
Hypothesis R_trans : forall m1 m2 m3, R m1 m2 -> R m2 m3 -> R m1 m3.
Hypothesis R_emit :
  forall m e, is_status_update e = false -> R m (with_out (out m ++ [e]) m).
Hypothesis R_notify :
  forall m, R m (with_out (out m ++ [StatusUpdate (getMetadata (host m) (this m))]) m).
Hypothesis R_status : forall v m, R m (snd (set_bridgeStatus v m)).
Hypothesis R_update :
  forall f m,
    (forall s, lastBridgeStatus (f s) = lastBridgeStatus s) ->
    (forall s, restartCount (f s) = restartCount s) ->
    (forall s, shuttingDown (f s) = shuttingDown s) ->
    (forall s, manuallyStopped (f s) = manuallyStopped s) ->
    R m (with_this (f (this m)) m).
Hypothesis R_reads : forall m n, R m (with_reads n m).
Hypothesis R_ports : forall m l, R m (with_portRequests l m).

Lemma preserves_ret {A : Type} (a : A) : preserves R (ret a).
Proof. intros m. apply R_refl. Qed.

Lemma preserves_throw {A : Type} (e : JsError) : preserves R (@throw A e).
Proof. intros m. apply R_refl. Qed.

Lemma preserves_lift {A : Type} (o : Outcome A) : preserves R (lift o).
Proof. intros m. apply R_refl. Qed.

Lemma preserves_get_host : preserves R get_host.
Proof. intros m. apply R_refl. Qed.

Lemma preserves_get : preserves R get.
Proof. intros m. apply R_refl. Qed.

Lemma preserves_bind {A B : Type} (c : M A) (k : A -> M B) :
  preserves R c -> (forall a, preserves R (k a)) -> preserves R (bind c k).
Proof.
  intros Hc Hk m. unfold bind. specialize (Hc m).
  destruct (c m) as [[a|e] m1]; cbn [snd] in *.
  - apply R_trans with m1; [exact Hc | apply Hk].
  - exact Hc.
Qed.

Lemma preserves_try_catch (c : M unit) (h : JsError -> M unit) :
  preserves R c -> (forall e, preserves R (h e)) -> preserves R (try_catch c h).
Proof.
  intros Hc Hh m. unfold try_catch. specialize (Hc m).
  destruct (c m) as [[a|e] m1]; cbn [snd] in *.
  - exact Hc.
  - apply R_trans with m1; [exact Hc | apply Hh].
Qed.

Lemma preserves_when (b : bool) (c : M unit) : preserves R c -> preserves R (when b c).
Proof. intros Hc. destruct b; [exact Hc | apply preserves_ret]. Qed.

Lemma preserves_update (f : ChildBridgeService -> ChildBridgeService) :
  (forall s, lastBridgeStatus (f s) = lastBridgeStatus s) ->
  (forall s, restartCount (f s) = restartCount s) ->
  (forall s, shuttingDown (f s) = shuttingDown s) ->
  (forall s, manuallyStopped (f s) = manuallyStopped s) ->
  preserves R (update f).
Proof. intros H1 H2 H3 H4 m. apply R_update; assumption. Qed.

Lemma preserves_emit (e : Effect) : is_status_update e = false -> preserves R (emit e).
Proof. intros He m. apply R_emit, He. Qed.

Lemma preserves_log_line (lvl : LogLevel) (msg : LogMessage) :
  preserves R (log_line lvl msg).
Proof.
  apply preserves_bind; [apply preserves_get | intros s; now apply preserves_emit].
Qed.

Lemma preserves_sendStatusUpdate : preserves R sendStatusUpdate.
Proof. intros m. apply R_notify. Qed.

Lemma preserves_set_bridgeStatus (v : ChildBridgeStatus) : preserves R (set_bridgeStatus v).
Proof. intros m. apply R_status. Qed.

Lemma preserves_refreshConfig : preserves R refreshConfig.
Proof.
  intros m. unfold refreshConfig. cbn [snd].
  apply R_trans with (with_reads (S (reads m)) m).
  - apply R_reads.
  - apply (R_emit (with_reads _ m)). reflexivity.
Qed.

Ltac step_preserves :=
  first
    [ match goal with H : _ |- _ => solve [apply H] end
    | apply preserves_ret | apply preserves_throw | apply preserves_lift
    | apply preserves_get | apply preserves_get_host | apply preserves_log_line
    | apply preserves_sendStatusUpdate
    | apply preserves_set_bridgeStatus | apply preserves_refreshConfig
    | apply preserves_emit; reflexivity
    | apply preserves_update; intros; reflexivity
    | apply preserves_when
    | apply preserves_bind; [| intros ? ]
    | apply preserves_try_catch; [| intros ? ]
    | match goal with
      | |- preserves R (if ?b then _ else _) => destruct b
      | |- preserves R (match ?x with _ => _ end) => destruct x
      end ].

Ltac preserved := repeat step_preserves.

Lemma preserves_sendMessage (t : ChildProcessMessageEventType) (d : Payload) :
  preserves R (sendMessage t d).
Proof.
  intros m. unfold sendMessage.
  destruct (child_connected m); [|apply R_refl].
  destruct (child (this m)); [|apply R_refl].
  now apply preserves_emit.
Qed.

Lemma preserves_setProcessFlags : preserves R setProcessFlags.
Proof. unfold setProcessFlags, push_args. preserved. Qed.

Lemma preserves_setProcessEnv : preserves R setProcessEnv.
Proof.
  intros m. unfold setProcessEnv. apply preserves_update; intros; reflexivity.
Qed.

Lemma preserves_loadPlugin : preserves R loadPlugin.
Proof. intros m. unfold loadPlugin. apply preserves_sendMessage. Qed.

Lemma preserves_handlePortRequest (request : option JsValue) :
  preserves R (handlePortRequest request).
Proof.
  intros m. unfold handlePortRequest.
  destruct (prop request "username") as [u|e]; cbn [snd].
  - apply R_trans with (with_portRequests (portRequests m ++ [u]) m).
    + apply R_ports.
    + apply (R_emit (with_portRequests _ m)). reflexivity.
  - now apply preserves_emit.
Qed.

Lemma preserves_teardown : preserves R teardown.
Proof.
  intros m. unfold teardown. destruct (child_connected m); [|apply R_refl].
  set (ch := child (this m)). clearbody ch. revert m.
  change (preserves R
    (set_bridgeStatus DOWN ;;
     match ch with Some h => emit (Kill h) | None => ret tt end)).
  preserved.
Qed.

Lemma preserves_port_allocated (u : option JsValue) (port : option nat) :
  preserves R (port_allocated u port).
Proof. apply preserves_sendMessage. Qed.

Lemma preserves_use_config (config : option (list ConfigBlock)) (msg : LogMessage) :
  preserves R (use_config config msg).
Proof. unfold use_config. preserved. Qed.

Lemma preserves_refreshConfig_resume (r : ReadOutcome) :
  preserves R (refreshConfig_resume r).
Proof.
  pose proof preserves_use_config.
  unfold refreshConfig_resume. preserved.
Qed.

Lemma preserves_addConfig (c : ConfigBlock) : preserves R (addConfig c).
Proof. unfold addConfig. preserved. Qed.

Lemma preserves_on_error : preserves R on_error.
Proof. unfold on_error. preserved. Qed.

Lemma preserves_on_message (message : JsValue) : preserves R (on_message message).
Proof.
  pose proof preserves_loadPlugin. pose proof preserves_handlePortRequest.
  pose proof (preserves_sendMessage START NoData).
  unfold on_message, startBridge. preserved.
Qed.

(** restartChildBridge() on a supervisor that was not stopped by hand. *)
Lemma preserves_reload_and_teardown :
  preserves R (log_line LWarn ChildBridgeRestarting ;; refreshConfig ;; teardown).
Proof. pose proof preserves_teardown. preserved. Qed.

Lemma preserves_run (c : M unit) (m w : Machine) (o : Outcome unit) (m' : Machine) :
  preserves R c -> R m w -> Some (c w) = Some (o, m') -> R m m'.
Proof.
  intros Hc Hw Heq. inversion Heq as [Hcw].
  apply R_trans with w; [exact Hw|].
  specialize (Hc w). rewrite Hcw in Hc. exact Hc.
Qed.

(** The turns that leave the workers, the timers and the flags alone:
    messages and errors of a worker, configuration, ports. *)
Lemma preserves_step_quiet (e : Event) (m : Machine) (o : Outcome unit) (m' : Machine) :
  quiet_event e = true -> step e m = Some (o, m') -> R m m'.
Proof.
  intros He Hstep.
  destruct e; try discriminate He; unfold step in Hstep.
  - apply (preserves_run _ m m o m' (preserves_addConfig config) (R_refl m) Hstep).
  - apply (preserves_run _ m m o m' preserves_refreshConfig (R_refl m) Hstep).
  - destruct (nth_error (procs m) h) as [p|]; [|discriminate].
    destruct (connected p); [|discriminate].
    apply (preserves_run _ m m o m' (preserves_on_message message) (R_refl m) Hstep).
  - destruct (nth_error (procs m) h) as [p|]; [|discriminate].
    destruct (closed p); [discriminate|].
    apply (preserves_run _ m m o m' preserves_on_error (R_refl m) Hstep).
  - destruct (reads m) as [|n]; [discriminate|].
    apply (preserves_run _ m _ o m' (preserves_refreshConfig_resume r) (R_reads m n) Hstep).
  - destruct (nth_error (portRequests m) k) as [u|]; [|discriminate].
    apply (preserves_run _ m _ o m' (preserves_port_allocated u port)
             (R_ports m (remove_nth k (portRequests m))) Hstep).
Qed.

(** The methods that fork, set timers or write the two flags. *)
Section WithWorkers.

Hypothesis R_procs : forall m ps, R m (with_procs ps m).
Hypothesis R_timers : forall m ts, R m (with_timers ts m).
Hypothesis R_flags :
  forall f m,
    (forall s, lastBridgeStatus (f s) = lastBridgeStatus s) ->
    (forall s, restartCount (f s) = restartCount s) ->
    R m (with_this (f (this m)) m).

Lemma preserves_flags (f : ChildBridgeService -> ChildBridgeService) :
  (forall s, lastBridgeStatus (f s) = lastBridgeStatus s) ->
  (forall s, restartCount (f s) = restartCount s) ->
  preserves R (update f).
Proof. intros H1 H2 m. apply R_flags; assumption. Qed.

Lemma preserves_fork : preserves R fork.
Proof.
  intros m. unfold fork. cbn [snd].
  apply R_trans with (with_procs (procs m ++ [{| connected := true; closeListener := false;
                                                  closed := false |}]) m).
  - apply R_procs.
  - apply (R_emit (with_procs _ m)). reflexivity.
Qed.

Lemma preserves_set_closeListener (b : bool) (h : nat) :
  preserves R (set_closeListener b h).
Proof. intros m. apply R_procs. Qed.

Lemma preserves_setTimeout (ms : Z) : preserves R (setTimeout ms).
Proof.
  intros m. unfold setTimeout. cbn [snd].
  apply R_trans with (with_timers (timers m ++ [ms]) m).
  - apply R_timers.
  - apply (R_emit (with_timers _ m)). reflexivity.
Qed.

Ltac preserved_more :=
  repeat first
    [ apply preserves_fork | apply preserves_set_closeListener | apply preserves_setTimeout
    | step_preserves
    | apply preserves_flags; intros; reflexivity ].

Lemma preserves_startChildProcess : preserves R startChildProcess.
Proof. unfold startChildProcess. preserved_more. Qed.

Lemma preserves_restart_timer_callback : preserves R restart_timer_callback.
Proof.
  pose proof preserves_startChildProcess.
  unfold restart_timer_callback. preserved_more.
Qed.

Lemma preserves_startChildBridge : preserves R startChildBridge.
Proof.
  pose proof preserves_startChildProcess.
  intros m. unfold startChildBridge. cbv zeta.
  destruct (manuallyStopped (this m)
            && match lastBridgeStatus (this m) with DOWN => true | _ => false end
            && negb (child_connected m)).
  - revert m.
    change (preserves R
      (refreshConfig ;; startChildProcess ;; update (with_shuttingDown false) ;;
       update (with_manuallyStopped false))).
    preserved_more.
  - apply preserves_log_line.
Qed.

Lemma preserves_start : preserves R start.
Proof.
  pose proof preserves_setProcessFlags. pose proof preserves_setProcessEnv.
  pose proof preserves_startChildProcess.
  unfold start. preserved_more.
Qed.

Lemma preserves_on_shutdown : preserves R on_shutdown.
Proof. pose proof preserves_teardown. unfold on_shutdown. preserved_more. Qed.

(** Every turn that does not run a method writing restartCount. *)
Lemma preserves_step_plain (e : Event) (m : Machine) (o : Outcome unit) (m' : Machine) :
  writes_restartCount e = false -> step e m = Some (o, m') -> R m m'.
Proof.
  intros He Hstep.
  destruct (quiet_event e) eqn:Hq; [apply (preserves_step_quiet e m o m' Hq Hstep)|].
  destruct e; try discriminate He; try discriminate Hq; unfold step in Hstep.
  - apply (preserves_run start m m o m' preserves_start (R_refl m) Hstep).
  - apply (preserves_run _ m m o m' preserves_startChildBridge (R_refl m) Hstep).
  - apply (preserves_run _ m m o m' preserves_on_shutdown (R_refl m) Hstep).
  - destruct (nth_error (procs m) h) as [p|]; [|discriminate].
    destruct (connected p); [|discriminate].
    inversion Hstep; subst. apply R_procs.
  - destruct (nth_error (timers m) k); [|discriminate].
    apply (preserves_run _ m _ o m' preserves_restart_timer_callback
             (R_timers m (remove_nth k (timers m))) Hstep).
Qed.

(** The close listener and the two calls that write restartCount. *)
Section WithCounter.

Hypothesis R_count :
  forall f m,
    (forall s, lastBridgeStatus (f s) = lastBridgeStatus s) ->
    R m (with_this (f (this m)) m).

Lemma preserves_count (f : ChildBridgeService -> ChildBridgeService) :
  (forall s, lastBridgeStatus (f s) = lastBridgeStatus s) -> preserves R (update f).
Proof. intros H m. apply R_count, H. Qed.

Lemma preserves_handleProcessClose (code : option Z) (signal : option string) :
  preserves R (handleProcessClose code signal).
Proof.
  pose proof preserves_startChildProcess. pose proof preserves_setTimeout.
  unfold handleProcessClose. cbv zeta.
  repeat first [ apply preserves_count; intros; reflexivity | step_preserves ].
Qed.

Lemma preserves_restartChildBridge : preserves R restartChildBridge.
Proof.
  pose proof preserves_startChildBridge. pose proof preserves_teardown.
  unfold restartChildBridge.
  repeat first [ apply preserves_count; intros; reflexivity | step_preserves ].
Qed.

Lemma preserves_stopChildBridge : preserves R stopChildBridge.
Proof.
  pose proof preserves_teardown. pose proof preserves_set_closeListener.
  unfold stopChildBridge.
  repeat first [ apply preserves_count; intros; reflexivity | step_preserves ].
Qed.

Lemma preserves_step (e : Event) (m : Machine) (o : Outcome unit) (m' : Machine) :
  step e m = Some (o, m') -> R m m'.
Proof.
  intros Hstep.
  destruct (writes_restartCount e) eqn:He;
    [| apply (preserves_step_plain e m o m' He Hstep)].
  destruct e; try discriminate He; unfold step in Hstep.
  - apply (preserves_run _ m m o m' preserves_restartChildBridge (R_refl m) Hstep).
  - apply (preserves_run _ m m o m' preserves_stopChildBridge (R_refl m) Hstep).
  - destruct (nth_error (procs m) h) as [p|]; [|discriminate].
    destruct (closed p); [discriminate|].
    destruct (closeListener p).
    + refine (preserves_run _ m _ o m' (preserves_handleProcessClose code signal) _ Hstep).
      apply R_procs.
    + inversion Hstep; subst. apply R_procs.
Qed.

End WithCounter.

End WithWorkers.

End Preserved.

(** ** The status the listener heard last *)

Lemma last_status_app (l1 l2 : list Effect) (d : ChildBridgeStatus) :
  last_status (l1 ++ l2) d = last_status l2 (last_status l1 d).
Proof.
  revert d. induction l1 as [|e l1 IH]; intros d; [reflexivity|].
  destruct e; cbn; apply IH.
Qed.

Lemma heard_frame (m m' : Machine) : this m' = this m -> out m' = out m -> heard m m'.
Proof.
  intros Ht Ho. exists []. rewrite app_nil_r, Ht. split; [exact Ho | reflexivity].
Qed.

Lemma heard_refl (m : Machine) : heard m m.
Proof. apply heard_frame; reflexivity. Qed.

Lemma heard_trans (m1 m2 m3 : Machine) : heard m1 m2 -> heard m2 m3 -> heard m1 m3.
Proof.
  intros (l1 & Ho1 & Hs1) (l2 & Ho2 & Hs2). exists (l1 ++ l2).
  rewrite Ho2, Ho1, app_assoc, last_status_app, Hs1. split; [reflexivity | exact Hs2].
Qed.

Lemma heard_emit (m : Machine) (e : Effect) :
  is_status_update e = false -> heard m (with_out (out m ++ [e]) m).
Proof.
  intros He. exists [e]. split; [reflexivity|]. destruct e; try discriminate He; reflexivity.
Qed.

Lemma heard_notify (m : Machine) :
  heard m (with_out (out m ++ [StatusUpdate (getMetadata (host m) (this m))]) m).
Proof. exists [StatusUpdate (getMetadata (host m) (this m))]. split; reflexivity. Qed.

Lemma heard_status (v : ChildBridgeStatus) (m : Machine) :
  heard m (snd (set_bridgeStatus v m)).
Proof.
  exists [StatusUpdate (getMetadata (host m) (with_lastBridgeStatus v (this m)))].
  split; reflexivity.
Qed.

Lemma heard_count (f : ChildBridgeService -> ChildBridgeService) (m : Machine) :
  (forall s, lastBridgeStatus (f s) = lastBridgeStatus s) ->
  heard m (with_this (f (this m)) m).
Proof.
  intros H. exists []. cbn. rewrite app_nil_r, H. split; reflexivity.
Qed.

Ltac heard_facts :=
  first
    [ exact heard_refl | exact heard_trans | exact heard_emit | exact heard_notify
    | exact heard_status | exact heard_count
    | intros; apply heard_count; assumption
    | intros; apply heard_frame; reflexivity ].

Lemma step_heard (e : Event) (m : Machine) (o : Outcome unit) (m' : Machine) :
  step e m = Some (o, m') -> heard m m'.
Proof. apply (preserves_step heard); heard_facts. Qed.

(** ** restartCount *)

Lemma same_count_trans (m1 m2 m3 : Machine) :
  same_count m1 m2 -> same_count m2 m3 -> same_count m1 m3.
Proof. unfold same_count. congruence. Qed.

Ltac same_count_facts :=
  first
    [ exact same_count_trans
    | intros; reflexivity
    | unfold same_count; intros; cbn; auto ].

Lemma step_same_count (e : Event) (m : Machine) (o : Outcome unit) (m' : Machine) :
  writes_restartCount e = false -> step e m = Some (o, m') ->
  restartCount (this m') = restartCount (this m).
Proof. apply (preserves_step_plain same_count); same_count_facts. Qed.

Lemma teardown_same_count (m : Machine) :
  restartCount (this (snd (teardown m))) = restartCount (this m).
Proof. revert m. apply (preserves_teardown same_count); same_count_facts. Qed.

Lemma startChildBridge_same_count (m : Machine) :
  restartCount (this (snd (startChildBridge m))) = restartCount (this m).
Proof. revert m. apply (preserves_startChildBridge same_count); same_count_facts. Qed.

Lemma reload_same_count (m : Machine) :
  restartCount
    (this (snd ((log_line LWarn ChildBridgeRestarting ;; refreshConfig ;; teardown) m)))
  = restartCount (this m).
Proof. revert m. apply (preserves_reload_and_teardown same_count); same_count_facts. Qed.

(** ** The state the backoff policy reads *)

Lemma control_same_refl (m : Machine) : control_same m m.
Proof. unfold control_same. auto. Qed.

Lemma control_same_trans (m1 m2 m3 : Machine) :
  control_same m1 m2 -> control_same m2 m3 -> control_same m1 m3.
Proof.
  unfold control_same. intros (A1 & A2 & A3 & A4 & A5) (B1 & B2 & B3 & B4 & B5).
  repeat split; congruence.
Qed.

Ltac control_facts :=
  first
    [ exact control_same_refl | exact control_same_trans
    | unfold control_same; intros; cbn; auto ].

Lemma step_control_same (e : Event) (m : Machine) (o : Outcome unit) (m' : Machine) :
  quiet_event e = true -> step e m = Some (o, m') -> control_same m m'.
Proof. apply (preserves_step_quiet control_same); control_facts. Qed.

(** ** The backoff run of a supervisor with one worker *)

Lemma gone_nth (ps : list ChildProcess) (h : nat) (p : ChildProcess) :
  forallb gone ps = true -> nth_error ps h = Some p ->
  closed p = true /\ connected p = false.
Proof.
  intros Hall Hn. rewrite forallb_forall in Hall.
  apply nth_error_In in Hn. apply Hall in Hn. unfold gone in Hn.
  apply andb_prop in Hn. destruct Hn as [H1 H2].
  split; [exact H1 | destruct (connected p); [discriminate | reflexivity]].
Qed.

Lemma gone_not_connected (m : Machine) :
  forallb gone (procs m) = true -> child_connected m = false.
Proof.
  intros Hall. unfold child_connected.
  destruct (child (this m)) as [h|]; [|reflexivity].
  destruct (nth_error (procs m) h) as [p|] eqn:Hn; [|reflexivity].
  apply (gone_nth _ _ _ Hall Hn).
Qed.

Lemma gone_set_listener (b : bool) (h : nat) (ps : list ChildProcess) :
  forallb gone ps = true ->
  forallb gone
    (set_nth h (fun p => {| connected := connected p; closeListener := b;
                            closed := closed p |}) ps) = true.
Proof.
  revert h. induction ps as [|a ps IH]; intros h Hall; [destruct h; reflexivity|].
  cbn [forallb] in Hall. apply andb_prop in Hall. destruct Hall as [Ha Hps].
  destruct h as [|h]; cbn [set_nth forallb].
  - rewrite Hps. unfold gone in *. cbn. rewrite Ha. reflexivity.
  - rewrite Ha, IH; auto.
Qed.

Lemma running_live (k : nat) (m : Machine) (h : nat) (p : ChildProcess) :
  running k m -> nth_error (procs m) h = Some p -> closed p = false ->
  closeListener p = true
  /\ forallb gone
       (set_nth h (fun _ => {| connected := false; closeListener := false;
                               closed := true |}) (procs m)) = true.
Proof.
  intros (_ & _ & _ & _ & ps & c & Hps & Hall) Hn Hc.
  rewrite Hps in *.
  destruct (Nat.lt_trichotomy h (List.length ps)) as [Hlt | [Heq | Hgt]].
  - rewrite nth_error_app1 in Hn by exact Hlt.
    destruct (gone_nth _ _ _ Hall Hn) as [Hcl _]. congruence.
  - subst h. rewrite nth_error_app2 in Hn by lia.
    rewrite Nat.sub_diag in Hn. cbn in Hn. inversion Hn; subst p.
    split; [reflexivity|].
    rewrite set_nth_last, forallb_app, Hall. reflexivity.
  - rewrite nth_error_app2 in Hn by lia.
    destruct (h - List.length ps) as [|j] eqn:Hj; [lia|].
    cbn in Hn. destruct j; discriminate.
Qed.

Lemma running_crash (k : nat) (m : Machine) (h : nat) (code : option Z)
    (signal : option string) (o : Outcome unit) (m' : Machine) :
  running k m -> likely_crash code signal = true ->
  step (ProcClose h code signal) m = Some (o, m') ->
  o = Ret tt /\ (k < 4 -> waiting (S k) m') /\ (k = 4 -> given_up m').
Proof.
  intros Hrun Hcr Hstep. unfold step in Hstep.
  destruct (nth_error (procs m) h) as [p|] eqn:Hn; [|discriminate].
  destruct (closed p) eqn:Hc; [discriminate|].
  destruct (running_live _ _ _ _ Hrun Hn Hc) as [Hl Hall]. rewrite Hl in Hstep.
  destruct Hrun as (Hrc & Hk & Hsd & Htm & _).
  destruct (Nat.eq_dec k 4) as [-> | Hne].
  - rewrite handleProcessClose_give_up in Hstep;
      [| exact Hcr | cbn [this with_procs]; rewrite Hrc; unfold maxRestarts; lia].
    inversion Hstep; subst o m'. split; [reflexivity|]. split; [lia|]. intros _.
    unfold given_up. cbn. auto.
  - rewrite handleProcessClose_backoff in Hstep;
      [| exact Hcr | cbn [this with_procs]; rewrite Hrc; unfold maxRestarts; lia].
    inversion Hstep; subst o m'. split; [reflexivity|]. split; [|lia]. intros _.
    unfold waiting.
    cbn [this procs timers with_procs with_restartCount with_lastBridgeStatus
         restartCount shuttingDown].
    rewrite Hrc, Hsd, Htm. repeat split; try lia; auto.
    eexists. reflexivity.
Qed.

Lemma running_timer (k : nat) (m : Machine) (j : nat) :
  running k m -> step (TimerFired j) m = None.
Proof.
  intros (_ & _ & _ & Htm & _). unfold step. rewrite Htm.
  destruct j; reflexivity.
Qed.

Lemma waiting_crash (k : nat) (m : Machine) (h : nat) (code : option Z)
    (signal : option string) :
  waiting k m -> step (ProcClose h code signal) m = None.
Proof.
  intros (_ & _ & _ & _ & Hall). unfold step.
  destruct (nth_error (procs m) h) as [p|] eqn:Hn; [|reflexivity].
  destruct (gone_nth _ _ _ Hall Hn) as [-> _]. reflexivity.
Qed.

Lemma waiting_timer (k : nat) (m : Machine) (j : nat) (o : Outcome unit) (m' : Machine) :
  waiting k m -> step (TimerFired j) m = Some (o, m') ->
  o = Ret tt /\ running k m'.
Proof.
  intros (Hrc & Hk & Hsd & [d Htm] & Hall) Hstep. unfold step in Hstep.
  rewrite Htm in Hstep. destruct j as [|j]; [|destruct j; discriminate].
  cbn [nth_error remove_nth] in Hstep.
  rewrite restart_timer_callback_eq in Hstep. cbn [this with_timers] in Hstep.
  rewrite Hsd, startChildProcess_eq in Hstep. inversion Hstep; subst o m'.
  split; [reflexivity|]. unfold running.
  cbn [this procs timers with_timers with_child with_lastBridgeStatus restartCount
       shuttingDown].
  repeat split; try lia; auto.
  exists (procs m), true. split; [reflexivity | exact Hall].
Qed.

Lemma given_up_quiet (m : Machine) (e : Event) :
  given_up m -> backoff_event e = true -> step e m = None.
Proof.
  intros (_ & _ & Htm & Hall) He. destruct e; try discriminate He; unfold step.
  - destruct (nth_error (procs m) h) as [p|] eqn:Hn; [|reflexivity].
    destruct (gone_nth _ _ _ Hall Hn) as [-> _]. reflexivity.
  - rewrite Htm. destruct k; reflexivity.
Qed.

Lemma running_disconnect (k : nat) (m : Machine) (h : nat) (o : Outcome unit)
    (m' : Machine) :
  running k m -> step (ProcDisconnect h) m = Some (o, m') -> o = Ret tt /\ running k m'.
Proof.
  intros (Hrc & Hk & Hsd & Htm & ps & c & Hps & Hall) Hstep. unfold step in Hstep.
  destruct (nth_error (procs m) h) as [p|] eqn:Hn; [|discriminate].
  destruct (connected p) eqn:Hc; [|discriminate].
  inversion Hstep; subst o m'. split; [reflexivity|].
  rewrite Hps in Hn.
  destruct (Nat.lt_trichotomy h (List.length ps)) as [Hlt | [Heq | Hgt]].
  - rewrite nth_error_app1 in Hn by exact Hlt.
    destruct (gone_nth _ _ _ Hall Hn) as [_ Hd]. congruence.
  - subst h. unfold running. cbn [this procs timers with_procs].
    repeat split; auto. exists ps, false. rewrite Hps, set_nth_last. auto.
  - rewrite nth_error_app2 in Hn by lia.
    destruct (h - List.length ps) as [|j] eqn:Hj; [lia|].
    cbn in Hn. destruct j; discriminate.
Qed.

Lemma waiting_disconnect (k : nat) (m : Machine) (h : nat) :
  waiting k m -> step (ProcDisconnect h) m = None.
Proof.
  intros (_ & _ & _ & _ & Hall). unfold step.
  destruct (nth_error (procs m) h) as [p|] eqn:Hn; [|reflexivity].
  destruct (gone_nth _ _ _ Hall Hn) as [_ ->]. reflexivity.
Qed.

Lemma control_same_running (k : nat) (m m' : Machine) :
  control_same m m' -> running k m -> running k m'.
Proof.
  intros (H1 & H2 & _ & H4 & H5). unfold running. rewrite H1, H2, H4, H5. auto.
Qed.

Lemma control_same_waiting (k : nat) (m m' : Machine) :
  control_same m m' -> waiting k m -> waiting k m'.
Proof.
  intros (H1 & H2 & _ & H4 & H5). unfold waiting. rewrite H1, H2, H4, H5. auto.
Qed.

(** ** teardown, stop and config refresh, path by path *)

Lemma teardown_idle (m : Machine) :
  child_connected m = false -> teardown m = (Ret tt, m).
Proof.
  intros H. unfold teardown. rewrite H. reflexivity.
Qed.

Lemma teardown_kill (m : Machine) (h : nat) :
  child (this m) = Some h -> child_connected m = true ->
  teardown m =
  (Ret tt,
   with_out (out m ++ [StatusUpdate (getMetadata (host m) (with_lastBridgeStatus DOWN (this m)));
                       Kill h])
     (with_this (with_lastBridgeStatus DOWN (this m)) m)).
Proof.
  intros Hh Hc. unfold teardown. rewrite Hc, Hh.
  unfold set_bridgeStatus, sendStatusUpdate, get_host, bind, update, emit, get.
  cbn. flat. reflexivity.
Qed.

Lemma sendMessage_idle (t : ChildProcessMessageEventType) (d : Payload) (m : Machine) :
  child_connected m = false -> sendMessage t d m = (Ret tt, m).
Proof.
  intros H. unfold sendMessage. rewrite H. reflexivity.
Qed.

(** The machine stopChildBridge() hands to teardown(). *)
Lemma stopChildBridge_eq (m : Machine) :
  shuttingDown (this m) = false ->
  stopChildBridge m = teardown (stopping m).
Proof.
  intros Hs. unfold stopChildBridge, stopping.
  unfold bind at 1. unfold get at 1. cbn beta iota. rewrite Hs. cbn [negb].
  unfold set_bridgeStatus, sendStatusUpdate, get_host, log_line, set_closeListener, bind, update,
    emit, get, ret.
  destruct (child (this m)) as [h|]; cbn; flat; reflexivity.
Qed.

Lemma stopChildBridge_again (m : Machine) :
  shuttingDown (this m) = true ->
  stopChildBridge m =
  (Ret tt, with_out (out m ++ [Log (log (this m)) LWarn AlreadyShuttingDown]) m).
Proof.
  intros Hs. unfold stopChildBridge, log_line, bind, get, emit. cbn. rewrite Hs.
  reflexivity.
Qed.

Lemma block_matches_for (s : ChildBridgeService) (x : ConfigBlock) :
  block_matches s
    match type s with PLATFORM => cb_platform | ACCESSORY => cb_accessory end x = true
  <-> block_is_for s x.
Proof.
  unfold block_matches, block_is_for. split.
  - intros H. apply andb_prop in H. destruct H as [H1 H2]. split.
    + destruct (type s).
      * destruct (cb_platform x) as [k|]; [|discriminate].
        apply String.eqb_eq in H1. congruence.
      * destruct (cb_accessory x) as [k|]; [|discriminate].
        apply String.eqb_eq in H1. congruence.
    + destruct (cb_bridge x) as [b|]; [|discriminate].
      exists b. split; [reflexivity | now apply String.eqb_eq].
  - intros [H1 (b & Hb & Hu)]. rewrite Hb. apply andb_true_intro. split.
    + destruct (type s); rewrite H1; apply String.eqb_refl.
    + now apply String.eqb_eq.
Qed.

(** The blocks refreshConfig() keeps from a file it could read. *)
Lemma kept_blocks_spec (s : ChildBridgeService) (hc : HomebridgeConfig) (y : ConfigBlock) :
  In y (kept_blocks s hc) <-> In y (candidate_blocks s hc) /\ block_is_for s y.
Proof.
  unfold kept_blocks. rewrite filter_In, block_matches_for. reflexivity.
Qed.

Lemma refreshConfig_resume_cases (r : ReadOutcome) (m : Machine) :
  exists m',
    refreshConfig_resume r m = (Ret tt, m')
    /\ host m' = host m /\ procs m' = procs m /\ timers m' = timers m
    /\ reads m' = reads m /\ portRequests m' = portRequests m
    /\ ((this m' = this m
         /\ (exists lvl msg, out m' = out m ++ [Log (log (this m)) lvl msg])
         /\ match r with ReadOk hc => kept_blocks (this m) hc = [] | _ => True end)
        \/ (exists hc c0 rest,
               r = ReadOk hc /\ kept_blocks (this m) hc = c0 :: rest
               /\ this m' =
                  with_bridgeConfig
                    match cb_bridge c0 with Some b => b | None => bridgeConfig (this m) end
                    (with_pluginConfig (c0 :: rest) (this m))
               /\ out m' = out m)).
Proof.
  unfold refreshConfig_resume, try_catch.
  destruct r as [msg | | hc].
  - eexists. split; [reflexivity|]. cbn. repeat split. left. repeat split; eauto.
  - eexists. split; [unfold bind, get, throw, log_line, emit; cbn; reflexivity|].
    cbn. repeat split. left. repeat split; eauto.
  - unfold bind at 1. unfold get at 1. cbn beta iota.
    unfold kept_blocks, candidate_blocks.
    destruct (type (this m)) eqn:Ht.
    + destruct (hc_platforms hc) as [blocks|] eqn:Hp; cbn [option_map use_config].
      * destruct (filter (block_matches (this m) cb_platform) blocks) as [|c0 rest] eqn:Hf.
        -- eexists. split; [unfold log_line, bind, get, emit; cbn; reflexivity|].
           cbn. repeat split. left. repeat split; eauto.
        -- eexists. split; [unfold bind, update; cbn; reflexivity|].
           cbn. repeat split. right. exists hc, c0, rest. repeat split.
           rewrite Hp. exact Hf.
      * eexists. split; [unfold throw, log_line, bind, get, emit; cbn; reflexivity|].
        cbn. repeat split. left. repeat split; eauto.
    + destruct (hc_accessories hc) as [blocks|] eqn:Hp; cbn [option_map use_config].
      * destruct (filter (block_matches (this m) cb_accessory) blocks) as [|c0 rest] eqn:Hf.
        -- eexists. split; [unfold log_line, bind, get, emit; cbn; reflexivity|].
           cbn. repeat split. left. repeat split; eauto.
        -- eexists. split; [unfold bind, update; cbn; reflexivity|].
           cbn. repeat split. right. exists hc, c0, rest. repeat split.
           rewrite Hp. exact Hf.
      * eexists. split; [unfold throw, log_line, bind, get, emit; cbn; reflexivity|].
        cbn. repeat split. left. repeat split; eauto.
Qed.

(** ** start() *)

Lemma setProcessFlags_eq (m : Machine) :
  setProcessFlags m =
  (Ret tt, with_this (with_args (args (this m) ++ launch_flags (this m)) (this m)) m).
Proof.
  unfold setProcessFlags, launch_flags, when, push_args, bind, update, get, ret.
  cbn beta iota.
  destruct (bc_debugModeEnabled (bridgeConfig (this m)));
    destruct (forceColourLogging (homebridgeOptions (this m)));
    destruct (insecureAccess (homebridgeOptions (this m)));
    destruct (noLogTimestamps (homebridgeOptions (this m)));
    destruct (keepOrphanedCachedAccessories (homebridgeOptions (this m)));
    destruct (str_truthy (customStoragePath (homebridgeOptions (this m))));
    destruct (str_truthy (customPluginPath (homebridgeOptions (this m))));
    cbn; flat; try rewrite app_nil_r; destruct m as [[] ?]; reflexivity.
Qed.

Lemma display_name_eq (s : ChildBridgeService) :
  (if (1 <? List.length (pluginConfig s)) || (List.length (pluginConfig s) =? 0)
   then getPluginIdentifier (plugin s)
   else str_or_dflt match pluginConfig s with c :: _ => cb_name c | [] => None end
          (getPluginIdentifier (plugin s)))
  = display_name s.
Proof.
  unfold display_name. destruct (pluginConfig s) as [|c [|c' tl]]; reflexivity.
Qed.

Lemma start_eq (m : Machine) : start m = (Ret tt, started_machine m).
Proof.
  unfold start. unfold bind at 1. rewrite setProcessFlags_eq.
  unfold bind at 1. unfold setProcessEnv at 1.
  unfold update at 1. cbn [this with_this host].
  unfold bind at 1. rewrite startChildProcess_eq.
  unfold started_machine, started, display_name, worker_options, bind, update, get.
  cbn [this with_this host procs out pluginConfig plugin with_child with_lastBridgeStatus
       with_processEnv with_args args processEnv bridge_env bridgeConfig].
  destruct (pluginConfig (this m)) as [|c [|c' tl]];
    reflexivity.
Qed.

Lemma start_running (h : Host) (s : ChildBridgeService) :
  shuttingDown s = false -> restartCount s = 0%Z ->
  exists m, start (boot h s) = (Ret tt, m) /\ running 0 m.
Proof.
  intros Hs Hr. rewrite start_eq. eexists. split; [reflexivity|].
  unfold running, started_machine, started. cbn. repeat split; auto.
  exists [], true. split; reflexivity.
Qed.

Lemma processEnv_started (m : Machine) : processEnv (started m) = worker_options m.
Proof. reflexivity. Qed.

Lemma displayName_started (m : Machine) :
  displayName (started m) = Some (display_name (this m)).
Proof. reflexivity. Qed.

Lemma status_started (m : Machine) : lastBridgeStatus (started m) = PENDING.
Proof. reflexivity. Qed.

Lemma args_started (m : Machine) :
  args (started m) = args (this m) ++ launch_flags (this m).
Proof. reflexivity. Qed.

Lemma child_started (m : Machine) : child (started m) = Some (List.length (procs m)).
Proof. reflexivity. Qed.

Lemma launch_flags_started (m : Machine) : launch_flags (started m) = launch_flags (this m).
Proof. reflexivity. Qed.

Lemma display_name_started (m : Machine) : display_name (started m) = display_name (this m).
Proof. reflexivity. Qed.

Lemma worker_options_started (m : Machine) :
  worker_options (started_machine m) = worker_options m.
Proof. reflexivity. Qed.

(** ** After the supervisor has given up *)

Lemma given_up_step (m : Machine) (e : Event) (o : Outcome unit) (m' : Machine) :
  given_up m -> explicit_start e = false -> step e m = Some (o, m') ->
  o = Ret tt /\ given_up m'
  /\ exists l, out m' = out m ++ l
               /\ existsb is_fork l = false /\ existsb is_set_timeout l = false.
Proof.
  intros Hg He Hstep. pose proof Hg as (Hst & Hms & Htm & Hall).
  destruct e; try discriminate He; unfold step in Hstep.
  - (* addConfig *)
    inversion Hstep; subst o m'. split; [reflexivity|]. split; [exact Hg|].
    exists []. cbn. rewrite app_nil_r. auto.
  - (* stopChildBridge *)
    destruct (shuttingDown (this m)) eqn:Hsd.
    + rewrite stopChildBridge_again in Hstep by exact Hsd.
      inversion Hstep; subst o m'. split; [reflexivity|]. split; [exact Hg|].
      eexists. cbn. split; [reflexivity|]. auto.
    + rewrite stopChildBridge_eq in Hstep by exact Hsd.
      assert (Hall' : forallb gone (procs (stopping m)) = true).
      { unfold stopping. cbn [procs]. destruct (child (this m)); [|exact Hall].
        apply gone_set_listener, Hall. }
      rewrite teardown_idle in Hstep by (apply gone_not_connected, Hall').
      inversion Hstep; subst o m'. split; [reflexivity|]. split.
      * unfold given_up. repeat split; auto.
      * eexists. split; [reflexivity|]. auto.
  - (* refreshConfig, up to the await *)
    inversion Hstep; subst o m'. split; [reflexivity|]. split; [exact Hg|].
    eexists. cbn. split; [reflexivity|]. auto.
  - (* the api shuts down *)
    unfold on_shutdown, bind, update in Hstep.
    rewrite teardown_idle in Hstep by (apply gone_not_connected, Hall).
    inversion Hstep; subst o m'. split; [reflexivity|]. split.
    + unfold given_up. cbn. auto.
    + exists []. cbn. rewrite app_nil_r. auto.
  - (* a message: no worker is connected *)
    destruct (nth_error (procs m) h) as [p|] eqn:Hn; [|discriminate].
    destruct (gone_nth _ _ _ Hall Hn) as [_ Hc]. rewrite Hc in Hstep. discriminate.
  - destruct (nth_error (procs m) h) as [p|] eqn:Hn; [|discriminate].
    destruct (gone_nth _ _ _ Hall Hn) as [Hc _]. rewrite Hc in Hstep. discriminate.
  - destruct (nth_error (procs m) h) as [p|] eqn:Hn; [|discriminate].
    destruct (gone_nth _ _ _ Hall Hn) as [_ Hc]. rewrite Hc in Hstep. discriminate.
  - destruct (nth_error (procs m) h) as [p|] eqn:Hn; [|discriminate].
    destruct (gone_nth _ _ _ Hall Hn) as [Hc _]. rewrite Hc in Hstep. discriminate.
  - rewrite Htm in Hstep. destruct k; discriminate.
  - (* the read of config.json completes *)
    destruct (reads m) as [|n]; [discriminate|].
    destruct (refreshConfig_resume_cases r (with_reads n m))
      as (m1 & Heq & _ & Hp & Ht & _ & _ & Hcase).
    rewrite Heq in Hstep. inversion Hstep; subst o m'. split; [reflexivity|].
    cbn [procs timers with_reads this out] in *.
    destruct Hcase as [(Hthis & (lvl & msg & Hout) & _) | (hc & c0 & rest & _ & _ & Hthis & Hout)].
    + split; [unfold given_up; rewrite Hthis, Hp, Ht; auto|].
      eexists. split; [exact Hout|]. auto.
    + split; [unfold given_up; rewrite Hthis, Hp, Ht; cbn; auto|].
      exists []. rewrite app_nil_r. auto.
  - (* a port is granted *)
    destruct (nth_error (portRequests m) k) as [u|]; [|discriminate].
    unfold port_allocated in Hstep.
    rewrite sendMessage_idle in Hstep by (apply gone_not_connected, Hall).
    inversion Hstep; subst o m'. split; [reflexivity|]. split; [exact Hg|].
    exists []. cbn. rewrite app_nil_r. auto.
Qed.

Lemma given_up_run (es : list Event) :
  forall (m : Machine) (o : Outcome unit) (m' : Machine),
    given_up m ->
    Forall (fun e => explicit_start e = false) es ->
    run es m = Some (o, m') ->
    given_up m'
    /\ exists l, out m' = out m ++ l
                 /\ existsb is_fork l = false /\ existsb is_set_timeout l = false.
Proof.
  induction es as [|e es IH]; intros m o m' Hg Hev Hrun.
  - cbn in Hrun. inversion Hrun; subst o m'. split; [exact Hg|].
    exists []. rewrite app_nil_r. auto.
  - inversion Hev as [|? ? He Hes]; subst. cbn [run] in Hrun.
    destruct (step e m) as [[o1 m1]|] eqn:Hstep; [|discriminate].
    destruct (given_up_step _ _ _ _ Hg He Hstep) as (-> & Hg1 & l1 & Ho1 & Hf1 & Ht1).
    destruct (IH m1 o m' Hg1 Hes Hrun)
      as (Hg' & l2 & Ho2 & Hf2 & Ht2).
    split; [exact Hg'|]. exists (l1 ++ l2).
    rewrite Ho2, Ho1, app_assoc. split; [reflexivity|].
    split; apply existsb_app_false; assumption.
Qed.

(** ** The run of a worker that keeps crashing *)

Lemma crashing_run_no_start (e : Event) :
  crashing_run_event e = true -> explicit_start e = false.
Proof. destruct e; try reflexivity; discriminate. Qed.

(** One turn of such a run: the phase moves on by one at a crash-close and
    stays where it is at any other turn. *)
Lemma phase_step (k : nat) (m : Machine) (e : Event) (m' : Machine) :
  phase k m -> crashing_run_event e = true -> step e m = Some (Ret tt, m') ->
  phase (k + if crash_close e then 1 else 0) m'.
Proof.
  intros Hph He Hstep.
  destruct (crash_close e) eqn:Hcc.
  - (* a crash-close *)
    destruct e; try discriminate Hcc. cbn [crash_close] in Hcc.
    destruct Hph as [(Hk & [Hr | Hw]) | (Hk & Hg)].
    + destruct (running_crash _ _ _ _ _ _ _ Hr Hcc Hstep) as (_ & Hlt & Heq).
      destruct (Nat.eq_dec k 4) as [-> | Hne].
      * right. split; [reflexivity | apply Heq; reflexivity].
      * left. split; [lia|]. right. replace (k + 1) with (S k) by lia. apply Hlt. lia.
    + rewrite (waiting_crash _ _ h code signal Hw) in Hstep. discriminate.
    + rewrite (given_up_quiet _ (ProcClose h code signal) Hg) in Hstep;
        [discriminate | exact Hcc].
  - rewrite Nat.add_0_r.
    destruct (quiet_event e) eqn:Hq.
    + (* a message, an error, configuration, a port *)
      pose proof (step_control_same e m _ m' Hq Hstep) as Hsame.
      destruct Hph as [(Hk & [Hr | Hw]) | (Hk & Hg)].
      * left. split; [exact Hk|]. left. apply (control_same_running k m m' Hsame Hr).
      * left. split; [exact Hk|]. right. apply (control_same_waiting k m m' Hsame Hw).
      * right. split; [exact Hk|].
        apply (given_up_step m e _ m' Hg (crashing_run_no_start e He) Hstep).
    + destruct e; try discriminate He; try discriminate Hq; try discriminate Hcc.
      * (* the channel of a worker ends *)
        destruct Hph as [(Hk & [Hr | Hw]) | (Hk & Hg)].
        -- left. split; [exact Hk|]. left.
           apply (running_disconnect k m h _ m' Hr Hstep).
        -- rewrite (waiting_disconnect k m h Hw) in Hstep. discriminate.
        -- right. split; [exact Hk|].
           apply (given_up_step m (ProcDisconnect h) _ m' Hg eq_refl Hstep).
      * (* a close that is a crash was handled above *)
        unfold crashing_run_event in He. cbn [backoff_event quiet_event] in He.
        cbn [crash_close] in Hcc. rewrite Hcc in He. discriminate He.
      * (* a restart timer fires *)
        destruct Hph as [(Hk & [Hr | Hw]) | (Hk & Hg)].
        -- rewrite (running_timer k m k0 Hr) in Hstep. discriminate.
        -- left. split; [exact Hk|]. left.
           apply (waiting_timer k m k0 _ m' Hw Hstep).
        -- rewrite (given_up_quiet m (TimerFired k0) Hg eq_refl) in Hstep. discriminate.
Qed.

Lemma phase_run (es : list Event) :
  forall (k : nat) (m m' : Machine),
    phase k m -> forallb crashing_run_event es = true ->
    run es m = Some (Ret tt, m') ->
    phase (k + crash_count es) m'.
Proof.
  induction es as [|e es IH]; intros k m m' Hph Hev Hrun.
  - cbn in Hrun. inversion Hrun; subst m'. unfold crash_count. cbn.
    rewrite Nat.add_0_r. exact Hph.
  - cbn [forallb] in Hev. apply andb_prop in Hev. destruct Hev as [He Hes].
    cbn [run] in Hrun.
    destruct (step e m) as [[[[]|err] m1]|] eqn:Hstep; try discriminate.
    pose proof (phase_step k m e m1 Hph He Hstep) as Hph1.
    pose proof (IH _ m1 m' Hph1 Hes Hrun) as Hfin.
    unfold crash_count in *. cbn [filter].
    destruct (crash_close e); cbn [List.length];
      [replace (k + S (List.length (filter crash_close es)))
         with (k + 1 + List.length (filter crash_close es)) by lia
      | rewrite Nat.add_0_r in Hfin]; exact Hfin.
Qed.

(** * The claims *)

(** C1 fails on the code, by the defect reported under C5: a restart
    timer that is pending when stopChildBridge() and startChildBridge() are
    called still fires, and forks a second worker beside the one
    startChildBridge() forked. In the run below the supervisor then sees
    five crash-closes in a row, with nothing but its restart timers
    firing between them and restartCount going from 0 to 4; the fifth
    leaves it Down with manuallyStopped true and no timer pending, as the
    claim says, and the supervisor logs that it will no longer restart
    after failing 5 times. But one worker is still alive with its close
    listener attached, and when it exits cleanly the supervisor forks a
    new worker at once, without any call to start. *)
Theorem respawn_after_fifth_crash :
  let five := [crash 1; TimerFired 0; crash 2; TimerFired 0; crash 3; TimerFired 0;
               crash 4; TimerFired 0; crash 5] in
  let m0 := after stop_start_in_backoff sample_machine in
  let m5 := after (stop_start_in_backoff ++ five) sample_machine in
  let m6 := after (stop_start_in_backoff ++ five ++ [ProcClose 6 (Some 0%Z) None])
                     sample_machine in
  run (stop_start_in_backoff ++ five ++ [ProcClose 6 (Some 0%Z) None]) sample_machine
  = Some (Ret tt, m6)
  /\ forallb backoff_event five = true
  /\ crash_count five = 5
  /\ shuttingDown (this m0) = false
  /\ restartCount (this m0) = 0%Z
  /\ lastBridgeStatus (this m5) = DOWN
  /\ manuallyStopped (this m5) = true
  /\ restartCount (this m5) = maxRestarts
  /\ timers m5 = []
  /\ last (out m5) (Kill 0) = Log (log (this m5)) LError (WillNoLongerRestart 5%Z)
  /\ nth_error (procs m5) 6 = Some new_worker
  /\ step (ProcClose 6 (Some 0%Z) None) m5 = Some (Ret tt, m6)
  /\ existsb is_fork (emitted m5 m6) = true
  /\ List.length (procs m6) = S (List.length (procs m5))
  /\ child (this m6) = Some 7
  /\ lastBridgeStatus (this m6) = PENDING.
Proof. vm_compute. repeat split. Qed.





(** C4, as it stands, fails: a worker whose channel has been disconnected
    is alive and is sent no signal by stopChildBridge(); nor is any signal
    sent when the call comes during a backoff delay, after the worker has
    closed. *)
Lemma stop_sends_no_signal_when_disconnected :
  (shuttingDown (this (after [CallStart; ProcDisconnect 0] sample_machine)) = false
   /\ nth_error (procs (after [CallStart; ProcDisconnect 0] sample_machine)) 0
      = Some {| connected := false; closeListener := true; closed := false |}
   /\ existsb is_kill
        (out (snd (stopChildBridge (after [CallStart; ProcDisconnect 0] sample_machine))))
      = false)
  /\ (shuttingDown (this (after [CallStart; crash 0] sample_machine)) = false
      /\ timers (after [CallStart; crash 0] sample_machine) = [(10 * 1000)%Z]
      /\ existsb is_kill
           (out (snd (stopChildBridge (after [CallStart; crash 0] sample_machine))))
         = false).
Proof. vm_compute. repeat split. Qed.

Lemma child_connected_stopping (m : Machine) :
  child_connected (stopping m) = child_connected m.
Proof.
  unfold child_connected, stopping. cbn [this procs with_lastBridgeStatus with_restartCount
    with_manuallyStopped with_shuttingDown child].
  destruct (child (this m)) as [h|]; [|reflexivity].
  rewrite nth_error_set_nth, Nat.eqb_refl.
  destruct (nth_error (procs m) h); reflexivity.
Qed.

(** C4, amended: called while shuttingDown is false, stopChildBridge()
    sets shuttingDown and manuallyStopped, sets the status to Down and
    detaches the close listener of the current worker, whose exit then
    changes nothing in the supervisor and starts nothing; it sends the
    termination signal when the worker's channel is connected, and no
    signal otherwise. Called while shuttingDown is true, it logs one line
    and changes nothing. *)
Theorem stopChildBridge_stops :
  forall (m : Machine),
    (shuttingDown (this m) = false ->
     exists m' l,
       stopChildBridge m = (Ret tt, m')
       /\ shuttingDown (this m') = true
       /\ manuallyStopped (this m') = true
       /\ lastBridgeStatus (this m') = DOWN
       /\ out m' = out m ++ l
       /\ (forall h p, child (this m) = Some h -> nth_error (procs m') h = Some p ->
           closeListener p = false)
       /\ (forall h code signal o m'',
              child (this m) = Some h ->
              step (ProcClose h code signal) m' = Some (o, m'') ->
              o = Ret tt /\ this m'' = this m' /\ out m'' = out m'
              /\ timers m'' = timers m'
              /\ List.length (procs m'') = List.length (procs m'))
       /\ (forall h, child (this m) = Some h -> child_connected m = true -> In (Kill h) l)
       /\ (child_connected m = false -> existsb is_kill l = false))
    /\ (shuttingDown (this m) = true ->
        stopChildBridge m =
        (Ret tt, with_out (out m ++ [Log (log (this m)) LWarn AlreadyShuttingDown]) m)).
Proof.
  intros m. split; [|apply stopChildBridge_again].
  intros Hs. rewrite (stopChildBridge_eq m Hs).
  assert (Hlist : forall h p,
             child (this m) = Some h -> nth_error (procs (stopping m)) h = Some p ->
             closeListener p = false).
  { intros h p Hh Hn. unfold stopping in Hn. cbn [procs] in Hn. rewrite Hh in Hn.
    rewrite nth_error_set_nth, Nat.eqb_refl in Hn.
    destruct (nth_error (procs m) h); [|discriminate].
    cbn in Hn. inversion Hn. reflexivity. }
  assert (Hexit : forall w h code signal o m'',
             procs w = procs (stopping m) ->
             child (this m) = Some h ->
             step (ProcClose h code signal) w = Some (o, m'') ->
             o = Ret tt /\ this m'' = this w /\ out m'' = out w /\ timers m'' = timers w
             /\ List.length (procs m'') = List.length (procs w)).
  { intros w h code signal o m'' Hw Hh Hstep. unfold step in Hstep.
    destruct (nth_error (procs w) h) as [p|] eqn:Hn; [|discriminate].
    rewrite Hw in Hn. rewrite (Hlist h p Hh Hn) in Hstep.
    destruct (closed p); [discriminate|]. inversion Hstep; subst o m''.
    cbn. rewrite length_set_nth. auto. }
  destruct (child_connected m) eqn:Hc.
  - assert (Hch : exists h, child (this m) = Some h).
    { unfold child_connected in Hc. destruct (child (this m)) as [h|]; [|discriminate].
      exists h. reflexivity. }
    destruct Hch as [h Hh].
    rewrite (teardown_kill (stopping m) h);
      [| exact Hh | rewrite child_connected_stopping; exact Hc].
    eexists. eexists. split; [reflexivity|].
    cbn [this out with_out with_this shuttingDown manuallyStopped lastBridgeStatus
         with_lastBridgeStatus procs].
    split; [reflexivity|]. split; [reflexivity|]. split; [reflexivity|].
    split; [unfold stopping; cbn [out]; flat; reflexivity|].
    split; [exact Hlist|].
    split; [intros h0 code signal o m'' Hh0 Hst;
            refine (Hexit _ h0 code signal o m'' _ Hh0 Hst); reflexivity|].
    split; [|discriminate].
    intros h0 Hh0 _. rewrite Hh in Hh0. inversion Hh0; subst h0. cbn. auto 10.
  - rewrite teardown_idle by (rewrite child_connected_stopping; exact Hc).
    eexists. eexists. split; [reflexivity|].
    split; [reflexivity|]. split; [reflexivity|]. split; [reflexivity|].
    split; [reflexivity|].
    split; [exact Hlist|].
    split; [intros h0 code signal o m'' Hh0 Hst;
            refine (Hexit _ h0 code signal o m'' _ Hh0 Hst); reflexivity|].
    split; [discriminate | reflexivity].
Qed.

Lemma stopChildBridge_stops_witness :
  exists m' l,
    stopChildBridge (after [CallStart] sample_machine) = (Ret tt, m')
    /\ shuttingDown (this m') = true
    /\ manuallyStopped (this m') = true
    /\ lastBridgeStatus (this m') = DOWN
    /\ out m' = out (after [CallStart] sample_machine) ++ l
    /\ In (Kill 0) l.
Proof.
  destruct (stopChildBridge_stops (after [CallStart] sample_machine)) as [H _].
  destruct (H eq_refl) as (m' & l & H1 & H2 & H3 & H4 & H5 & _ & _ & H8 & _).
  exists m', l. repeat (split; [assumption|]).
  apply H8; vm_compute; reflexivity.
Defined.

(** C5 fails on the code (one defect: a restart timer that is pending when
    stopChildBridge() and startChildBridge() are called still fires, and the
    worker it forks displaces, without ending, the one startChildBridge()
    forked). First run: two workers run side by side, the fifth
    crash-close sets manuallyStopped, and the clean exit of the other
    worker forks a new one at once. Second run: the supervisor is stopped
    by stopChildBridge(), and the crash of the displaced worker, whose
    close listener is still attached, sets the status to Pending and
    schedules a restart. *)
Theorem worker_exit_respawns_while_manually_stopped :
  (run (two_workers_crashing ++ [ProcClose 6 (Some 0%Z) None]) sample_machine
   = Some (Ret tt, after (two_workers_crashing ++ [ProcClose 6 (Some 0%Z) None])
                     sample_machine)
   /\ manuallyStopped (this (after two_workers_crashing sample_machine)) = true
   /\ shuttingDown (this (after two_workers_crashing sample_machine)) = false
   /\ existsb is_fork
        (emitted (after two_workers_crashing sample_machine)
           (after (two_workers_crashing ++ [ProcClose 6 (Some 0%Z) None]) sample_machine))
      = true
   /\ lastBridgeStatus
        (this (after (two_workers_crashing ++ [ProcClose 6 (Some 0%Z) None])
                 sample_machine))
      = PENDING
   /\ manuallyStopped
        (this (after (two_workers_crashing ++ [ProcClose 6 (Some 0%Z) None])
                 sample_machine))
      = true)
  /\ (run (stop_start_in_backoff ++ [CallStopChildBridge; crash 1]) sample_machine
      = Some (Ret tt, after (stop_start_in_backoff ++ [CallStopChildBridge; crash 1])
                        sample_machine)
      /\ manuallyStopped
           (this (after (stop_start_in_backoff ++ [CallStopChildBridge]) sample_machine))
         = true
      /\ lastBridgeStatus
           (this (after (stop_start_in_backoff ++ [CallStopChildBridge]) sample_machine))
         = DOWN
      /\ existsb is_set_timeout
           (emitted
              (after (stop_start_in_backoff ++ [CallStopChildBridge]) sample_machine)
              (after (stop_start_in_backoff ++ [CallStopChildBridge; crash 1])
                 sample_machine))
         = true
      /\ lastBridgeStatus
           (this (after (stop_start_in_backoff ++ [CallStopChildBridge; crash 1])
                    sample_machine))
         = PENDING).
Proof. vm_compute. repeat split. Qed.

(** C6, as it stands, fails: a second start() appends the launch flags
    again and forks a second worker beside the first. *)
Lemma start_twice_differs :
  args (this (after [CallStart] sample_machine)) = ["-D"]
  /\ args (this (after [CallStart; CallStart] sample_machine)) = ["-D"; "-D"]
  /\ child (this (after [CallStart] sample_machine)) = Some 0
  /\ child (this (after [CallStart; CallStart] sample_machine)) = Some 1
  /\ procs (after [CallStart; CallStart] sample_machine) = [new_worker; new_worker].
Proof. vm_compute. repeat split. Qed.

(** C6, amended: a second start() leaves the environment of the worker, the
    display name and the status (Pending) as the first call left them; it
    appends the launch flags once more and forks one more worker, which
    becomes the current child while the first stays as it was. *)
Theorem start_again :
  forall (m : Machine),
  exists m1 m2 l,
    start m = (Ret tt, m1) /\ start m1 = (Ret tt, m2)
    /\ processEnv (this m2) = processEnv (this m1)
    /\ displayName (this m2) = displayName (this m1)
    /\ lastBridgeStatus (this m2) = lastBridgeStatus (this m1)
    /\ lastBridgeStatus (this m1) = PENDING
    /\ args (this m1) = args (this m) ++ launch_flags (this m)
    /\ args (this m2) = args (this m1) ++ launch_flags (this m)
    /\ procs m1 = procs m ++ [new_worker]
    /\ procs m2 = procs m1 ++ [new_worker]
    /\ child (this m1) = Some (List.length (procs m))
    /\ child (this m2) = Some (List.length (procs m1))
    /\ out m2 = out m1 ++ l
    /\ In (Fork (List.length (procs m1)) (args (this m2)) (processEnv (this m2))) l.
Proof.
  intros m.
  exists (started_machine m), (started_machine (started_machine m)).
  exists [StatusUpdate
            (getMetadata (host m)
               (with_lastBridgeStatus PENDING
                  (with_processEnv (worker_options (started_machine m))
                     (with_args (args (started m) ++ launch_flags (started m))
                        (started m)))));
          Fork (List.length (procs (started_machine m)))
            (args (started m) ++ launch_flags (started m))
            (worker_options (started_machine m))].
  split; [apply start_eq|]. split; [apply start_eq|].
  cbn [this procs out started_machine].
  rewrite ?processEnv_started, ?displayName_started, ?status_started, ?args_started,
    ?child_started, ?worker_options_started, ?launch_flags_started.
  cbn [this started_machine]. rewrite ?display_name_started.
  repeat (split; [reflexivity|]).
  right. left. reflexivity.
Qed.

(** C7: refreshConfig() returns, and so does the part of it that runs after
    the read, whatever the read gave: no outcome makes it throw. When the
    read failed or no block of the file is for this supervisor, the object
    is left as it was, pluginConfig and bridgeConfig included, and one line
    is logged. When some block is for this supervisor, pluginConfig becomes
    the blocks of the file that are. *)
Theorem refreshConfig_never_raises :
  forall (r : ReadOutcome) (m : Machine),
    (exists m0, refreshConfig m = (Ret tt, m0) /\ this m0 = this m)
    /\ exists m',
        refreshConfig_resume r m = (Ret tt, m')
        /\ (nothing_to_use (this m) r ->
            pluginConfig (this m') = pluginConfig (this m)
            /\ bridgeConfig (this m') = bridgeConfig (this m)
            /\ this m' = this m
            /\ exists lvl msg, out m' = out m ++ [Log (log (this m)) lvl msg])
        /\ (forall hc x,
               r = ReadOk hc -> In x (candidate_blocks (this m) hc) ->
               block_is_for (this m) x ->
               pluginConfig (this m') <> []
               /\ forall y, In y (pluginConfig (this m'))
                            <-> In y (candidate_blocks (this m) hc)
                                /\ block_is_for (this m) y).
Proof.
  intros r m. split; [eexists; split; reflexivity|].
  destruct (refreshConfig_resume_cases r m) as (m' & Heq & _ & _ & _ & _ & _ & Hcase).
  exists m'. split; [exact Heq|].
  destruct Hcase as [(Hthis & Hlog & Hkept) | (hc & c0 & rest & Hr & Hkept & Hthis & Hout)].
  - split.
    + intros _. rewrite Hthis. auto.
    + intros hc x Hr Hin Hfor. subst r. exfalso.
      assert (Hx : In x (kept_blocks (this m) hc)) by (apply kept_blocks_spec; auto).
      rewrite Hkept in Hx. exact Hx.
  - subst r. split.
    + intros Hnone. exfalso.
      assert (Hc0 : In c0 (kept_blocks (this m) hc)) by (rewrite Hkept; left; reflexivity).
      apply kept_blocks_spec in Hc0. destruct Hc0 as [Hin Hfor].
      exact (Hnone c0 Hin Hfor).
    + intros hc' x Hr _ _. inversion Hr; subst hc'. rewrite Hthis.
      cbn [pluginConfig with_bridgeConfig with_pluginConfig].
      split; [discriminate|]. intros y. rewrite <- Hkept. apply kept_blocks_spec.
Qed.

Lemma refreshConfig_never_raises_witness :
  exists m',
    refreshConfig_resume (ReadFailed "ENOENT") sample_machine = (Ret tt, m')
    /\ pluginConfig (this m') = [sample_block]
    /\ bridgeConfig (this m') = sample_bridge.
Proof.
  destruct (refreshConfig_never_raises (ReadFailed "ENOENT") sample_machine)
    as (_ & m' & Heq & Hkeep & _).
  exists m'. split; [exact Heq|].
  destruct (Hkeep I) as (H1 & H2 & _). split; [exact H1 | exact H2].
Defined.

(** Every message the handler has no case for, other than null, is dropped:
    the handler returns and the machine is as it was. *)
Lemma on_message_discards (message : JsValue) (m : Machine) :
  message <> JNull -> unrecognized message = true ->
  on_message message m = (Ret tt, m).
Proof.
  intros Hnull Hun. destruct message as [| b | n | s | items | fields];
    try reflexivity; [congruence|].
  unfold on_message, unrecognized in *. cbn [typeof is_object_type negb].
  unfold bind, lift, prop. cbn [truthy].
  destruct (assoc "id" fields) as [[| b | n | tag | items | fs]|];
    cbn [truthy negb]; try reflexivity.
  - destruct b; reflexivity.
  - destruct (negb (n =? 0)%Z); reflexivity.
  - unfold handled_tag in Hun. apply negb_true_iff in Hun.
    apply orb_false_elim in Hun. destruct Hun as [Hun H5].
    apply orb_false_elim in Hun. destruct Hun as [Hun H4].
    apply orb_false_elim in Hun. destruct Hun as [Hun H3].
    apply orb_false_elim in Hun. destruct Hun as [H1 H2].
    rewrite H1, H2, H3, H4, H5.
    destruct (negb (String.eqb tag EmptyString)); reflexivity.
Qed.

(** C8 fails on the code for the message null: [typeof null] is 'object',
    so the guard goes on to read [message.id] and the handler throws a
    TypeError, in any machine; the started sample supervisor is one. *)
Theorem null_message_throws :
  (forall (m : Machine), on_message JNull m = (Throw (TypeError "id"), m))
  /\ unrecognized JNull = true
  /\ step (ProcMessage 0 JNull) (after [CallStart] sample_machine)
     = Some (Throw (TypeError "id"), after [CallStart] sample_machine).
Proof.
  split; [intros m; reflexivity|]. split; [reflexivity|]. vm_compute. reflexivity.
Qed.

Lemma run_heard (es : list Event) :
  forall (m : Machine) (o : Outcome unit) (m' : Machine),
    run es m = Some (o, m') -> heard m m'.
Proof.
  induction es as [|e es IH]; intros m o m' Hrun; cbn [run] in Hrun.
  - inversion Hrun; subst. apply heard_frame; reflexivity.
  - destruct (step e m) as [[[a|err] m1]|] eqn:Hstep; [| |discriminate].
    + apply heard_trans with m1; [apply (step_heard e m _ m1 Hstep) | apply (IH m1 o m' Hrun)].
    + inversion Hrun; subst. apply (step_heard e m _ m' Hstep).
Qed.

(** C10, as it stands, fails: stopChildBridge() sets restartCount to 0,
    here from 1, and it is neither a clean restart cycle nor a restart. *)
Lemma stop_resets_restartCount :
  run [CallStart; crash 0; CallStopChildBridge] sample_machine
  = Some (Ret tt, after [CallStart; crash 0; CallStopChildBridge] sample_machine)
  /\ restartCount (this (after [CallStart; crash 0] sample_machine)) = 1%Z
  /\ restartCount (this (after [CallStart; crash 0; CallStopChildBridge] sample_machine))
     = 0%Z.
Proof. vm_compute. repeat split. Qed.

(** C10, amended: a turn of the event loop that leaves restartCount
    smaller than it was leaves it 0, and is one of three: the close of a
    worker that is not a crash, met while not shutting down;
    restartChildBridge() on a supervisor that was manually stopped; or
    stopChildBridge() on a supervisor that is not shutting down. *)
Theorem restartCount_only_reset :
  forall (e : Event) (m : Machine) (o : Outcome unit) (m' : Machine),
    step e m = Some (o, m') ->
    (restartCount (this m') < restartCount (this m))%Z ->
    restartCount (this m') = 0%Z /\ resets_restartCount e m.
Proof.
  intros e m o m' Hstep Hlt.
  destruct (writes_restartCount e) eqn:He.
  2:{ rewrite (step_same_count e m o m' He Hstep) in Hlt. lia. }
  destruct e; try discriminate He; unfold step in Hstep; cbn [resets_restartCount].
  - (* restartChildBridge *)
    unfold restartChildBridge in Hstep. unfold bind at 1 in Hstep.
    unfold get at 1 in Hstep. cbn beta iota in Hstep.
    destruct (manuallyStopped (this m)) eqn:Hms.
    + split; [|reflexivity]. unfold bind, update in Hstep.
      inversion Hstep as [Heq].
      pose proof (startChildBridge_same_count (with_this (with_restartCount 0%Z (this m)) m))
        as Hsame.
      rewrite Heq in Hsame. exact Hsame.
    + exfalso. inversion Hstep as [Heq].
      pose proof (reload_same_count m) as Hsame. rewrite Heq in Hsame.
      cbn [snd] in Hsame. lia.
  - (* stopChildBridge *)
    destruct (shuttingDown (this m)) eqn:Hsd.
    + exfalso. rewrite stopChildBridge_again in Hstep by exact Hsd.
      inversion Hstep; subst m'. cbn in Hlt. lia.
    + split; [|reflexivity]. rewrite stopChildBridge_eq in Hstep by exact Hsd.
      inversion Hstep as [Heq].
      pose proof (teardown_same_count (stopping m)) as Hsame.
      rewrite Heq in Hsame. exact Hsame.
  - (* a worker closes *)
    destruct (nth_error (procs m) h) as [p|]; [|discriminate].
    destruct (closed p); [discriminate|].
    destruct (closeListener p).
    2:{ exfalso. inversion Hstep; subst m'. cbn in Hlt. lia. }
    destruct (likely_crash code signal) eqn:Hcr.
    + exfalso.
      destruct (Z.lt_ge_cases (restartCount (this m)) maxRestarts) as [Hlow | Hhigh].
      * rewrite handleProcessClose_backoff in Hstep by (cbn; assumption).
        inversion Hstep; subst m'. cbn in Hlt. lia.
      * rewrite handleProcessClose_give_up in Hstep by (cbn; assumption).
        inversion Hstep; subst m'. cbn in Hlt. lia.
    + destruct (shuttingDown (this m)) eqn:Hsd.
      * exfalso. rewrite handleProcessClose_ignore in Hstep by (cbn; assumption).
        inversion Hstep; subst m'. cbn in Hlt. lia.
      * rewrite handleProcessClose_respawn in Hstep by (cbn; assumption).
        inversion Hstep; subst m'. cbn. auto.
Qed.

Lemma restartCount_only_reset_witness :
  restartCount
    (this (after [CallStart; crash 0; TimerFired 0; ProcClose 1 (Some 0%Z) None]
             sample_machine))
  = 0%Z.
Proof.
  apply (restartCount_only_reset (ProcClose 1 (Some 0%Z) None)
           (after [CallStart; crash 0; TimerFired 0] sample_machine) (Ret tt)
           (after [CallStart; crash 0; TimerFired 0; ProcClose 1 (Some 0%Z) None]
              sample_machine));
    vm_compute; reflexivity.
Defined.

(** * Further properties of the supervisor *)

(** ** What a method writes and what it sends out

    For an invariant [I] of the machine and a test [P] on outputs, each
    lemma below asks that [I] survive the writes its method makes (one
    hypothesis per field or table written) and that [P] pass the kinds of
    output its method produces. The hypotheses a lemma ends up with are a
    list of what its method can touch. *)

Section Emitted.

Variable I : Machine -> Prop.
Variable P : Effect -> bool.

Hypothesis I_out : forall m l, I m -> I (with_out l m).
Hypothesis I_procs : forall m ps, I m -> I (with_procs ps m).
Hypothesis I_timers : forall m ts, I m -> I (with_timers ts m).
Hypothesis I_reads : forall m n, I m -> I (with_reads n m).
Hypothesis I_ports : forall m l, I m -> I (with_portRequests l m).
Hypothesis I_child : forall v m, I m -> I (with_this (with_child v (this m)) m).
Hypothesis I_args : forall v m, I m -> I (with_this (with_args v (this m)) m).
Hypothesis I_processEnv : forall v m, I m -> I (with_this (with_processEnv v (this m)) m).
Hypothesis I_shuttingDown :
  forall v m, I m -> I (with_this (with_shuttingDown v (this m)) m).
Hypothesis I_lastBridgeStatus :
  forall v m, I m -> I (with_this (with_lastBridgeStatus v (this m)) m).
Hypothesis I_pairedStatus :
  forall v m, I m -> I (with_this (with_pairedStatus v (this m)) m).
Hypothesis I_manuallyStopped :
  forall v m, I m -> I (with_this (with_manuallyStopped v (this m)) m).
Hypothesis I_setupUri : forall v m, I m -> I (with_this (with_setupUri v (this m)) m).
Hypothesis I_pluginConfig :
  forall v m, I m -> I (with_this (with_pluginConfig v (this m)) m).
Hypothesis I_log : forall v m, I m -> I (with_this (with_log v (this m)) m).
Hypothesis I_displayName :
  forall v m, I m -> I (with_this (with_displayName v (this m)) m).
Hypothesis I_restartCount :
  forall v m, I m -> I (with_this (with_restartCount v (this m)) m).
Hypothesis I_bridgeConfig :
  forall v m,
    I m -> bc_username v = bc_username (bridgeConfig (this m)) ->
    I (with_this (with_bridgeConfig v (this m)) m).

Hypothesis P_log : forall p lvl msg, P (Log p lvl msg) = true.
Hypothesis P_status : forall m, I m -> P (StatusUpdate (getMetadata (host m) (this m))) = true.
Hypothesis P_fork : forall h a o, P (Fork h a o) = true.
Hypothesis P_kill : forall h, P (Kill h) = true.
Hypothesis P_timeout : forall ms, P (SetTimeout ms) = true.
Hypothesis P_read : P ReadJson = true.
Hypothesis P_port : forall u, P (RequestPort u) = true.
Hypothesis P_reject : forall e, P (UnhandledRejection e) = true.
Hypothesis P_send :
  forall m h t d,
    I m -> child (this m) = Some h -> child_connected m = true -> P (Send h t d) = true.

Lemma emits_refl (m : Machine) : emits I P m m.
Proof. intros Hm. split; [exact Hm|]. exists []. rewrite app_nil_r. auto. Qed.

Lemma emits_trans (m1 m2 m3 : Machine) :
  emits I P m1 m2 -> emits I P m2 m3 -> emits I P m1 m3.
Proof.
  intros H12 H23 H1. destruct (H12 H1) as (H2 & l1 & Ho1 & Hl1).
  destruct (H23 H2) as (H3 & l2 & Ho2 & Hl2).
  split; [exact H3|]. exists (l1 ++ l2).
  rewrite Ho2, Ho1, app_assoc, forallb_app, Hl1, Hl2. auto.
Qed.

Lemma emits_ret {A : Type} (a : A) : preserves (emits I P) (ret a).
Proof. intros m. apply emits_refl. Qed.

Lemma emits_throw {A : Type} (e : JsError) : preserves (emits I P) (@throw A e).
Proof. intros m. apply emits_refl. Qed.

Lemma emits_lift {A : Type} (o : Outcome A) : preserves (emits I P) (lift o).
Proof. intros m. apply emits_refl. Qed.

Lemma emits_get_host : preserves (emits I P) get_host.
Proof. intros m. apply emits_refl. Qed.

Lemma emits_get : preserves (emits I P) get.
Proof. intros m. apply emits_refl. Qed.

Lemma emits_bind {A B : Type} (c : M A) (k : A -> M B) :
  preserves (emits I P) c -> (forall a, preserves (emits I P) (k a)) ->
  preserves (emits I P) (bind c k).
Proof. apply (preserves_bind (emits I P) emits_trans). Qed.

Lemma emits_try_catch (c : M unit) (h : JsError -> M unit) :
  preserves (emits I P) c -> (forall e, preserves (emits I P) (h e)) ->
  preserves (emits I P) (try_catch c h).
Proof. apply (preserves_try_catch (emits I P) emits_trans). Qed.

Lemma emits_when (b : bool) (c : M unit) :
  preserves (emits I P) c -> preserves (emits I P) (when b c).
Proof. intros Hc. destruct b; [exact Hc | apply emits_ret]. Qed.

Lemma emits_update (f : ChildBridgeService -> ChildBridgeService) :
  (forall m, I m -> I (with_this (f (this m)) m)) -> preserves (emits I P) (update f).
Proof.
  intros Hf m Hm. cbn [snd update]. split; [apply Hf, Hm|].
  exists []. cbn. rewrite app_nil_r. auto.
Qed.

Lemma emits_emit (e : Effect) : P e = true -> preserves (emits I P) (emit e).
Proof.
  intros He m Hm. cbn [snd emit]. split; [apply I_out, Hm|].
  exists [e]. cbn. rewrite He. auto.
Qed.

(** A write to one of the runtime tables followed by one output. *)
Lemma emits_table (m w : Machine) (e : Effect) :
  (I m -> I w) -> out w = out m -> P e = true ->
  emits I P m (with_out (out w ++ [e]) w).
Proof.
  intros Hw Ho He Hm. split; [apply I_out, Hw, Hm|].
  exists [e]. cbn. rewrite Ho, He. auto.
Qed.

Ltac field_kept :=
  let m := fresh "m" in
  let Hm := fresh "Hm" in
  intros m Hm; cbv beta;
  first
    [ apply I_child | apply I_args | apply I_processEnv | apply I_shuttingDown
    | apply I_lastBridgeStatus | apply I_pairedStatus | apply I_manuallyStopped
    | apply I_setupUri | apply I_pluginConfig | apply I_log | apply I_displayName
    | apply I_restartCount ];
  exact Hm.

Ltac step_emits :=
  first
    [ match goal with H : _ |- _ => solve [apply H] end
    | apply emits_ret | apply emits_throw | apply emits_lift | apply emits_get
    | apply emits_get_host
    | apply emits_emit; solve [ apply P_log | apply P_kill ]
    | apply emits_update; field_kept
    | apply emits_when
    | apply emits_bind; [| intros ? ]
    | apply emits_try_catch; [| intros ? ]
    | match goal with
      | |- preserves (emits I P) (if ?b then _ else _) => destruct b
      | |- preserves (emits I P) (match ?x with _ => _ end) => destruct x
      end ].

Ltac emitted := repeat step_emits.

Lemma emits_log_line (lvl : LogLevel) (msg : LogMessage) :
  preserves (emits I P) (log_line lvl msg).
Proof. unfold log_line. emitted. Qed.

Lemma emits_sendStatusUpdate : preserves (emits I P) sendStatusUpdate.
Proof.
  intros m Hm. unfold sendStatusUpdate, get_host, bind, get, emit. cbn [snd].
  split; [apply I_out, Hm|].
  exists [StatusUpdate (getMetadata (host m) (this m))]. cbn. rewrite (P_status m Hm). auto.
Qed.

Lemma emits_set_bridgeStatus (v : ChildBridgeStatus) :
  preserves (emits I P) (set_bridgeStatus v).
Proof. pose proof emits_sendStatusUpdate. unfold set_bridgeStatus. emitted. Qed.

Lemma emits_fork : preserves (emits I P) fork.
Proof.
  intros m. unfold fork. cbn [snd].
  apply (emits_table m (with_procs _ m)); [apply I_procs | reflexivity | apply P_fork].
Qed.

Lemma emits_set_closeListener (b : bool) (h : nat) :
  preserves (emits I P) (set_closeListener b h).
Proof.
  intros m Hm. cbn [snd set_closeListener]. split; [apply I_procs, Hm|].
  exists []. cbn. rewrite app_nil_r. auto.
Qed.

Lemma emits_setTimeout (ms : Z) : preserves (emits I P) (setTimeout ms).
Proof.
  intros m. unfold setTimeout. cbn [snd].
  apply (emits_table m (with_timers _ m)); [apply I_timers | reflexivity | apply P_timeout].
Qed.

Lemma emits_refreshConfig : preserves (emits I P) refreshConfig.
Proof.
  intros m. unfold refreshConfig. cbn [snd].
  apply (emits_table m (with_reads _ m)); [apply I_reads | reflexivity | apply P_read].
Qed.

Lemma emits_sendMessage (t : ChildProcessMessageEventType) (d : Payload) :
  preserves (emits I P) (sendMessage t d).
Proof.
  intros m. unfold sendMessage.
  destruct (child_connected m) eqn:Hc; [|apply emits_refl].
  destruct (child (this m)) as [h|] eqn:Hh; [|apply emits_refl].
  intros Hm. cbn [snd emit]. split; [apply I_out, Hm|].
  exists [Send h t d]. cbn. rewrite (P_send m h t d Hm Hh Hc). auto.
Qed.

Lemma emits_startChildProcess : preserves (emits I P) startChildProcess.
Proof.
  pose proof emits_set_bridgeStatus. pose proof emits_fork.
  pose proof emits_set_closeListener.
  unfold startChildProcess. emitted.
Qed.

Lemma emits_restart_timer_callback : preserves (emits I P) restart_timer_callback.
Proof. pose proof emits_startChildProcess. unfold restart_timer_callback. emitted. Qed.

Lemma emits_handleProcessClose (code : option Z) (signal : option string) :
  preserves (emits I P) (handleProcessClose code signal).
Proof.
  pose proof emits_log_line. pose proof emits_set_bridgeStatus.
  pose proof emits_startChildProcess. pose proof emits_setTimeout.
  unfold handleProcessClose. cbv zeta. emitted.
Qed.

Lemma emits_setProcessFlags : preserves (emits I P) setProcessFlags.
Proof. unfold setProcessFlags, push_args. emitted. Qed.

Lemma emits_setProcessEnv : preserves (emits I P) setProcessEnv.
Proof. intros m. unfold setProcessEnv. apply emits_update. field_kept. Qed.

Lemma emits_loadPlugin : preserves (emits I P) loadPlugin.
Proof. intros m. unfold loadPlugin. apply emits_sendMessage. Qed.

Lemma emits_handlePortRequest (request : option JsValue) :
  preserves (emits I P) (handlePortRequest request).
Proof.
  intros m. unfold handlePortRequest.
  destruct (prop request "username") as [u|e]; cbn [snd].
  - apply (emits_table m (with_portRequests _ m));
      [apply I_ports | reflexivity | apply P_port].
  - apply emits_emit, P_reject.
Qed.

Lemma emits_teardown : preserves (emits I P) teardown.
Proof.
  pose proof emits_set_bridgeStatus.
  intros m. unfold teardown. destruct (child_connected m); [|apply emits_refl].
  set (ch := child (this m)). clearbody ch. revert m.
  change (preserves (emits I P)
    (set_bridgeStatus DOWN ;;
     match ch with Some h => emit (Kill h) | None => ret tt end)).
  emitted.
Qed.

Lemma emits_port_allocated (u : option JsValue) (port : option nat) :
  preserves (emits I P) (port_allocated u port).
Proof. apply emits_sendMessage. Qed.

(** The blocks refreshConfig() keeps have the username of the bridge. *)
Lemma emits_use_config (config : option (list ConfigBlock)) (msg : LogMessage) (m : Machine) :
  (forall c0 rest b,
      config = Some (c0 :: rest) -> cb_bridge c0 = Some b ->
      bc_username b = bc_username (bridgeConfig (this m))) ->
  emits I P m (snd (use_config config msg m)).
Proof.
  intros Hb. unfold use_config.
  destruct config as [[|c0 rest]|]; [apply emits_log_line | | apply emits_refl].
  unfold bind, update. cbn [snd]. intros Hm. split.
  - apply I_bridgeConfig; [apply I_pluginConfig, Hm|].
    cbn. destruct (cb_bridge c0) as [b|] eqn:Hc; [|reflexivity].
    apply (Hb c0 rest b eq_refl Hc).
  - exists []. cbn. rewrite app_nil_r. auto.
Qed.

Lemma filter_head_matches (s : ChildBridgeService) (key : ConfigBlock -> option string)
    (blocks : option (list ConfigBlock)) (c0 : ConfigBlock) (rest : list ConfigBlock)
    (b : BridgeConfiguration) :
  option_map (filter (block_matches s key)) blocks = Some (c0 :: rest) ->
  cb_bridge c0 = Some b ->
  bc_username b = bc_username (bridgeConfig s).
Proof.
  intros Hf Hc. destruct blocks as [l|]; [|discriminate]. cbn in Hf.
  assert (Hin : In c0 (filter (block_matches s key) l)).
  { inversion Hf as [Hf']. rewrite Hf'. left. reflexivity. }
  apply filter_In in Hin. destruct Hin as [_ Hm].
  unfold block_matches in Hm. apply andb_prop in Hm. destruct Hm as [_ Hm].
  rewrite Hc in Hm. apply String.eqb_eq. exact Hm.
Qed.

Lemma emits_refreshConfig_resume (r : ReadOutcome) :
  preserves (emits I P) (refreshConfig_resume r).
Proof.
  intros m. unfold refreshConfig_resume, try_catch.
  destruct r as [msg| |hc].
  - apply emits_log_line.
  - apply emits_log_line.
  - unfold bind at 1. unfold get at 1. cbn beta iota.
    destruct (type (this m)).
    + pose proof (emits_use_config
                    (option_map (filter (block_matches (this m) cb_platform)) (hc_platforms hc))
                    PlatformConfigNotFound m
                    (fun c0 rest b => filter_head_matches (this m) cb_platform
                                        (hc_platforms hc) c0 rest b)) as H.
      destruct (use_config _ PlatformConfigNotFound m) as [[u|e] m1]; cbn [snd] in H.
      * exact H.
      * eapply emits_trans; [exact H | apply emits_log_line].
    + pose proof (emits_use_config
                    (option_map (filter (block_matches (this m) cb_accessory))
                       (hc_accessories hc))
                    AccessoryConfigNotFound m
                    (fun c0 rest b => filter_head_matches (this m) cb_accessory
                                        (hc_accessories hc) c0 rest b)) as H.
      destruct (use_config _ AccessoryConfigNotFound m) as [[u|e] m1]; cbn [snd] in H.
      * exact H.
      * eapply emits_trans; [exact H | apply emits_log_line].
Qed.

Lemma emits_addConfig (c : ConfigBlock) : preserves (emits I P) (addConfig c).
Proof. unfold addConfig. emitted. Qed.

Lemma emits_on_error : preserves (emits I P) on_error.
Proof.
  pose proof emits_set_bridgeStatus. pose proof emits_log_line.
  unfold on_error. emitted.
Qed.

Lemma emits_on_message (message : JsValue) : preserves (emits I P) (on_message message).
Proof.
  pose proof emits_loadPlugin. pose proof emits_handlePortRequest.
  pose proof (emits_sendMessage START NoData).
  pose proof emits_log_line. pose proof emits_set_bridgeStatus.
  pose proof emits_sendStatusUpdate.
  unfold on_message, startBridge. emitted.
Qed.

Lemma emits_startChildBridge : preserves (emits I P) startChildBridge.
Proof.
  pose proof emits_startChildProcess. pose proof emits_refreshConfig.
  pose proof emits_log_line.
  intros m. unfold startChildBridge. cbv zeta.
  destruct (manuallyStopped (this m)
            && match lastBridgeStatus (this m) with DOWN => true | _ => false end
            && negb (child_connected m)).
  - revert m.
    change (preserves (emits I P)
      (refreshConfig ;; startChildProcess ;; update (with_shuttingDown false) ;;
       update (with_manuallyStopped false))).
    emitted.
  - apply emits_log_line.
Qed.

Lemma emits_restartChildBridge : preserves (emits I P) restartChildBridge.
Proof.
  pose proof emits_startChildBridge. pose proof emits_teardown.
  pose proof emits_refreshConfig. pose proof emits_log_line.
  unfold restartChildBridge. emitted.
Qed.

Lemma emits_stopChildBridge : preserves (emits I P) stopChildBridge.
Proof.
  pose proof emits_teardown. pose proof emits_set_closeListener.
  pose proof emits_log_line. pose proof emits_set_bridgeStatus.
  unfold stopChildBridge. emitted.
Qed.

Lemma emits_start : preserves (emits I P) start.
Proof.
  pose proof emits_setProcessFlags. pose proof emits_setProcessEnv.
  pose proof emits_startChildProcess.
  unfold start. emitted.
Qed.

Lemma emits_on_shutdown : preserves (emits I P) on_shutdown.
Proof. pose proof emits_teardown. unfold on_shutdown. emitted. Qed.

(** One turn of the event loop, for the turns that leave the workers, the
    timers and the flags alone. *)
Lemma emits_step_quiet (e : Event) (m : Machine) (o : Outcome unit) (m' : Machine) :
  quiet_event e = true -> step e m = Some (o, m') -> emits I P m m'.
Proof.
  intros He Hstep.
  pose proof (preserves_run (emits I P) emits_trans) as Hrun.
  destruct e; try discriminate He; unfold step in Hstep.
  - apply (Hrun _ m m o m' (emits_addConfig config) (emits_refl m) Hstep).
  - apply (Hrun _ m m o m' emits_refreshConfig (emits_refl m) Hstep).
  - destruct (nth_error (procs m) h) as [p|]; [|discriminate].
    destruct (connected p); [|discriminate].
    apply (Hrun _ m m o m' (emits_on_message message) (emits_refl m) Hstep).
  - destruct (nth_error (procs m) h) as [p|]; [|discriminate].
    destruct (closed p); [discriminate|].
    apply (Hrun _ m m o m' emits_on_error (emits_refl m) Hstep).
  - destruct (reads m) as [|n]; [discriminate|].
    refine (Hrun _ m _ o m' (emits_refreshConfig_resume r) _ Hstep).
    intros Hm. split; [apply I_reads, Hm|]. exists []. cbn. rewrite app_nil_r. auto.
  - destruct (nth_error (portRequests m) k) as [u|]; [|discriminate].
    refine (Hrun _ m _ o m' (emits_port_allocated u port) _ Hstep).
    intros Hm. split; [apply I_ports, Hm|]. exists []. cbn. rewrite app_nil_r. auto.
Qed.

(** The turns that stop, restart or close a worker, or fire a timer. *)
Lemma emits_step_control (e : Event) (m : Machine) (o : Outcome unit) (m' : Machine) :
  quiet_event e = false -> e <> CallStart -> step e m = Some (o, m') -> emits I P m m'.
Proof.
  intros Hq Hne Hstep.
  pose proof (preserves_run (emits I P) emits_trans) as Hrun.
  assert (Htable : forall w, out w = out m -> (I m -> I w) -> emits I P m w).
  { intros w Ho Hw Hm. split; [apply Hw, Hm|]. exists []. rewrite app_nil_r. auto. }
  destruct e; try discriminate Hq; try congruence; unfold step in Hstep.
  - apply (Hrun _ m m o m' emits_restartChildBridge (emits_refl m) Hstep).
  - apply (Hrun _ m m o m' emits_stopChildBridge (emits_refl m) Hstep).
  - apply (Hrun _ m m o m' emits_startChildBridge (emits_refl m) Hstep).
  - apply (Hrun _ m m o m' emits_on_shutdown (emits_refl m) Hstep).
  - destruct (nth_error (procs m) h) as [p|]; [|discriminate].
    destruct (connected p); [|discriminate].
    inversion Hstep; subst. apply Htable; [reflexivity | apply I_procs].
  - destruct (nth_error (procs m) h) as [p|]; [|discriminate].
    destruct (closed p); [discriminate|].
    destruct (closeListener p).
    + refine (Hrun _ m _ o m' (emits_handleProcessClose code signal) _ Hstep).
      apply Htable; [reflexivity | apply I_procs].
    + inversion Hstep; subst. apply Htable; [reflexivity | apply I_procs].
  - destruct (nth_error (timers m) k); [|discriminate].
    refine (Hrun _ m _ o m' emits_restart_timer_callback _ Hstep).
    apply Htable; [reflexivity | apply I_timers].
Qed.

(** Every turn but those of messages, errors, configuration and ports. *)
Lemma emits_step_loud (e : Event) (m : Machine) (o : Outcome unit) (m' : Machine) :
  quiet_event e = false -> step e m = Some (o, m') -> emits I P m m'.
Proof.
  intros Hq Hstep.
  destruct e; try discriminate Hq;
    try (apply (emits_step_control _ m o m' Hq); [discriminate | exact Hstep]).
  unfold step in Hstep.
  apply (preserves_run (emits I P) emits_trans _ m m o m' emits_start (emits_refl m) Hstep).
Qed.

(** Any turn of the event loop. *)
Lemma emits_step (e : Event) (m : Machine) (o : Outcome unit) (m' : Machine) :
  step e m = Some (o, m') -> emits I P m m'.
Proof.
  intros Hstep. destruct (quiet_event e) eqn:Hq.
  - apply (emits_step_quiet e m o m' Hq Hstep).
  - apply (emits_step_loud e m o m' Hq Hstep).
Qed.

End Emitted.

(** ** More paths of the class, one equation per path *)

Lemma on_shutdown_eq (m : Machine) :
  on_shutdown m = teardown (with_this (with_shuttingDown true (this m)) m).
Proof. reflexivity. Qed.

Lemma startChildBridge_refused (m : Machine) :
  manuallyStopped (this m)
  && match lastBridgeStatus (this m) with DOWN => true | _ => false end
  && negb (child_connected m) = false ->
  startChildBridge m =
  (Ret tt, with_out (out m ++ [Log (log (this m)) LWarn CannotBeStarted]) m).
Proof.
  intros H. unfold startChildBridge. cbv zeta. rewrite H. reflexivity.
Qed.

Lemma startChildBridge_accepted (m : Machine) :
  manuallyStopped (this m) = true -> lastBridgeStatus (this m) = DOWN ->
  child_connected m = false ->
  startChildBridge m =
  (Ret tt,
   {| this := with_manuallyStopped false
                (with_shuttingDown false
                   (with_child (Some (List.length (procs m)))
                      (with_lastBridgeStatus PENDING (this m))));
      host := host m;
      procs := procs m ++ [new_worker];
      timers := timers m;
      reads := S (reads m);
      portRequests := portRequests m;
      out := out m ++
             [ReadJson;
              StatusUpdate (getMetadata (host m) (with_lastBridgeStatus PENDING (this m)));
              Fork (List.length (procs m)) (args (this m)) (processEnv (this m))] |}).
Proof.
  intros Hm Hs Hc. unfold startChildBridge. cbv zeta. rewrite Hm, Hs, Hc.
  cbn [andb negb]. unfold bind at 1. unfold refreshConfig at 1.
  unfold bind at 1. rewrite startChildProcess_eq.
  unfold bind, update. cbn. flat. reflexivity.
Qed.

Lemma restartChildBridge_running (m : Machine) :
  manuallyStopped (this m) = false ->
  restartChildBridge m =
  teardown
    (with_out (out m ++ [Log (log (this m)) LWarn ChildBridgeRestarting; ReadJson])
       (with_reads (S (reads m)) m)).
Proof.
  intros Hm. unfold restartChildBridge. unfold bind at 1. unfold get at 1.
  cbn beta iota. rewrite Hm.
  unfold bind, log_line, get, emit, refreshConfig. cbn. flat. reflexivity.
Qed.

Lemma restartChildBridge_stopped (m : Machine) :
  manuallyStopped (this m) = true ->
  restartChildBridge m = startChildBridge (with_this (with_restartCount 0%Z (this m)) m).
Proof.
  intros Hm. unfold restartChildBridge. unfold bind at 1. unfold get at 1.
  cbn beta iota. rewrite Hm. reflexivity.
Qed.

(** The messages of the handshake, as the worker sends them. *)
Lemma on_message_ready (m : Machine) :
  on_message (JObj [("id", JStr "ready")]) m =
  loadPlugin (with_out (out m ++ [Log (log (this m)) LInfo (ChildBridgeStarting (child_pid (host m) (this m)))]) m).
Proof. reflexivity. Qed.

Lemma on_message_loaded (v : JsValue) (m : Machine) :
  on_message (JObj [("id", JStr "loaded"); ("data", JObj [("version", v)])]) m =
  sendMessage START NoData
    (with_out
       (out m ++
        [Log (log (this m)) LSuccess
           (StartedSuccessfully
              (if 1 <? List.length (pluginConfig (this m))
               then Some (List.length (pluginConfig (this m))) else None)
              (Some v))]) m).
Proof.
  unfold on_message, startBridge, bind, lift, get, log_line, emit. cbn.
  destruct (List.length (pluginConfig (this m))) as [|[|n]]; reflexivity.
Qed.

Lemma on_message_online (m : Machine) :
  on_message (JObj [("id", JStr "online")]) m = set_bridgeStatus OK m.
Proof. reflexivity. Qed.

Lemma sendMessage_connected (t : ChildProcessMessageEventType) (d : Payload) (m : Machine)
    (h : nat) :
  child (this m) = Some h -> child_connected m = true ->
  sendMessage t d m = (Ret tt, with_out (out m ++ [Send h t d]) m).
Proof. intros Hh Hc. unfold sendMessage. rewrite Hc, Hh. reflexivity. Qed.

(** ** Runs *)

Lemma emits_run (I : Machine -> Prop) (P : Effect -> bool) (ok : Event -> bool) :
  (forall e m o m', ok e = true -> step e m = Some (o, m') -> emits I P m m') ->
  forall es m o m', forallb ok es = true -> run es m = Some (o, m') -> emits I P m m'.
Proof.
  intros Hstep es. induction es as [|e es IH]; intros m o m' Hok Hrun.
  - inversion Hrun; subst. intros Hm. split; [exact Hm|]. exists [].
    rewrite app_nil_r. auto.
  - cbn [forallb] in Hok. apply andb_prop in Hok. destruct Hok as [He Hes].
    cbn [run] in Hrun. destruct (step e m) as [[[[] | err] m1]|] eqn:Hs; [| |discriminate].
    + intros Hm. destruct (Hstep e m _ m1 He Hs Hm) as [H1 [l1 [E1 F1]]].
      destruct (IH m1 o m' Hes Hrun H1) as [H2 [l2 [E2 F2]]].
      split; [exact H2|]. exists (l1 ++ l2). split.
      * rewrite E2, E1, app_assoc. reflexivity.
      * rewrite forallb_app, F1, F2. reflexivity.
    + inversion Hrun; subst. apply (Hstep e m _ m' He Hs).
Qed.

Lemma loadPlugin_eq (m : Machine) :
  loadPlugin m = sendMessage LOAD (LoadData (load_data m)) m.
Proof. reflexivity. Qed.

Lemma child_pid_of (h : Host) (s : ChildBridgeService) (c : nat) :
  child s = Some c -> child_pid h s = pids h c.
Proof. intros H. unfold child_pid. rewrite H. reflexivity. Qed.

Lemma child_connected_out (l : list Effect) (m : Machine) :
  child_connected (with_out l m) = child_connected m.
Proof. reflexivity. Qed.

Lemma child_connected_live (m : Machine) (h : nat) (p : ChildProcess) :
  child (this m) = Some h -> nth_error (procs m) h = Some p -> connected p = true ->
  child_connected m = true.
Proof. intros Hh Hn Hc. unfold child_connected. rewrite Hh, Hn. exact Hc. Qed.

(** * Further properties *)

(** X1. The handshake. When the current worker, its channel open, sends
    READY, LOADED and ONLINE, the supervisor answers READY with LOAD and
    the load data, LOADED with START, and ONLINE by going to Ok and
    publishing it; nothing else of the object changes, no worker is
    forked and no timer set. *)
Theorem handshake_brings_online (m : Machine) (h : nat) (p : ChildProcess) (v : JsValue) :
  child (this m) = Some h ->
  nth_error (procs m) h = Some p ->
  connected p = true ->
  run [ProcMessage h msg_ready; ProcMessage h (msg_loaded v); ProcMessage h msg_online] m =
  Some (Ret tt,
        with_out
          (out m ++
           [Log (log (this m)) LInfo (ChildBridgeStarting (pids (host m) h));
            Send h LOAD (LoadData (load_data m));
            Log (log (this m)) LSuccess
              (StartedSuccessfully
                 (if 1 <? List.length (pluginConfig (this m))
                  then Some (List.length (pluginConfig (this m))) else None)
                 (Some v));
            Send h START NoData;
            StatusUpdate (getMetadata (host m) (with_lastBridgeStatus OK (this m)))])
          (with_this (with_lastBridgeStatus OK (this m)) m)).
Proof.
  intros Hh Hn Hc.
  pose proof (child_connected_live m h p Hh Hn Hc) as Hcc.
  unfold msg_ready, msg_loaded, msg_online.
  cbn [run step]. rewrite Hn, Hc.
  rewrite on_message_ready, loadPlugin_eq.
  rewrite (sendMessage_connected _ _ _ h) by (try rewrite child_connected_out; assumption).
  cbn [procs with_out]. rewrite Hn, Hc.
  rewrite on_message_loaded.
  rewrite (sendMessage_connected _ _ _ h) by (try rewrite child_connected_out; assumption).
  cbn [procs with_out]. rewrite Hn, Hc.
  rewrite on_message_online.
  unfold set_bridgeStatus, sendStatusUpdate, get_host, bind, update, emit, get.
  cbn. rewrite (child_pid_of _ _ h Hh). flat. reflexivity.
Qed.

Lemma handshake_brings_online_witness :
  exists m',
    run [ProcMessage 0 msg_ready; ProcMessage 0 (msg_loaded (JStr "1.0.0"));
         ProcMessage 0 msg_online] (after [CallStart] sample_machine) = Some (Ret tt, m')
    /\ lastBridgeStatus (this m') = OK.
Proof.
  eexists. split.
  - apply (handshake_brings_online (after [CallStart] sample_machine) 0 new_worker);
      vm_compute; reflexivity.
  - vm_compute. reflexivity.
Defined.

(** X2. In every turn, every message the supervisor sends goes to the
    child that was current when the turn began, and only if that child's
    channel was open then: a reply to a message of worker [h] goes to the
    current child, whoever [h] is. *)
Theorem sends_go_to_current_child (e : Event) (m : Machine) (o : Outcome unit) (m' : Machine) :
  step e m = Some (o, m') ->
  exists l, out m' = out m ++ l /\ forallb (sent_to (addressee m)) l = true.
Proof.
  intros Hstep. destruct (quiet_event e) eqn:Hq.
  - refine (proj2 (emits_step_quiet
                     (fun w => child (this w) = child (this m) /\ procs w = procs m)
                     (sent_to (addressee m))
                     _ _ _ _ _ _ _ _ _ _ _ _ _ _ e m o m' Hq Hstep (conj eq_refl eq_refl)));
      try (intros; cbn; tauto); try reflexivity.
    intros w h t d [Hw1 Hw2] Hh Hc. unfold sent_to, addressee.
    assert (Hcm : child_connected m = true).
    { unfold child_connected in *. rewrite <- Hw1, <- Hw2. exact Hc. }
    rewrite Hcm, <- Hw1, Hh. apply Nat.eqb_refl.
  - refine (proj2 (emits_step_loud (fun _ => True) (sent_to (addressee m))
                     _ _ _ _ _ _ _ _ _ _ _ _ _ _ _ _ _ _ _ e m o m' Hq Hstep Logic.I));
      try (intros; exact Logic.I); reflexivity.
Qed.

Lemma sends_go_to_current_child_witness :
  exists l,
    out (after [CallStart; ProcMessage 0 msg_ready] sample_machine) =
    out (after [CallStart] sample_machine) ++ l
    /\ forallb (sent_to (addressee (after [CallStart] sample_machine))) l = true.
Proof.
  apply (sends_go_to_current_child (ProcMessage 0 msg_ready) (after [CallStart] sample_machine)
           (Ret tt)).
  vm_compute. reflexivity.
Defined.

(** X3. Whatever a worker sends, and whether the listener returns or
    throws, the turn forks nothing, kills nothing, sets no timer and
    starts no read of the configuration; of the object it can change the
    status, the pairing state and the setup URI, nothing else. *)
Theorem message_changes_little (h : nat) (message : JsValue) (m : Machine) (o : Outcome unit)
    (m' : Machine) :
  step (ProcMessage h message) m = Some (o, m') ->
  message_frame m m'
  /\ exists l, out m' = out m ++ l /\ forallb message_output l = true.
Proof.
  intros Hstep. unfold step in Hstep.
  destruct (nth_error (procs m) h) as [p|]; [|discriminate].
  destruct (connected p); [|discriminate].
  assert (H0 : message_frame m m) by (unfold message_frame; tauto).
  refine (preserves_run (emits (message_frame m) message_output) (emits_trans _ _) _ m m o m'
            (emits_on_message (message_frame m) message_output _ _ _ _ _ _ _ _ _ _ message)
            (emits_refl _ _ m) Hstep H0);
    try (intros; exact eq_refl);
    intros; unfold message_frame in *; cbn; tauto.
Qed.

Lemma message_changes_little_witness :
  message_frame (after [CallStart] sample_machine)
    (after [CallStart; ProcMessage 0 (msg_status (JBool true) (JStr "X-HM://0"))] sample_machine).
Proof.
  apply (message_changes_little 0 (msg_status (JBool true) (JStr "X-HM://0"))
           (after [CallStart] sample_machine) (Ret tt)).
  vm_compute. reflexivity.
Defined.

(** ** Which turns fork, and with what *)

Lemma no_fork_In (l : list Effect) (h : nat) (a : list string) (opts : ForkOptions) :
  forallb no_fork l = true -> ~ In (Fork h a opts) l.
Proof.
  intros Hall Hin. rewrite forallb_forall in Hall. apply Hall in Hin. discriminate Hin.
Qed.

Lemma startChildBridge_cases (m : Machine) :
  startChildBridge m =
  (Ret tt, with_out (out m ++ [Log (log (this m)) LWarn CannotBeStarted]) m)
  \/ (manuallyStopped (this m) = true /\ lastBridgeStatus (this m) = DOWN
      /\ child_connected m = false).
Proof.
  destruct (manuallyStopped (this m)) eqn:Hm;
    [|left; apply startChildBridge_refused; rewrite Hm; reflexivity].
  destruct (lastBridgeStatus (this m)) eqn:Hs;
    try (left; apply startChildBridge_refused; rewrite Hm, Hs; reflexivity).
  destruct (child_connected m) eqn:Hc;
    [left; apply startChildBridge_refused; rewrite Hm, Hs, Hc; reflexivity|].
  right. auto.
Qed.

Lemma handleProcessClose_cases (code : option Z) (signal : option string) (m : Machine) :
  (likely_crash code signal = true /\ (restartCount (this m) < maxRestarts)%Z)
  \/ (likely_crash code signal = true /\ (maxRestarts <= restartCount (this m))%Z)
  \/ (likely_crash code signal = false /\ shuttingDown (this m) = false)
  \/ (likely_crash code signal = false /\ shuttingDown (this m) = true).
Proof.
  destruct (likely_crash code signal); destruct (shuttingDown (this m));
    destruct (Z.ltb_spec (restartCount (this m)) maxRestarts); auto.
Qed.

Lemma emits_of (I : Machine -> Prop) (P : Effect -> bool) (c : M unit) (w : Machine)
    (o : Outcome unit) (m' : Machine) :
  preserves (emits I P) c -> c w = (o, m') -> emits I P w m'.
Proof. intros H E. specialize (H w). rewrite E in H. exact H. Qed.

Lemma emits_same (I : Machine -> Prop) (P : Effect -> bool) (m w : Machine) :
  out w = out m -> (I m -> I w) -> emits I P m w.
Proof.
  intros Ho Hw Hm. split; [apply Hw, Hm|]. exists []. rewrite app_nil_r. auto.
Qed.

Lemma emits_out (I : Machine -> Prop) (P : Effect -> bool) (m w : Machine) (l : list Effect) :
  out w = out m ++ l -> forallb P l = true -> (I m -> I w) -> emits I P m w.
Proof.
  intros Ho Hl Hw Hm. split; [apply Hw, Hm|]. exists l. auto.
Qed.

Ltac trivial_frame := try (intros; exact Logic.I); try reflexivity.

(** The forks of one turn other than start(): at most the next handle,
    with the stored arguments and options. *)
Lemma fork_step (e : Event) (m : Machine) (o : Outcome unit) (m' : Machine) :
  calls_start e = false -> step e m = Some (o, m') ->
  launch_settings m' = launch_settings m
  /\ exists l, out m' = out m ++ l
       /\ forall h a opts, In (Fork h a opts) l ->
            h = List.length (procs m) /\ a = args (this m) /\ opts = processEnv (this m).
Proof.
  intros Hns Hstep. split.
  - destruct (quiet_event e) eqn:Hq.
    + refine (proj1 (emits_step_quiet (fun w => launch_settings w = launch_settings m)
                       (fun _ => true) _ _ _ _ _ _ _ _ _ _ _ _ _ _ e m o m' Hq Hstep eq_refl));
        try (intros; reflexivity); intros; assumption.
    + refine (proj1 (emits_step_control (fun w => launch_settings w = launch_settings m)
                       (fun _ => true) _ _ _ _ _ _ _ _ _ _ _ _ _ _ _ e m o m' Hq _ Hstep
                       eq_refl));
        try (intros; reflexivity); try (intros; assumption).
      intros ->. discriminate Hns.
  - assert (Hnone : emits (fun _ => True) no_fork m m' ->
                    exists l, out m' = out m ++ l
                      /\ forall h a opts, In (Fork h a opts) l ->
                           h = List.length (procs m) /\ a = args (this m)
                           /\ opts = processEnv (this m)).
    { intros He. destruct (He Logic.I) as [_ [l [E F]]]. exists l. split; [exact E|].
      intros h a opts Hin. exfalso. exact (no_fork_In l h a opts F Hin). }
    assert (Hone : forall (pre : list Effect),
               forallb no_fork pre = true ->
               out m' = out m ++ pre
                          ++ [Fork (List.length (procs m)) (args (this m)) (processEnv (this m))] ->
               exists l, out m' = out m ++ l
                 /\ forall h a opts, In (Fork h a opts) l ->
                      h = List.length (procs m) /\ a = args (this m)
                      /\ opts = processEnv (this m)).
    { intros pre Hpre E. eexists. split; [exact E|]. intros h a opts Hin.
      apply in_app_or in Hin. destruct Hin as [Hin|[Hin|[]]].
      - exfalso. exact (no_fork_In pre h a opts Hpre Hin).
      - inversion Hin; subst. auto. }
    assert (Hstart : forall w, out w = out m -> procs w = procs m ->
               args (this w) = args (this m) -> processEnv (this w) = processEnv (this m) ->
               startChildBridge w = (o, m') ->
               exists l, out m' = out m ++ l
                 /\ forall h a opts, In (Fork h a opts) l ->
                      h = List.length (procs m) /\ a = args (this m)
                      /\ opts = processEnv (this m)).
    { intros w Ho Hp Ha He Hs.
      destruct (startChildBridge_cases w) as [Hr | (H1 & H2 & H3)].
      - rewrite Hr in Hs. inversion Hs; subst. apply Hnone.
        apply (emits_out _ _ _ _ [Log (log (this w)) LWarn CannotBeStarted]);
          [cbn [out with_out]; rewrite Ho; reflexivity | reflexivity | auto].
      - rewrite (startChildBridge_accepted _ H1 H2 H3) in Hs. inversion Hs; subst.
        cbn [out with_out procs args processEnv this].
        apply (Hone [ReadJson; StatusUpdate
                                 (getMetadata (host w) (with_lastBridgeStatus PENDING (this w)))]).
        + reflexivity.
        + cbn [out]. rewrite Ho, Hp, Ha, He. reflexivity. }
    destruct (quiet_event e) eqn:Hq.
    + apply Hnone.
      refine (emits_step_quiet (fun _ => True) no_fork _ _ _ _ _ _ _ _ _ _ _ _ _ _
                e m o m' Hq Hstep); trivial_frame.
    + destruct e; try discriminate Hq; try discriminate Hns; unfold step in Hstep.
      * (* restartChildBridge() *)
        inversion Hstep as [Hs]. clear Hstep.
        destruct (manuallyStopped (this m)) eqn:Hm.
        -- rewrite (restartChildBridge_stopped _ Hm) in Hs.
           exact (Hstart (with_this (with_restartCount 0%Z (this m)) m)
                    eq_refl eq_refl eq_refl eq_refl Hs).
        -- rewrite (restartChildBridge_running _ Hm) in Hs. apply Hnone.
           eapply emits_trans;
             [|eapply emits_of; [eapply emits_teardown | exact Hs]; trivial_frame].
           apply (emits_out _ _ _ _ [Log (log (this m)) LWarn ChildBridgeRestarting; ReadJson]);
             trivial_frame.
      * (* stopChildBridge() *)
        inversion Hstep as [Hs]. apply Hnone.
        eapply emits_of; [eapply emits_stopChildBridge | exact Hs]; trivial_frame.
      * (* startChildBridge() *)
        inversion Hstep as [Hs]. exact (Hstart m eq_refl eq_refl eq_refl eq_refl Hs).
      * (* the api shuts down *)
        inversion Hstep as [Hs]. apply Hnone.
        eapply emits_of; [eapply emits_on_shutdown | exact Hs]; trivial_frame.
      * (* 'disconnect' *)
        destruct (nth_error (procs m) h) as [p|]; [|discriminate].
        destruct (connected p); [|discriminate].
        inversion Hstep; subst. apply Hnone. apply emits_same; trivial_frame.
      * (* 'close' *)
        destruct (nth_error (procs m) h) as [p|]; [|discriminate].
        destruct (closed p); [discriminate|].
        destruct (closeListener p);
          [|inversion Hstep; subst; apply Hnone; apply emits_same; trivial_frame].
        inversion Hstep as [Hs]. clear Hstep.
        match type of Hs with handleProcessClose _ _ ?w = _ => set (m1 := w) in * end.
        destruct (handleProcessClose_cases code signal m1) as [[Hc Hk]|[[Hc Hk]|[[Hc Hk]|[Hc Hk]]]].
        -- rewrite (handleProcessClose_backoff _ _ _ Hc Hk) in Hs. inversion Hs; subst.
           apply Hnone. eapply emits_out; [cbn [out]; reflexivity | reflexivity | auto].
        -- rewrite (handleProcessClose_give_up _ _ _ Hc Hk) in Hs. inversion Hs; subst.
           apply Hnone. eapply emits_out; [cbn [out]; reflexivity | reflexivity | auto].
        -- rewrite (handleProcessClose_respawn _ _ _ Hc Hk) in Hs. inversion Hs; subst.
           eapply (Hone [_; _; _]);
             [|cbn [out with_procs procs this]; rewrite length_set_nth; reflexivity].
           reflexivity.
        -- rewrite (handleProcessClose_ignore _ _ _ Hc Hk) in Hs. inversion Hs; subst.
           apply Hnone. eapply emits_out; [cbn [out]; reflexivity | reflexivity | auto].
      * (* a restart timer fires *)
        destruct (nth_error (timers m) k); [|discriminate].
        inversion Hstep as [Hs]. clear Hstep.
        rewrite restart_timer_callback_eq in Hs. cbn [this with_timers] in Hs.
        destruct (shuttingDown (this m)).
        -- inversion Hs; subst. apply Hnone. apply emits_same; trivial_frame.
        -- rewrite startChildProcess_eq in Hs. inversion Hs; subst.
           eapply (Hone [_]); [|cbn [out with_timers procs this]; reflexivity]. reflexivity.
Qed.

(** X4. Only start() writes the arguments, the fork options, the display
    name and the log prefix. In a run without a call to start(), whatever
    else happens (restarts, stops, configuration refreshes that replace
    bridgeConfig), these stay as they were and every worker forked is
    forked with the arguments and options the run began with. *)
Theorem workers_launched_as_start_left (es : list Event) (m : Machine) (o : Outcome unit)
    (m' : Machine) :
  forallb (fun e => negb (calls_start e)) es = true ->
  run es m = Some (o, m') ->
  launch_settings m' = launch_settings m
  /\ exists l, out m' = out m ++ l
       /\ forall h a opts, In (Fork h a opts) l ->
            a = args (this m) /\ opts = processEnv (this m).
Proof.
  revert m. induction es as [|e es IH]; intros m Hok Hrun.
  - inversion Hrun; subst. split; [reflexivity|]. exists []. rewrite app_nil_r.
    split; [reflexivity | intros h a opts []].
  - cbn [forallb] in Hok. apply andb_prop in Hok. destruct Hok as [He Hes].
    apply negb_true_iff in He.
    cbn [run] in Hrun. destruct (step e m) as [[[[] | err] m1]|] eqn:Hs; [| |discriminate].
    + destruct (fork_step e m _ m1 He Hs) as [L1 [l1 [E1 F1]]].
      destruct (IH m1 Hes Hrun) as [L2 [l2 [E2 F2]]].
      split; [congruence|]. exists (l1 ++ l2). split.
      * rewrite E2, E1, app_assoc. reflexivity.
      * intros h a opts Hin. apply in_app_or in Hin. destruct Hin as [Hin|Hin].
        -- destruct (F1 h a opts Hin) as (_ & Ha & Ho). auto.
        -- destruct (F2 h a opts Hin) as (Ha & Ho).
           unfold launch_settings in L1. inversion L1. split; congruence.
    + inversion Hrun; subst.
      destruct (fork_step e m _ m' He Hs) as [L1 [l1 [E1 F1]]].
      split; [exact L1|]. exists l1. split; [exact E1|].
      intros h a opts Hin. destruct (F1 h a opts Hin) as (_ & Ha & Ho). auto.
Qed.

Lemma workers_launched_as_start_left_witness :
  launch_settings
    (after [CallRefreshConfig; ConfigRead (ReadOk (homebridgeConfig sample_supervisor));
            CallRestartChildBridge; ProcClose 0 None (Some "SIGTERM")]
       (after [CallStart] sample_machine))
  = launch_settings (after [CallStart] sample_machine).
Proof.
  apply (workers_launched_as_start_left
           [CallRefreshConfig; ConfigRead (ReadOk (homebridgeConfig sample_supervisor));
            CallRestartChildBridge; ProcClose 0 None (Some "SIGTERM")]
           (after [CallStart] sample_machine) (Ret tt)); vm_compute; reflexivity.
Defined.

(** ** What each turn publishes *)

Lemma carries_getMetadata (h : Host) (s : ChildBridgeService) : carries h s (getMetadata h s).
Proof. repeat split. Qed.

Lemma Forall2_carries (h : Host) (l : list ChildBridgeService) :
  Forall2 (carries h) l (map (getMetadata h) l).
Proof.
  induction l as [|s l IH]; cbn; constructor; [apply carries_getMetadata | exact IH].
Qed.

Lemma emitted_app (m m' : Machine) (l : list Effect) :
  out m' = out m ++ l -> emitted m m' = l.
Proof.
  intros H. unfold emitted. rewrite H, skipn_app, skipn_all, Nat.sub_diag. reflexivity.
Qed.

Lemma emitted_same (m m' : Machine) : out m' = out m -> emitted m m' = [].
Proof. intros H. apply emitted_app. rewrite app_nil_r. exact H. Qed.

Lemma teardown_cases (m : Machine) :
  (child_connected m = false /\ teardown m = (Ret tt, m))
  \/ (exists h,
        child (this m) = Some h /\ child_connected m = true
        /\ teardown m =
           (Ret tt,
            with_out (out m ++ [StatusUpdate
                                  (getMetadata (host m) (with_lastBridgeStatus DOWN (this m)));
                                Kill h])
              (with_this (with_lastBridgeStatus DOWN (this m)) m))).
Proof.
  destruct (child_connected m) eqn:Hc.
  - right. unfold child_connected in Hc. destruct (child (this m)) as [h|] eqn:Hh;
      [|discriminate].
    exists h. split; [reflexivity|]. split; [reflexivity|].
    apply teardown_kill; [exact Hh|]. unfold child_connected. rewrite Hh. exact Hc.
  - left. split; [reflexivity | apply teardown_idle, Hc].
Qed.


Lemma publishes_out (m m' : Machine) (l : list Effect) (snaps : list ChildBridgeService) :
  out m' = out m ++ l ->
  notifications l = map (getMetadata (host m)) snaps ->
  lastBridgeStatus (this m') = last (map lastBridgeStatus snaps) (lastBridgeStatus (this m)) ->
  publishes m snaps m'.
Proof.
  intros Ho Hn Hs. split; [|exact Hs]. rewrite (emitted_app m m' l Ho). exact Hn.
Qed.

Lemma publishes_nothing (m m' : Machine) :
  out m' = out m -> this m' = this m -> publishes m [] m'.
Proof.
  intros Ho Ht. apply (publishes_out m m' []); [rewrite app_nil_r; exact Ho | reflexivity|].
  rewrite Ht. reflexivity.
Qed.

Lemma accepts_start_inv (m : Machine) :
  accepts_start m = true ->
  manuallyStopped (this m) = true /\ lastBridgeStatus (this m) = DOWN
  /\ child_connected m = false.
Proof.
  unfold accepts_start. intros H. apply andb_prop in H. destruct H as [H H3].
  apply andb_prop in H. destruct H as [H1 H2].
  split; [exact H1|]. split.
  - destruct (lastBridgeStatus (this m)); try discriminate; reflexivity.
  - destruct (child_connected m); [discriminate | reflexivity].
Qed.

Lemma startChildBridge_publishes (m : Machine) :
  publishes m (if accepts_start m then [with_lastBridgeStatus PENDING (this m)] else [])
    (snd (startChildBridge m)).
Proof.
  destruct (accepts_start m) eqn:Ha.
  - destruct (accepts_start_inv m Ha) as (H1 & H2 & H3).
    rewrite (startChildBridge_accepted m H1 H2 H3). cbn [snd].
    eapply publishes_out; [cbn [out]; reflexivity | reflexivity | reflexivity].
  - rewrite (startChildBridge_refused m Ha). cbn [snd].
    eapply publishes_out; [cbn [out with_out]; reflexivity | reflexivity | reflexivity].
Qed.

Lemma teardown_publishes (m : Machine) :
  publishes m (if child_connected m then [with_lastBridgeStatus DOWN (this m)] else [])
    (snd (teardown m)).
Proof.
  destruct (teardown_cases m) as [[Hc Ht] | (h & Hh & Hc & Ht)]; rewrite Hc, Ht; cbn [snd].
  - apply publishes_nothing; reflexivity.
  - eapply publishes_out; [cbn [out with_out with_this]; reflexivity | reflexivity | reflexivity].
Qed.

Lemma notifications_app (l1 l2 : list Effect) :
  notifications (l1 ++ l2) = notifications l1 ++ notifications l2.
Proof.
  induction l1 as [|e l1 IH]; [reflexivity|]. destruct e; cbn; rewrite ?IH; reflexivity.
Qed.

Lemma last_default {A : Type} (l : list A) (d d' : A) : l <> [] -> last l d = last l d'.
Proof.
  induction l as [|a l IH]; [congruence|]. intros _. destruct l as [|b l]; [reflexivity|].
  cbn [last]. apply IH. discriminate.
Qed.

Lemma last_cons {A : Type} (a : A) (l : list A) (d : A) :
  l <> [] -> last (a :: l) d = last l d.
Proof. destruct l; [congruence | reflexivity]. Qed.

Lemma last_app_default {A : Type} (l1 l2 : list A) (d : A) :
  last (l1 ++ l2) d = last l2 (last l1 d).
Proof.
  destruct l2 as [|b l2]; [rewrite app_nil_r; reflexivity|].
  induction l1 as [|a l1 IH]; [reflexivity|].
  cbn [app]. rewrite last_cons by (destruct l1; discriminate).
  rewrite IH. apply last_default. discriminate.
Qed.

(** A computation that starts in [w], reached from [m] with the outputs
    [pre] and the same host. *)
Lemma publishes_after (m w m' : Machine) (pre : list Effect)
    (snaps0 snaps : list ChildBridgeService) :
  out w = out m ++ pre -> host w = host m ->
  notifications pre = map (getMetadata (host m)) snaps0 ->
  lastBridgeStatus (this w) = last (map lastBridgeStatus snaps0) (lastBridgeStatus (this m)) ->
  publishes w snaps m' ->
  (exists l, out m' = out w ++ l) ->
  publishes m (snaps0 ++ snaps) m'.
Proof.
  intros Ho Hh Hn Hs [Hp1 Hp2] [l Hl].
  rewrite (emitted_app w m' l Hl) in Hp1.
  apply (publishes_out m m' (pre ++ l)).
  - rewrite Hl, Ho, app_assoc. reflexivity.
  - rewrite notifications_app, map_app, Hn, Hp1, Hh. reflexivity.
  - rewrite Hp2, Hs, map_app, last_app_default. reflexivity.
Qed.

Ltac published_here :=
  cbn [snd];
  first
    [ apply publishes_nothing; reflexivity
    | apply (publishes_out _ _ [] []);
      [ cbn [out with_out with_this]; rewrite app_nil_r; reflexivity
      | reflexivity
      | reflexivity ]
    | eapply publishes_out;
      [ cbn [out with_out with_this with_portRequests with_reads with_procs with_timers];
        rewrite <- ?app_assoc; reflexivity
      | reflexivity
      | reflexivity ] ].

Lemma sendMessage_publishes (t : ChildProcessMessageEventType) (d : Payload) (m w : Machine)
    (pre : list Effect) :
  out w = out m ++ pre -> host w = host m -> this w = this m -> notifications pre = [] ->
  publishes m [] (snd (sendMessage t d w)).
Proof.
  intros Ho Hh Ht Hn. unfold sendMessage.
  destruct (child_connected w); [destruct (child (this w)) as [h|]|]; cbn [snd emit].
  - apply (publishes_out m _ (pre ++ [Send h t d]) []).
    + cbn [out with_out]. rewrite Ho, app_assoc. reflexivity.
    + rewrite notifications_app, Hn. reflexivity.
    + cbn [this with_out map last]. rewrite Ht. reflexivity.
  - apply (publishes_out m _ pre []); [exact Ho | exact Hn | cbn; rewrite Ht; reflexivity].
  - apply (publishes_out m _ pre []); [exact Ho | exact Hn | cbn; rewrite Ht; reflexivity].
Qed.

Lemma on_message_publishes (message : JsValue) (m : Machine) :
  publishes m (published_by_message message (this m)) (snd (on_message message m)).
Proof.
  unfold on_message.
  destruct message as [|b|n|str|items|fields]; cbn [typeof is_object_type negb];
    try (apply publishes_nothing; reflexivity).
  unfold bind at 1. unfold lift at 1. cbn [prop published_by_message].
  destruct (assoc "id" fields) as [[|b|n|tag|items|fs]|]; cbn [truthy negb];
    try (apply publishes_nothing; reflexivity).
  - destruct b; apply publishes_nothing; reflexivity.
  - destruct (Z.eqb n 0); apply publishes_nothing; reflexivity.
  - destruct (String.eqb_spec tag EmptyString) as [->|N0];
      [apply publishes_nothing; reflexivity|]. cbn [negb].
    destruct (String.eqb_spec tag "ready") as [->|N1].
    { cbn. unfold bind, get_host, get, log_line, emit. cbn.
      rewrite loadPlugin_eq.
      eapply (sendMessage_publishes _ _ m _ [_]); reflexivity. }
    destruct (String.eqb_spec tag "loaded") as [->|N2].
    { cbn.
      destruct (prop (assoc "data" fields) "version") as [v|e];
        [|apply publishes_nothing; reflexivity].
      unfold bind, get, log_line, emit, startBridge.
      destruct (List.length (pluginConfig (this m))) as [|[|k]]; cbn;
        eapply (sendMessage_publishes _ _ m _ [_]); reflexivity. }
    destruct (String.eqb_spec tag "online") as [->|N3].
    { cbn. unfold set_bridgeStatus, sendStatusUpdate, bind, update, emit, get, get_host.
      published_here. }
    destruct (String.eqb_spec tag "portRequest") as [->|N4].
    { cbn. unfold handlePortRequest.
      destruct (prop (assoc "data" fields) "username") as [u|e]; published_here. }
    destruct (String.eqb_spec tag "status") as [->|N5].
    { cbn.
      destruct (prop (assoc "data" fields) "paired") as [paired|e];
        [|apply publishes_nothing; reflexivity].
      cbn.
      destruct (prop (assoc "data" fields) "setupUri") as [uri|e].
      - unfold sendStatusUpdate, bind, update, emit, get, get_host. published_here.
      - published_here. }
    cbn [event_id].
    apply String.eqb_neq in N1, N2, N3, N4, N5.
    rewrite N1, N2, N3, N4, N5. apply publishes_nothing; reflexivity.
Qed.

Lemma step_publishes (e : Event) (m : Machine) (o : Outcome unit) (m' : Machine) :
  step e m = Some (o, m') -> publishes m (published e m) m'.
Proof.
  intros Hstep. destruct e; unfold step in Hstep; cbn [published].
  - (* start() *)
    rewrite start_eq in Hstep. inversion Hstep; subst.
    eapply publishes_out; [cbn [out started_machine]; reflexivity | reflexivity|].
    cbn [this started_machine]. rewrite status_started. reflexivity.
  - (* addConfig() *)
    inversion Hstep; subst. published_here.
  - (* restartChildBridge() *)
    inversion Hstep as [Hs]. clear Hstep.
    destruct (manuallyStopped (this m)) eqn:Hm.
    + rewrite (restartChildBridge_stopped _ Hm) in Hs.
      pose proof (startChildBridge_publishes (with_this (with_restartCount 0%Z (this m)) m))
        as Hp.
      rewrite Hs in Hp. cbn [snd] in Hp.
      change (accepts_start (with_this (with_restartCount 0%Z (this m)) m))
        with (accepts_start m) in Hp.
      destruct Hp as [Hp1 Hp2]. split; [exact Hp1|].
      rewrite Hp2. destruct (accepts_start m); reflexivity.
    + rewrite (restartChildBridge_running _ Hm) in Hs.
      match type of Hs with teardown ?w = _ => set (w0 := w) in * end.
      pose proof (teardown_publishes w0) as Hp. rewrite Hs in Hp. cbn [snd] in Hp.
      change (child_connected w0) with (child_connected m) in Hp.
      change (this w0) with (this m) in Hp.
      apply (publishes_after m w0 m' [Log (log (this m)) LWarn ChildBridgeRestarting; ReadJson]
               [] _); try reflexivity; [exact Hp|].
      destruct (teardown_cases w0) as [[_ Ht] | (h & _ & _ & Ht)]; rewrite Ht in Hs;
        inversion Hs; subst; [exists []; rewrite app_nil_r; reflexivity|].
      eexists. cbn [out with_out with_this]. reflexivity.
  - (* stopChildBridge() *)
    inversion Hstep as [Hs]. clear Hstep.
    destruct (shuttingDown (this m)) eqn:Hsd.
    + rewrite (stopChildBridge_again _ Hsd) in Hs. inversion Hs; subst. published_here.
    + rewrite (stopChildBridge_eq _ Hsd) in Hs.
      pose proof (teardown_publishes (stopping m)) as Hp. rewrite Hs in Hp. cbn [snd] in Hp.
      rewrite child_connected_stopping in Hp.
      apply (publishes_after m (stopping m) m'
               [Log (log (this m)) LWarn ChildBridgeStopping;
                StatusUpdate (getMetadata (host m) (this (stopping m)))]
               [this (stopping m)] _); try reflexivity; [exact Hp|].
      destruct (teardown_cases (stopping m)) as [[_ Ht] | (h & _ & _ & Ht)]; rewrite Ht in Hs;
        inversion Hs; subst; [exists []; rewrite app_nil_r; reflexivity|].
      eexists. cbn [out with_out with_this]. reflexivity.
  - (* startChildBridge() *)
    inversion Hstep as [Hs]. pose proof (startChildBridge_publishes m) as Hp.
    rewrite Hs in Hp. exact Hp.
  - (* refreshConfig() *)
    inversion Hstep; subst. unfold refreshConfig. published_here.
  - (* the api shuts down *)
    inversion Hstep as [Hs]. clear Hstep. rewrite on_shutdown_eq in Hs.
    match type of Hs with teardown ?w = _ => set (w0 := w) in * end.
    pose proof (teardown_publishes w0) as Hp. rewrite Hs in Hp. cbn [snd] in Hp.
    change (child_connected w0) with (child_connected m) in Hp.
    apply (publishes_after m w0 m' [] [] _); try reflexivity;
      [rewrite app_nil_r; reflexivity | exact Hp|].
    destruct (teardown_cases w0) as [[_ Ht] | (h & _ & _ & Ht)]; rewrite Ht in Hs;
      inversion Hs; subst; [exists []; rewrite app_nil_r; reflexivity|].
    eexists. cbn [out with_out with_this]. reflexivity.
  - (* 'message' *)
    destruct (nth_error (procs m) h) as [p|]; [|discriminate].
    destruct (connected p); [|discriminate].
    inversion Hstep as [Hs]. pose proof (on_message_publishes message m) as Hp.
    rewrite Hs in Hp. exact Hp.
  - (* 'error' *)
    destruct (nth_error (procs m) h) as [p|]; [|discriminate].
    destruct (closed p); [discriminate|].
    inversion Hstep; subst.
    unfold on_error, set_bridgeStatus, sendStatusUpdate, log_line, bind, update, emit, get,
      get_host.
    published_here.
  - (* 'disconnect' *)
    destruct (nth_error (procs m) h) as [p|]; [|discriminate].
    destruct (connected p); [|discriminate].
    inversion Hstep; subst. published_here.
  - (* 'close' *)
    destruct (nth_error (procs m) h) as [p|]; [|discriminate].
    destruct (closed p); [discriminate|].
    destruct (closeListener p); [|inversion Hstep; subst; published_here].
    inversion Hstep as [Hs]. clear Hstep.
    match type of Hs with handleProcessClose _ _ ?w = _ => set (m1 := w) in * end.
    destruct (handleProcessClose_cases code signal m1) as [[Hc Hk]|[[Hc Hk]|[[Hc Hk]|[Hc Hk]]]];
      rewrite Hc.
    + rewrite (handleProcessClose_backoff _ _ _ Hc Hk) in Hs. inversion Hs; subst.
      change (this m1) with (this m) in Hk. apply Z.ltb_lt in Hk. rewrite Hk.
      published_here.
    + rewrite (handleProcessClose_give_up _ _ _ Hc Hk) in Hs. inversion Hs; subst.
      change (this m1) with (this m) in Hk. apply Z.ltb_ge in Hk. rewrite Hk.
      published_here.
    + rewrite (handleProcessClose_respawn _ _ _ Hc Hk) in Hs. inversion Hs; subst.
      change (this m1) with (this m) in Hk. rewrite Hk. published_here.
    + rewrite (handleProcessClose_ignore _ _ _ Hc Hk) in Hs. inversion Hs; subst.
      change (this m1) with (this m) in Hk. rewrite Hk. published_here.
  - (* a restart timer fires *)
    destruct (nth_error (timers m) k); [|discriminate].
    inversion Hstep as [Hs]. clear Hstep.
    rewrite restart_timer_callback_eq in Hs. cbn [this with_timers] in Hs.
    destruct (shuttingDown (this m)).
    + inversion Hs; subst. published_here.
    + rewrite startChildProcess_eq in Hs. inversion Hs; subst. published_here.
  - (* the read of the configuration completes *)
    destruct (reads m) as [|n]; [discriminate|].
    inversion Hstep as [Hs]. clear Hstep.
    destruct (refreshConfig_resume_cases r (with_reads n m))
      as (m1 & Heq & _ & _ & _ & _ & _ & [(Ht & (lvl & msg & Ho) & _)
                                          | (hc & c0 & rest & _ & _ & Ht & Ho)]);
      rewrite Heq in Hs; inversion Hs; subst.
    + eapply publishes_out; [exact Ho | reflexivity | rewrite Ht; reflexivity].
    + apply (publishes_out _ _ [] []);
        [rewrite app_nil_r; exact Ho | reflexivity | rewrite Ht; reflexivity].
  - (* the port service answers *)
    destruct (nth_error (portRequests m) k) as [u|]; [|discriminate].
    inversion Hstep as [Hs]. unfold port_allocated in Hs.
    pose proof (sendMessage_publishes PORT_ALLOCATED (PortAllocatedData u port) m
                  (with_portRequests (remove_nth k (portRequests m)) m) []) as Hp.
    rewrite Hs in Hp. apply Hp; try reflexivity. rewrite app_nil_r. reflexivity.
Qed.

(** C9: every assignment to the status is published, once, with the
    snapshot of the object as it is at that moment. The setter stores the
    value and sends exactly one notification, which carries, field by
    field, the metadata of the object right after the assignment. In
    every turn of the event loop, whether it returns or throws, the
    notifications sent are, in order, one for each assignment to the
    status that the turn's path makes, each carrying the object as it was
    right after that assignment (a STATUS message adds the one
    notification sent without an assignment), and the status the turn
    leaves is the last one published, or the status before the turn when
    nothing was published. Over a whole run from a new supervisor the
    status the listener heard last is the status of the supervisor. *)
Theorem status_mutations_are_published :
  (forall (v : ChildBridgeStatus) (m : Machine),
      exists md,
        set_bridgeStatus v m =
        (Ret tt,
         with_out (out m ++ [StatusUpdate md])
           (with_this (with_lastBridgeStatus v (this m)) m))
        /\ carries (host m) (with_lastBridgeStatus v (this m)) md)
  /\ (forall (e : Event) (m : Machine) (o : Outcome unit) (m' : Machine),
         step e m = Some (o, m') ->
         Forall2 (carries (host m)) (published e m) (notifications (emitted m m'))
         /\ lastBridgeStatus (this m')
            = last (map lastBridgeStatus (published e m)) (lastBridgeStatus (this m)))
  /\ (forall (h : Host) (s : ChildBridgeService) (es : list Event) (o : Outcome unit)
             (m' : Machine),
         run es (boot h s) = Some (o, m') ->
         last_status (out m') (lastBridgeStatus s) = lastBridgeStatus (this m')).
Proof.
  split; [|split].
  - intros v m. eexists. split; [reflexivity | apply carries_getMetadata].
  - intros e m o m' Hstep. destruct (step_publishes e m o m' Hstep) as [Hn Hs].
    split; [rewrite Hn; apply Forall2_carries | exact Hs].
  - intros h s es o m' Hrun. destruct (run_heard es _ _ _ Hrun) as (l & Hout & Hlast).
    cbn [boot out this] in Hout, Hlast. rewrite Hout. exact Hlast.
Qed.

Lemma status_mutations_are_published_witness :
  exists n1 n2,
    notifications
      (emitted (after [CallStart] sample_machine)
         (after [CallStart; ProcClose 0 (Some 0%Z) None] sample_machine)) = [n1; n2]
    /\ md_status n1 = DOWN /\ md_pid n1 = Some 100
    /\ md_status n2 = PENDING /\ md_pid n2 = Some 100.
Proof.
  destruct status_mutations_are_published as (_ & H & _).
  destruct (H (ProcClose 0 (Some 0%Z) None) (after [CallStart] sample_machine) (Ret tt)
              (after [CallStart; ProcClose 0 (Some 0%Z) None] sample_machine))
    as [HF _]; [vm_compute; reflexivity|].
  remember (notifications
              (emitted (after [CallStart] sample_machine)
                 (after [CallStart; ProcClose 0 (Some 0%Z) None] sample_machine))) as ns.
  vm_compute in HF.
  inversion HF as [|s1 n1 l1 r1 C1 HF1]; subst.
  inversion HF1 as [|s2 n2 l2 r2 C2 HF2]; subst.
  inversion HF2; subst.
  exists n1, n2. split; [reflexivity|].
  destruct C1 as (S1 & _ & _ & _ & _ & _ & _ & _ & _ & P1).
  destruct C2 as (S2 & _ & _ & _ & _ & _ & _ & _ & _ & P2).
  repeat split; assumption.
Defined.

(** ** The shutdown flag *)

Lemma shutdown_step (e : Event) (m : Machine) (o : Outcome unit) (m' : Machine) :
  explicit_start e = false -> step e m = Some (o, m') ->
  shuttingDown (this m) = true ->
  (shuttingDown (this m') = true /\ List.length (procs m') = List.length (procs m))
  /\ exists l, out m' = out m ++ l /\ forallb no_fork l = true.
Proof.
  intros Hns Hstep Hsd.
  set (I := fun w : Machine =>
              shuttingDown (this w) = true /\ List.length (procs w) = List.length (procs m)).
  assert (HI : I m) by (split; [exact Hsd | reflexivity]).
  enough (He : emits I no_fork m m') by exact (He HI).
  destruct (quiet_event e) eqn:Hq.
  - refine (emits_step_quiet I no_fork _ _ _ _ _ _ _ _ _ _ _ _ _ _ e m o m' Hq Hstep);
      try reflexivity; intros; assumption.
  - destruct e; try discriminate Hq; try discriminate Hns; unfold step in Hstep.
    + (* stopChildBridge() *)
      rewrite (stopChildBridge_again _ Hsd) in Hstep. inversion Hstep; subst.
      eapply emits_out; [reflexivity | reflexivity | auto].
    + (* the api shuts down *)
      rewrite on_shutdown_eq in Hstep. inversion Hstep as [Hs].
      eapply emits_trans;
        [|eapply emits_of; [eapply emits_teardown | exact Hs]; try reflexivity;
          intros; assumption].
      apply emits_same; [reflexivity | intros _; split; reflexivity].
    + (* 'disconnect' *)
      destruct (nth_error (procs m) h) as [p|]; [|discriminate].
      destruct (connected p); [|discriminate].
      inversion Hstep; subst. apply emits_same; [reflexivity|].
      intros _. split; [exact Hsd | apply length_set_nth].
    + (* 'close' *)
      destruct (nth_error (procs m) h) as [p|]; [|discriminate].
      destruct (closed p); [discriminate|].
      assert (Hlen : forall f, List.length (set_nth h f (procs m)) = List.length (procs m))
        by (intros f; apply length_set_nth).
      destruct (closeListener p);
        [|inversion Hstep; subst; apply emits_same; [reflexivity|];
          intros _; split; [exact Hsd | apply Hlen]].
      inversion Hstep as [Hs]. clear Hstep.
      match type of Hs with handleProcessClose _ _ ?w = _ => set (m1 := w) in * end.
      assert (Hsd1 : shuttingDown (this m1) = true) by exact Hsd.
      destruct (handleProcessClose_cases code signal m1) as [[Hc Hk]|[[Hc Hk]|[[Hc Hk]|[Hc Hk]]]].
      * rewrite (handleProcessClose_backoff _ _ _ Hc Hk) in Hs. inversion Hs; subst.
        eapply emits_out; [cbn [out]; reflexivity | reflexivity |].
        intros _. split; [exact Hsd | apply Hlen].
      * rewrite (handleProcessClose_give_up _ _ _ Hc Hk) in Hs. inversion Hs; subst.
        eapply emits_out; [cbn [out]; reflexivity | reflexivity |].
        intros _. split; [exact Hsd | apply Hlen].
      * congruence.
      * rewrite (handleProcessClose_ignore _ _ _ Hc Hk) in Hs. inversion Hs; subst.
        eapply emits_out; [cbn [out]; reflexivity | reflexivity |].
        intros _. split; [exact Hsd | apply Hlen].
    + (* a restart timer fires *)
      destruct (nth_error (timers m) k); [|discriminate].
      inversion Hstep as [Hs]. clear Hstep.
      rewrite restart_timer_callback_eq in Hs. cbn [this with_timers] in Hs.
      rewrite Hsd in Hs. inversion Hs; subst. apply emits_same; [reflexivity | auto].
Qed.

(** X5. While shuttingDown is set, nothing but a call to start(),
    startChildBridge() or restartChildBridge() forks a worker or clears
    the flag: not a restart timer that was pending when the flag was set,
    not the close of a worker, whatever its exit code, not a message. *)
Theorem no_fork_while_shutting_down (es : list Event) (m : Machine) (o : Outcome unit)
    (m' : Machine) :
  shuttingDown (this m) = true ->
  forallb (fun e => negb (explicit_start e)) es = true ->
  run es m = Some (o, m') ->
  shuttingDown (this m') = true
  /\ List.length (procs m') = List.length (procs m)
  /\ exists l, out m' = out m ++ l /\ forallb no_fork l = true.
Proof.
  revert m. induction es as [|e es IH]; intros m Hsd Hok Hrun.
  - inversion Hrun; subst. repeat split; auto. exists []. rewrite app_nil_r. auto.
  - cbn [forallb] in Hok. apply andb_prop in Hok. destruct Hok as [He Hes].
    apply negb_true_iff in He.
    cbn [run] in Hrun. destruct (step e m) as [[[[] | err] m1]|] eqn:Hs; [| |discriminate].
    + destruct (shutdown_step e m _ m1 He Hs Hsd) as [[S1 L1] [l1 [E1 F1]]].
      destruct (IH m1 S1 Hes Hrun) as [S2 [L2 [l2 [E2 F2]]]].
      split; [exact S2|]. split; [congruence|]. exists (l1 ++ l2). split.
      * rewrite E2, E1, app_assoc. reflexivity.
      * rewrite forallb_app, F1, F2. reflexivity.
    + inversion Hrun; subst.
      destruct (shutdown_step e m _ m' He Hs Hsd) as [[S1 L1] [l1 [E1 F1]]].
      split; [exact S1|]. split; [exact L1|]. exists l1. auto.
Qed.

Lemma no_fork_while_shutting_down_witness :
  shuttingDown
    (this (after [crash 0; TimerFired 0] (after [CallStart; ApiShutdown] sample_machine))) = true
  /\ List.length
       (procs (after [crash 0; TimerFired 0] (after [CallStart; ApiShutdown] sample_machine)))
     = List.length (procs (after [CallStart; ApiShutdown] sample_machine)).
Proof.
  destruct (no_fork_while_shutting_down [crash 0; TimerFired 0]
              (after [CallStart; ApiShutdown] sample_machine) (Ret tt)
              (after [crash 0; TimerFired 0] (after [CallStart; ApiShutdown] sample_machine)))
    as (H1 & H2 & _); [vm_compute; reflexivity ..|].
  split; assumption.
Defined.

(** ** Stop, start and restart, composed *)

Lemma nth_error_last {A : Type} (l : list A) (x : A) :
  nth_error (l ++ [x]) (List.length l) = Some x.
Proof. induction l as [|a l IH]; [reflexivity | exact IH]. Qed.


Lemma remove_nth_last {A : Type} (l : list A) (x : A) :
  remove_nth (List.length l) (l ++ [x]) = l.
Proof. induction l as [|a l IH]; cbn; [reflexivity | now rewrite IH]. Qed.

Lemma forallb_gone_last (ps : list ChildProcess) :
  forallb gone ps = true ->
  forallb gone (set_nth (List.length ps) (fun _ => closed_worker) (ps ++ [new_worker])) = true.
Proof.
  intros H. rewrite set_nth_last, forallb_app, H. reflexivity.
Qed.

(** X6. After stopChildBridge() has signalled a connected worker, a call
    to startChildBridge() is refused for as long as the worker's channel
    is open: it logs a warning and starts nothing. Once the worker has
    closed, the same call is accepted: it starts a read of the
    configuration, forks a new worker, which becomes the child, and
    clears shuttingDown and manuallyStopped. *)
Theorem start_refused_until_worker_closes (m : Machine) (h : nat) (p : ChildProcess)
    (code : option Z) (signal : option string) :
  shuttingDown (this m) = false ->
  child (this m) = Some h ->
  nth_error (procs m) h = Some p ->
  connected p = true ->
  closed p = false ->
  (exists m1,
      run [CallStopChildBridge; CallStartChildBridge] m = Some (Ret tt, m1)
      /\ procs m1 = procs (stopping m)
      /\ reads m1 = reads m
      /\ shuttingDown (this m1) = true
      /\ manuallyStopped (this m1) = true
      /\ lastBridgeStatus (this m1) = DOWN
      /\ out m1 = out (stopping m) ++
                  [StatusUpdate (getMetadata (host m) (this (stopping m))); Kill h;
                   Log (log (this m)) LWarn CannotBeStarted])
  /\ (exists m2,
         run [CallStopChildBridge; ProcClose h code signal; CallStartChildBridge] m
         = Some (Ret tt, m2)
         /\ child (this m2) = Some (List.length (procs m))
         /\ nth_error (procs m2) (List.length (procs m)) = Some new_worker
         /\ reads m2 = S (reads m)
         /\ shuttingDown (this m2) = false
         /\ manuallyStopped (this m2) = false
         /\ lastBridgeStatus (this m2) = PENDING
         /\ restartCount (this m2) = 0%Z
         /\ exists md,
              out m2 = out (stopping m) ++
                       [StatusUpdate (getMetadata (host m) (this (stopping m))); Kill h;
                        ReadJson; StatusUpdate md;
                        Fork (List.length (procs m)) (args (this m)) (processEnv (this m))]).
Proof.
  intros Hsd Hh Hn Hc Hcl.
  pose proof (child_connected_live m h p Hh Hn Hc) as Hcc.
  assert (Hstop : stopChildBridge m =
                  (Ret tt,
                   with_out (out (stopping m) ++
                             [StatusUpdate (getMetadata (host m) (this (stopping m))); Kill h])
                     (stopping m))).
  { rewrite (stopChildBridge_eq _ Hsd).
    rewrite (teardown_kill _ h); [reflexivity | exact Hh |].
    rewrite child_connected_stopping. exact Hcc. }
  set (ms := with_out (out (stopping m) ++
                       [StatusUpdate (getMetadata (host m) (this (stopping m))); Kill h])
               (stopping m)) in *.
  assert (Hps : procs ms = set_nth h (fun q => {| connected := connected q;
                                                   closeListener := false;
                                                   closed := closed q |}) (procs m)).
  { unfold ms, stopping. cbn [procs with_out]. rewrite Hh. reflexivity. }
  split.
  - cbn [run step]. rewrite Hstop.
    rewrite startChildBridge_refused.
    + eexists. split; [reflexivity|]. unfold ms. cbn. rewrite <- app_assoc.
      repeat split; reflexivity.
    + replace (child_connected ms) with true; [apply andb_false_r|].
      symmetry. unfold ms. rewrite child_connected_out, child_connected_stopping. exact Hcc.
  - cbn [run step]. rewrite Hstop.
    assert (Hn' : nth_error (procs ms) h =
                  Some {| connected := connected p; closeListener := false;
                          closed := closed p |}).
    { rewrite Hps, nth_error_set_nth, Nat.eqb_refl, Hn. reflexivity. }
    rewrite Hn'. cbn [closed closeListener]. rewrite Hcl.
    match goal with |- context [startChildBridge ?w] => set (mc := w) end.
    assert (Hlen : List.length (procs mc) = List.length (procs m)).
    { unfold mc. cbn [procs with_procs]. rewrite length_set_nth, Hps, length_set_nth.
      reflexivity. }
    rewrite startChildBridge_accepted.
    + eexists. split; [reflexivity|]. cbn [this child with_manuallyStopped with_shuttingDown
        with_child with_lastBridgeStatus procs reads shuttingDown manuallyStopped
        lastBridgeStatus restartCount out].
      rewrite Hlen. split; [reflexivity|]. split; [rewrite <- Hlen; apply nth_error_last|].
      repeat (split; [reflexivity|]).
      eexists. unfold mc, ms. cbn [out with_out with_procs this args processEnv stopping
        with_lastBridgeStatus with_restartCount with_manuallyStopped with_shuttingDown].
      rewrite <- !app_assoc. reflexivity.
    + reflexivity.
    + reflexivity.
    + unfold child_connected, mc. cbn [this with_procs procs].
      replace (child (this ms)) with (Some h) by (symmetry; exact Hh).
      rewrite nth_error_set_nth, Nat.eqb_refl, Hn'. reflexivity.
Qed.

Lemma start_refused_until_worker_closes_witness :
  exists m2,
    run [CallStopChildBridge; ProcClose 0 None (Some "SIGTERM"); CallStartChildBridge]
      (after [CallStart] sample_machine) = Some (Ret tt, m2)
    /\ child (this m2) = Some 1.
Proof.
  destruct (start_refused_until_worker_closes (after [CallStart] sample_machine) 0 new_worker
              None (Some "SIGTERM")) as [_ (m2 & H & Hc & _)];
    [vm_compute; reflexivity ..|].
  exists m2. split; [exact H | exact Hc].
Defined.

(** X7. startChildBridge() does not reset the restart count, and
    restartChildBridge() does. After the supervisor has given up, a
    worker started by startChildBridge() that crashes once makes it give
    up again at once, with no retry; started by restartChildBridge(), the
    same crash is the first of a new series and schedules a restart in
    ten seconds. *)
Theorem start_after_give_up_keeps_count (m : Machine) :
  given_up m ->
  (maxRestarts <= restartCount (this m))%Z ->
  (exists m1,
      run [CallStartChildBridge; crash (List.length (procs m))] m = Some (Ret tt, m1)
      /\ given_up m1
      /\ restartCount (this m1) = restartCount (this m)
      /\ exists l, out m1 = out m ++ l /\ existsb is_set_timeout l = false)
  /\ (exists m2,
         run [CallRestartChildBridge; crash (List.length (procs m))] m = Some (Ret tt, m2)
         /\ restartCount (this m2) = 1%Z
         /\ timers m2 = [10000%Z]
         /\ lastBridgeStatus (this m2) = PENDING
         /\ manuallyStopped (this m2) = false).
Proof.
  intros (Hst & Hms & Ht & Hg) Hk.
  pose proof (gone_not_connected m Hg) as Hcc.
  split.
  - cbn [run step crash].
    rewrite (startChildBridge_accepted m Hms Hst Hcc). cbn [procs].
    rewrite nth_error_last. cbn [closed closeListener new_worker].
    rewrite handleProcessClose_give_up; [|reflexivity | exact Hk].
    eexists. split; [reflexivity|]. split.
    + unfold given_up. cbn. rewrite Ht. repeat split.
      apply (forallb_gone_last _ Hg).
    + split; [reflexivity|]. eexists. cbn [out with_procs]. rewrite <- app_assoc.
      split; reflexivity.
  - cbn [run step crash].
    rewrite (restartChildBridge_stopped m Hms).
    rewrite startChildBridge_accepted; [|exact Hms | exact Hst | exact Hcc].
    cbn [procs with_this].
    rewrite nth_error_last. cbn [closed closeListener new_worker].
    rewrite handleProcessClose_backoff; [|reflexivity | reflexivity].
    eexists. split; [reflexivity|]. cbn. rewrite Ht. repeat split.
Qed.

Lemma start_after_give_up_keeps_count_witness :
  exists m1,
    run [CallStartChildBridge; crash 5] (after (CallStart :: five_crashes) sample_machine)
    = Some (Ret tt, m1)
    /\ given_up m1.
Proof.
  destruct (start_after_give_up_keeps_count (after (CallStart :: five_crashes) sample_machine))
    as [(m1 & H & Hg & _) _].
  - vm_compute. repeat split.
  - vm_compute. discriminate.
  - exists m1. split; [exact H | exact Hg].
Defined.



(** ** Ports *)

Lemma on_message_portRequest (data : JsValue) (m : Machine) :
  on_message (msg_portRequest data) m = handlePortRequest (Some data) m.
Proof. reflexivity. Qed.

(** X9. A port request and its answer. When the worker asks for a port
    and the request data has a readable [username], the supervisor asks
    the port service with that value and, once the port is known, sends
    PORT_ALLOCATED with the same value and the port to the current child;
    if the child's channel has closed in between, the answer is dropped.
    When [username] cannot be read, because the data is null, the
    listener still returns: the failure is a rejected promise nobody
    handles, and no request is made. *)
Theorem port_request_round_trip (m : Machine) (h : nat) (p : ChildProcess) (data : JsValue)
    (port : option nat) :
  child (this m) = Some h ->
  nth_error (procs m) h = Some p ->
  connected p = true ->
  (forall u, prop (Some data) "username" = Ret u ->
     run [ProcMessage h (msg_portRequest data);
          PortResolved (List.length (portRequests m)) port] m =
     Some (Ret tt,
           with_out (out m ++ [RequestPort u;
                               Send h PORT_ALLOCATED (PortAllocatedData u port)]) m)
     /\ run [ProcMessage h (msg_portRequest data); ProcDisconnect h;
             PortResolved (List.length (portRequests m)) port] m =
        Some (Ret tt,
              with_procs
                (set_nth h (fun q => {| connected := false; closeListener := closeListener q;
                                        closed := closed q |}) (procs m))
                (with_out (out m ++ [RequestPort u]) m)))
  /\ (forall e, prop (Some data) "username" = Throw e ->
        step (ProcMessage h (msg_portRequest data)) m =
        Some (Ret tt, with_out (out m ++ [UnhandledRejection e]) m)).
Proof.
  intros Hh Hn Hc.
  pose proof (child_connected_live m h p Hh Hn Hc) as Hcc.
  split.
  - intros u Hu. split.
    + cbn [run step]. rewrite Hn, Hc, on_message_portRequest.
      unfold handlePortRequest. rewrite Hu.
      cbn [portRequests with_out with_portRequests].
      rewrite nth_error_last, remove_nth_last.
      unfold port_allocated.
      rewrite (sendMessage_connected _ _ _ h); [|exact Hh | exact Hcc].
      cbn [out with_out with_portRequests]. rewrite <- app_assoc.
      destruct m; reflexivity.
    + cbn [run step]. rewrite Hn, Hc, on_message_portRequest.
      unfold handlePortRequest. rewrite Hu.
      cbn [procs portRequests with_out with_portRequests with_procs]. rewrite Hn, Hc.
      cbn [procs portRequests with_out with_portRequests with_procs].
      rewrite nth_error_last, remove_nth_last.
      unfold port_allocated. rewrite sendMessage_idle.
      * destruct m; reflexivity.
      * unfold child_connected. cbn [this procs with_portRequests with_procs with_out].
        rewrite Hh, nth_error_set_nth, Nat.eqb_refl, Hn. reflexivity.
  - intros e He. unfold step. rewrite Hn, Hc, on_message_portRequest.
    unfold handlePortRequest. rewrite He. reflexivity.
Qed.

Lemma port_request_round_trip_witness :
  run [ProcMessage 0 (msg_portRequest (JObj [("username", JStr "0E:3C:22:18:EC:7A")]));
       PortResolved 0 (Some 443)] (after [CallStart] sample_machine) =
  Some (Ret tt,
        with_out (out (after [CallStart] sample_machine) ++
                  [RequestPort (Some (JStr "0E:3C:22:18:EC:7A"));
                   Send 0 PORT_ALLOCATED
                     (PortAllocatedData (Some (JStr "0E:3C:22:18:EC:7A")) (Some 443))])
          (after [CallStart] sample_machine)).
Proof.
  apply (port_request_round_trip (after [CallStart] sample_machine) 0 new_worker
           (JObj [("username", JStr "0E:3C:22:18:EC:7A")]) (Some 443));
    vm_compute; reflexivity.
Defined.

(** ** What the listener is told, and when *)

(** X10. start() publishes Pending before the worker is forked and before
    the display name is set, and publishes nothing after: its one
    notification carries the pid of the previous child (none on a first
    start) and a name computed from the display name as it was, while
    the object, when start() returns, has the new child, whose pid is
    the one fork() gave it (undefined when the spawn failed), and the
    display name of the configuration. *)
Theorem start_notifies_before_it_forks (m : Machine) :
  exists md a opts,
    start m = (Ret tt, snd (start m))
    /\ out (snd (start m)) = out m ++ [StatusUpdate md; Fork (List.length (procs m)) a opts]
    /\ md_status md = PENDING
    /\ md_pid md = child_pid (host m) (this m)
    /\ md_name md = str_or_dflt (bc_name (bridgeConfig (this m)))
                      (str_or_dflt (displayName (this m))
                         (getPluginIdentifier (plugin (this m))))
    /\ child (this (snd (start m))) = Some (List.length (procs m))
    /\ md_pid (getMetadata (host m) (this (snd (start m))))
       = pids (host m) (List.length (procs m))
    /\ md_name (getMetadata (host m) (this (snd (start m)))) =
       str_or_dflt (bc_name (bridgeConfig (this m)))
         (str_or_dflt (Some (display_name (this m)))
            (getPluginIdentifier (plugin (this m)))).
Proof.
  rewrite start_eq. eexists. eexists. eexists. repeat split.
Qed.

(** X11. The status is published before manuallyStopped is written. When
    the supervisor gives up after a crash, the Down notification, the
    last of the turn, says manuallyStopped is false, and the object then
    has it true. When startChildBridge() is accepted, the Pending
    notification, the only one of the turn, says manuallyStopped is true,
    and the object then has it false. *)
Theorem manuallyStopped_is_published_stale :
  (forall (m : Machine) (h : nat) (p : ChildProcess) (code : option Z)
          (signal : option string),
      nth_error (procs m) h = Some p -> closed p = false -> closeListener p = true ->
      likely_crash code signal = true ->
      (maxRestarts <= restartCount (this m))%Z ->
      manuallyStopped (this m) = false ->
      exists m' md,
        step (ProcClose h code signal) m = Some (Ret tt, m')
        /\ notifications (emitted m m') = [md]
        /\ md_status md = DOWN /\ md_manuallyStopped md = false
        /\ manuallyStopped (this m') = true)
  /\ (forall (m : Machine),
         manuallyStopped (this m) = true -> lastBridgeStatus (this m) = DOWN ->
         child_connected m = false ->
         exists m' md,
           step CallStartChildBridge m = Some (Ret tt, m')
           /\ notifications (emitted m m') = [md]
           /\ md_status md = PENDING /\ md_manuallyStopped md = true
           /\ manuallyStopped (this m') = false).
Proof.
  split.
  - intros m h p code signal Hn Hcl Hl Hc Hk Hms.
    unfold step. rewrite Hn, Hcl, Hl.
    rewrite handleProcessClose_give_up; [|exact Hc | exact Hk].
    eexists. eexists. split; [reflexivity|].
    unfold emitted. cbn [out with_procs]. rewrite skipn_app, skipn_all, Nat.sub_diag.
    cbn. split; [reflexivity|]. cbn. rewrite ?Hms. repeat split.
  - intros m Hms Hst Hcc. unfold step.
    rewrite (startChildBridge_accepted m Hms Hst Hcc).
    eexists. eexists. split; [reflexivity|].
    unfold emitted. cbn [out]. rewrite skipn_app, skipn_all, Nat.sub_diag.
    cbn. split; [reflexivity|]. cbn. rewrite ?Hms. repeat split.
Qed.

Lemma manuallyStopped_is_published_stale_witness :
  exists m' md,
    step (crash 4) (after (CallStart :: removelast five_crashes) sample_machine)
    = Some (Ret tt, m')
    /\ notifications (emitted (after (CallStart :: removelast five_crashes) sample_machine) m')
       = [md]
    /\ md_manuallyStopped md = false
    /\ manuallyStopped (this m') = true.
Proof.
  destruct (proj1 manuallyStopped_is_published_stale
              (after (CallStart :: removelast five_crashes) sample_machine) 4 new_worker
              (Some 1%Z) None) as (m' & md & H1 & H2 & _ & H3 & H4).
  - vm_compute. reflexivity.
  - reflexivity.
  - reflexivity.
  - reflexivity.
  - vm_compute. discriminate.
  - vm_compute. reflexivity.
  - exists m', md. repeat split; assumption.
Defined.

(** ** The bounds of the backoff policy *)

Lemma Forall_remove_nth {A : Type} (P : A -> Prop) (k : nat) (l : list A) :
  Forall P l -> Forall P (remove_nth k l).
Proof.
  revert k. induction l as [|a l IH]; intros k H; [destruct k; exact H|].
  inversion H; subst. destruct k as [|k]; cbn; [assumption|].
  constructor; [assumption | apply IH; assumption].
Qed.

Lemma next_delay (c : Z) :
  (0 <= c < maxRestarts)%Z -> In ((c + 1) * 10 * 1000)%Z backoff_delays.
Proof.
  unfold maxRestarts. intros H.
  assert (Hc : c = 0%Z \/ c = 1%Z \/ c = 2%Z \/ c = 3%Z) by lia.
  destruct Hc as [-> | [-> | [-> | ->]]]; cbn; auto.
Qed.

Ltac kept_bounds :=
  try reflexivity; intros; unfold within_bounds in *; cbn; assumption.

Lemma bounds_step (e : Event) (m : Machine) (o : Outcome unit) (m' : Machine) :
  within_bounds m -> step e m = Some (o, m') -> within_bounds m'.
Proof.
  intros Hb Hstep.
  enough (He : emits within_bounds (fun _ => true) m m') by exact (proj1 (He Hb)).
  assert (Hzero : forall w, timers w = timers m ->
                    within_bounds (with_this (with_restartCount 0%Z (this w)) w)).
  { intros w Ht. split; [cbn; unfold maxRestarts; lia | cbn; rewrite Ht; apply Hb]. }
  destruct (quiet_event e) eqn:Hq.
  - refine (emits_step_quiet within_bounds (fun _ => true) _ _ _ _ _ _ _ _ _ _ _ _ _ _
              e m o m' Hq Hstep); kept_bounds.
  - destruct e; try discriminate Hq; unfold step in Hstep; inversion Hstep as [Hs];
      clear Hstep.
    + (* start() *)
      eapply emits_of; [eapply emits_start | exact Hs]; kept_bounds.
    + (* restartChildBridge() *)
      destruct (manuallyStopped (this m)) eqn:Hm.
      * rewrite (restartChildBridge_stopped _ Hm) in Hs.
        eapply emits_trans;
          [|eapply emits_of; [eapply emits_startChildBridge | exact Hs]; kept_bounds].
        apply emits_same; [reflexivity | intros _; apply Hzero; reflexivity].
      * rewrite (restartChildBridge_running _ Hm) in Hs.
        eapply emits_trans;
          [|eapply emits_of; [eapply emits_teardown | exact Hs]; kept_bounds].
        eapply emits_out; [cbn [out with_out with_reads]; reflexivity | reflexivity | auto].
    + (* stopChildBridge() *)
      destruct (shuttingDown (this m)) eqn:Hsd.
      * rewrite (stopChildBridge_again _ Hsd) in Hs. inversion Hs; subst.
        eapply emits_out; [reflexivity | reflexivity | auto].
      * rewrite (stopChildBridge_eq _ Hsd) in Hs.
        eapply emits_trans;
          [|eapply emits_of; [eapply emits_teardown | exact Hs]; kept_bounds].
        eapply emits_out; [unfold stopping; cbn [out]; reflexivity | reflexivity |].
        intros _. split; [cbn; unfold maxRestarts; lia | apply Hb].
    + (* startChildBridge() *)
      eapply emits_of; [eapply emits_startChildBridge | exact Hs]; kept_bounds.
    + (* the api shuts down *)
      eapply emits_of; [eapply emits_on_shutdown | exact Hs]; kept_bounds.
    + (* 'disconnect' *)
      destruct (nth_error (procs m) h) as [p|]; [|discriminate].
      destruct (connected p); [|discriminate].
      inversion Hs; subst. apply emits_same; [reflexivity | auto].
    + (* 'close' *)
      destruct (nth_error (procs m) h) as [p|]; [|discriminate].
      destruct (closed p); [discriminate|].
      destruct (closeListener p);
        [|inversion Hs; subst; apply emits_same; [reflexivity | auto]].
      inversion Hs as [Hs']. clear Hs.
      match type of Hs' with handleProcessClose _ _ ?w = _ => set (m1 := w) in * end.
      destruct Hb as [Hc Ht].
      destruct (handleProcessClose_cases code signal m1) as [[Hl Hk]|[[Hl Hk]|[[Hl Hk]|[Hl Hk]]]].
      * rewrite (handleProcessClose_backoff _ _ _ Hl Hk) in Hs'. inversion Hs'; subst.
        eapply emits_out; [cbn [out]; reflexivity | reflexivity |].
        intros _. unfold m1 in *. cbn [this with_procs] in Hk. split.
        -- cbn. lia.
        -- cbn [timers with_procs]. apply Forall_app. split; [exact Ht|].
           constructor; [|constructor]. apply next_delay. lia.
      * rewrite (handleProcessClose_give_up _ _ _ Hl Hk) in Hs'. inversion Hs'; subst.
        eapply emits_out; [cbn [out]; reflexivity | reflexivity |].
        intros _. split; [exact Hc | exact Ht].
      * rewrite (handleProcessClose_respawn _ _ _ Hl Hk) in Hs'. inversion Hs'; subst.
        eapply emits_out; [cbn [out]; reflexivity | reflexivity |].
        intros _. split; [cbn; unfold maxRestarts; lia | exact Ht].
      * rewrite (handleProcessClose_ignore _ _ _ Hl Hk) in Hs'. inversion Hs'; subst.
        eapply emits_out; [cbn [out]; reflexivity | reflexivity |].
        intros _. split; [exact Hc | exact Ht].
    + (* a restart timer fires *)
      destruct (nth_error (timers m) k); [|discriminate].
      inversion Hs as [Hs']. clear Hs.
      eapply emits_trans;
        [|eapply emits_of; [eapply emits_restart_timer_callback | exact Hs']; kept_bounds].
      apply emits_same; [reflexivity|]. intros [Hc Ht].
      split; [exact Hc | apply Forall_remove_nth; exact Ht].
Qed.

(** X12. From the object the constructor makes, whatever happens, in
    whatever order (calls, closes with any code, timers, messages, reads),
    the restart count stays between 0 and maxRestarts and every pending
    restart timer is one of 10, 20, 30 and 40 seconds. *)
Theorem backoff_stays_within_bounds (es : list Event) (h : Host) (type : PluginType)
    (identifier : string) (plugin : Plugin) (bridgeConfig : BridgeConfiguration)
    (homebridgeConfig : HomebridgeConfig) (homebridgeOptions : HomebridgeOptions)
    (o : Outcome unit) (m' : Machine) :
  run es (boot h (constructor type identifier plugin bridgeConfig homebridgeConfig
                    homebridgeOptions)) = Some (o, m') ->
  (0 <= restartCount (this m') <= maxRestarts)%Z
  /\ forall d, In d (timers m') -> In d backoff_delays.
Proof.
  intros Hrun.
  enough (Hb : within_bounds m').
  { destruct Hb as [Hc Ht]. split; [exact Hc|]. rewrite Forall_forall in Ht. exact Ht. }
  assert (H0 : within_bounds (boot h (constructor type identifier plugin bridgeConfig
                                        homebridgeConfig homebridgeOptions))).
  { split; [cbn; unfold maxRestarts; lia | constructor]. }
  revert H0 Hrun.
  generalize (boot h (constructor type identifier plugin bridgeConfig homebridgeConfig
                        homebridgeOptions)).
  induction es as [|e es IH]; intros m Hb Hrun.
  - inversion Hrun; subst. exact Hb.
  - cbn [run] in Hrun. destruct (step e m) as [[[[] | err] m1]|] eqn:Hs; [| |discriminate].
    + exact (IH m1 (bounds_step e m _ m1 Hb Hs) Hrun).
    + inversion Hrun; subst. exact (bounds_step e m _ m' Hb Hs).
Qed.

Lemma backoff_stays_within_bounds_witness :
  (0 <= restartCount (this (after (CallStart :: five_crashes)
                              (boot sample_host sample_supervisor))) <= maxRestarts)%Z.
Proof.
  apply (backoff_stays_within_bounds (CallStart :: five_crashes) sample_host PLATFORM
           "ExamplePlatform"
           {| getPluginIdentifier := "homebridge-example";
              getPluginPath := "/usr/lib/node_modules/homebridge-example" |}
           sample_bridge
           {| hc_bridge := sample_host_bridge; hc_ports := None;
              hc_platforms := Some [sample_block]; hc_accessories := None |}
           {| forceColourLogging := false; insecureAccess := false; noLogTimestamps := false;
              keepOrphanedCachedAccessories := false; customStoragePath := None;
              customPluginPath := None |} (Ret tt)).
  vm_compute. reflexivity.
Defined.

(** ** The identity of the bridge *)

(** X13. The username of the bridge never changes: a refresh replaces
    bridgeConfig only by the bridge block of a configuration block with
    the same username. So, in any run, every status notification carries
    the username, the identifier and the plugin name the run began with. *)
Theorem notifications_name_one_bridge (es : list Event) (m : Machine) (o : Outcome unit)
    (m' : Machine) :
  run es m = Some (o, m') ->
  bc_username (bridgeConfig (this m')) = bc_username (bridgeConfig (this m))
  /\ exists l,
       out m' = out m ++ l
       /\ forallb (names_bridge (bc_username (bridgeConfig (this m))) (identifier (this m))
                     (getPluginIdentifier (plugin (this m)))) l = true.
Proof.
  intros Hrun.
  set (I := fun w : Machine =>
              bc_username (bridgeConfig (this w)) = bc_username (bridgeConfig (this m))
              /\ identifier (this w) = identifier (this m)
              /\ plugin (this w) = plugin (this m)).
  assert (He : emits I (names_bridge (bc_username (bridgeConfig (this m)))
                          (identifier (this m)) (getPluginIdentifier (plugin (this m))))
                 m m').
  { refine (emits_run I _ (fun _ => true) _ es m o m' _ Hrun).
    - intros e w o' w' _ Hstep.
      refine (emits_step I _ _ _ _ _ _ _ _ _ _ _ _ _ _ _ _ _ _ _ _ _ _ _ _ _ _ _ _
                e w o' w' Hstep);
        try reflexivity; try (intros; assumption).
      + intros v w0 (H1 & H2 & H3) Hv. unfold I. cbn. rewrite Hv. auto.
      + intros w0 (H1 & H2 & H3). cbn. rewrite H1, H2, H3, !String.eqb_refl. reflexivity.
    - clear. induction es; cbn; auto. }
  destruct He as [(H1 & _) Hl]; [repeat split|]. split; [exact H1 | exact Hl].
Qed.

Lemma notifications_name_one_bridge_witness :
  bc_username
    (bridgeConfig
       (this (after [CallStart; CallRefreshConfig;
                     ConfigRead (ReadOk (homebridgeConfig sample_supervisor))]
                sample_machine)))
  = bc_username (bridgeConfig (this sample_machine)).
Proof.
  apply (notifications_name_one_bridge
           [CallStart; CallRefreshConfig;
            ConfigRead (ReadOk (homebridgeConfig sample_supervisor))]
           sample_machine (Ret tt)).
  vm_compute. reflexivity.
Defined.

(** ** Messages without their data *)

(** X16. A STATUS or LOADED message whose [data] is missing or null makes
    the message listener throw, before it has written or sent anything:
    the exception leaves the listener, the pairing state is not updated,
    START is not sent. With a data object that lacks the fields, STATUS
    sets the pairing state and the setup URI to undefined and publishes
    that. *)
Theorem message_without_data_throws (m : Machine) (h : nat) (p : ChildProcess)
    (fields : list (string * JsValue)) :
  nth_error (procs m) h = Some p -> connected p = true ->
  (assoc "data" fields = None \/ assoc "data" fields = Some JNull) ->
  (assoc "id" fields = Some (JStr "status") ->
   step (ProcMessage h (JObj fields)) m = Some (Throw (TypeError "paired"), m))
  /\ (assoc "id" fields = Some (JStr "loaded") ->
      step (ProcMessage h (JObj fields)) m = Some (Throw (TypeError "version"), m))
  /\ (step (ProcMessage h (msg_status_data (JObj []))) m =
      Some (Ret tt,
            with_out
              (out m ++
               [StatusUpdate
                  (getMetadata (host m) (with_setupUri None (with_pairedStatus None (this m))))])
              (with_this (with_setupUri None (with_pairedStatus None (this m))) m))).
Proof.
  intros Hn Hc Hd. unfold step. rewrite Hn, Hc.
  split; [|split].
  - intros Hid. f_equal. unfold on_message.
    cbn [typeof is_object_type negb]. unfold bind at 1. unfold lift at 1.
    cbn [prop]. rewrite Hid. cbn -[prop].
    unfold bind, lift. cbn [prop]. destruct Hd as [-> | ->]; reflexivity.
  - intros Hid. f_equal. unfold on_message.
    cbn [typeof is_object_type negb]. unfold bind at 1. unfold lift at 1.
    cbn [prop]. rewrite Hid. cbn -[prop].
    unfold bind, lift. cbn [prop]. destruct Hd as [-> | ->]; reflexivity.
  - reflexivity.
Qed.

Lemma message_without_data_throws_witness :
  step (ProcMessage 0 (JObj [("id", JStr "status")])) (after [CallStart] sample_machine) =
  Some (Throw (TypeError "paired"), after [CallStart] sample_machine).
Proof.
  apply (message_without_data_throws (after [CallStart] sample_machine) 0 new_worker
           [("id", JStr "status")]);
    [vm_compute; reflexivity | reflexivity | left; reflexivity | reflexivity].
Defined.

(** ** The configuration a worker is given *)

(** X21. The worker loads the configuration the supervisor holds when
    READY arrives. When a read of the configuration that finds blocks
    for this supervisor completes before the worker's READY, the LOAD
    message carries the blocks of the file; when READY comes first, LOAD
    carries the blocks held before, and the read then replaces them in
    the object without the worker being told. *)
Theorem worker_loads_config_held_at_ready (m : Machine) (h : nat) (p : ChildProcess)
    (n : nat) (hc : HomebridgeConfig) (c0 : ConfigBlock) (rest : list ConfigBlock) :
  child (this m) = Some h ->
  nth_error (procs m) h = Some p ->
  connected p = true ->
  reads m = S n ->
  kept_blocks (this m) hc = c0 :: rest ->
  (exists m1 d,
      run [ConfigRead (ReadOk hc); ProcMessage h msg_ready] m = Some (Ret tt, m1)
      /\ out m1 = out m ++ [Log (log (this m)) LInfo (ChildBridgeStarting (pids (host m) h));
                            Send h LOAD (LoadData d)]
      /\ ld_pluginConfig d = c0 :: rest
      /\ pluginConfig (this m1) = c0 :: rest)
  /\ (exists m2 d,
         run [ProcMessage h msg_ready; ConfigRead (ReadOk hc)] m = Some (Ret tt, m2)
         /\ out m2 = out m ++ [Log (log (this m)) LInfo (ChildBridgeStarting (pids (host m) h));
                               Send h LOAD (LoadData d)]
         /\ ld_pluginConfig d = pluginConfig (this m)
         /\ pluginConfig (this m2) = c0 :: rest).
Proof.
  intros Hh Hn Hc Hr Hk.
  pose proof (child_connected_live m h p Hh Hn Hc) as Hcc.
  split.
  - cbn [run step]. rewrite Hr.
    destruct (refreshConfig_resume_cases (ReadOk hc) (with_reads n m))
      as (m' & Heq & Hhost & Hp & _ & _ & _ & [(_ & _ & Hnone) | (hc' & c & r & E & Hk' & Ht & Ho)]).
    { cbn [this with_reads] in Hnone. rewrite Hk in Hnone. discriminate Hnone. }
    inversion E; subst hc'. cbn [this with_reads] in Hk', Ht. rewrite Hk in Hk'.
    inversion Hk'; subst c r.
    rewrite Heq. rewrite Hp. cbn [procs with_reads]. rewrite Hn, Hc.
    rewrite on_message_ready, loadPlugin_eq.
    assert (Hh' : child (this m') = Some h) by (rewrite Ht; exact Hh).
    rewrite (sendMessage_connected _ _ _ h).
    + eexists. eexists. split; [reflexivity|].
      cbn [out with_out this host]. rewrite (child_pid_of _ _ h Hh'), Ho, Hhost.
      cbn [out host with_reads].
      replace (log (this m')) with (log (this m)) by (rewrite Ht; reflexivity).
      rewrite <- app_assoc. split; [reflexivity|]. split.
      * unfold load_data. cbn [ld_pluginConfig this with_out]. rewrite Ht. reflexivity.
      * rewrite Ht. reflexivity.
    + exact Hh'.
    + rewrite child_connected_out. unfold child_connected. rewrite Hh', Hp.
      cbn [procs with_reads]. rewrite Hn. exact Hc.
  - cbn [run step]. rewrite Hn, Hc.
    rewrite on_message_ready, loadPlugin_eq.
    rewrite (sendMessage_connected _ _ _ h); [|exact Hh | exact Hcc].
    cbn [reads with_out]. rewrite Hr.
    match goal with |- context [refreshConfig_resume _ ?w] => set (w0 := w) end.
    destruct (refreshConfig_resume_cases (ReadOk hc) w0)
      as (m' & Heq & Hhost & Hp & _ & _ & _ & [(_ & _ & Hnone) | (hc' & c & r & E & Hk' & Ht & Ho)]).
    { unfold w0 in Hnone. cbn [this with_reads with_out] in Hnone.
      rewrite Hk in Hnone. discriminate Hnone. }
    inversion E; subst hc'. unfold w0 in Hk', Ht, Ho. cbn [this with_reads with_out out] in *.
    rewrite Hk in Hk'. inversion Hk'; subst c r.
    rewrite Heq. eexists. eexists. split; [reflexivity|].
    rewrite Ho, Ht, (child_pid_of _ _ h Hh), <- app_assoc. cbn [app]. split; [reflexivity|].
    split; reflexivity.
Qed.

Lemma worker_loads_config_held_at_ready_witness :
  exists m2 d,
    run [ProcMessage 0 msg_ready; ConfigRead (ReadOk (homebridgeConfig sample_supervisor))]
      (after [CallStart; CallRefreshConfig] (boot sample_host sample_supervisor))
    = Some (Ret tt, m2)
    /\ ld_pluginConfig d = []
    /\ pluginConfig (this m2) = [sample_block].
Proof.
  destruct (worker_loads_config_held_at_ready
              (after [CallStart; CallRefreshConfig] (boot sample_host sample_supervisor))
              0 new_worker 0 (homebridgeConfig sample_supervisor) sample_block [])
    as [_ (m2 & d & H1 & _ & H2 & H3)]; [vm_compute; reflexivity ..|].
  exists m2, d. split; [exact H1|]. split; [exact H2 | exact H3].
Defined.

(** ** Strings *)

Lemma append_assoc (a b c : string) : ((a ++ b) ++ c = a ++ (b ++ c))%string.
Proof. induction a as [|x a IH]; cbn; [reflexivity | now rewrite IH]. Qed.

Lemma append_empty_r (a : string) : (a ++ EmptyString)%string = a.
Proof. induction a as [|x a IH]; cbn; [reflexivity | now rewrite IH]. Qed.

Lemma rev_string_acc (s acc : string) :
  rev_string s acc = (rev_string s EmptyString ++ acc)%string.
Proof.
  revert acc. induction s as [|c s IH]; intros acc; cbn; [reflexivity|].
  rewrite (IH (String c acc)), (IH (String c EmptyString)), append_assoc. reflexivity.
Qed.

Lemma rev_string_app (x y : string) :
  rev_string (x ++ y) EmptyString
  = (rev_string y EmptyString ++ rev_string x EmptyString)%string.
Proof.
  induction x as [|c x IH]; cbn; [now rewrite append_empty_r|].
  rewrite (rev_string_acc (x ++ y)), IH, (rev_string_acc x (String c EmptyString)),
    append_assoc. reflexivity.
Qed.

Lemma rev_string_involutive (s : string) :
  rev_string (rev_string s EmptyString) EmptyString = s.
Proof.
  induction s as [|c s IH]; cbn; [reflexivity|].
  rewrite (rev_string_acc s), rev_string_app, IH. reflexivity.
Qed.

Lemma trim_start_id (s : string) : starts_with_space s = false -> trim_start s = s.
Proof. destruct s as [|c s]; cbn; [reflexivity|]. intros ->. reflexivity. Qed.

Lemma trim_id (s : string) : trimmed s -> trim s = s.
Proof.
  intros [H1 H2]. unfold trim.
  rewrite (trim_start_id s H1), (trim_start_id _ H2). apply rev_string_involutive.
Qed.

Lemma trim_start_app (a b : string) :
  trim_start (a ++ b) =
  if String.eqb (trim_start a) EmptyString then trim_start b
  else (trim_start a ++ b)%string.
Proof.
  induction a as [|c a IH]; [reflexivity|].
  cbn [append trim_start]. destruct (is_space c); [exact IH | reflexivity].
Qed.

Lemma trim_trail (s : string) : trim (s ++ " ") = trim s.
Proof.
  unfold trim. rewrite trim_start_app.
  destruct (String.eqb (trim_start s) EmptyString) eqn:E.
  - apply String.eqb_eq in E. rewrite E. reflexivity.
  - rewrite rev_string_app. reflexivity.
Qed.

Lemma starts_with_space_app (a b : string) :
  a <> EmptyString -> starts_with_space (a ++ b) = starts_with_space a.
Proof. destruct a; [congruence | reflexivity]. Qed.

Lemma rev_string_nonempty (s : string) :
  s <> EmptyString -> rev_string s EmptyString <> EmptyString.
Proof.
  intros Hs Hr. apply Hs. rewrite <- (rev_string_involutive s), Hr. reflexivity.
Qed.

Lemma trimmed_join (a b : string) :
  a <> EmptyString -> b <> EmptyString -> trimmed a -> trimmed b ->
  trimmed (a ++ " " ++ b).
Proof.
  intros Ha Hb [Ha1 _] [_ Hb2]. split.
  - rewrite starts_with_space_app; assumption.
  - rewrite !rev_string_app, append_assoc.
    rewrite starts_with_space_app; [assumption | apply rev_string_nonempty, Hb].
Qed.

Lemma str_truthy_value (a : option string) :
  str_truthy a = true -> str_or_dflt a EmptyString <> EmptyString.
Proof.
  destruct a as [s|]; [|discriminate]. cbn.
  destruct (String.eqb_spec s EmptyString); [discriminate | auto].
Qed.

Lemma str_falsy_value (a : option string) :
  str_truthy a = false -> str_or_dflt a EmptyString = EmptyString.
Proof.
  destruct a as [s|]; [|reflexivity]. cbn.
  destruct (String.eqb_spec s EmptyString); [auto | discriminate].
Qed.

(** `${a || ''} ${b || ''}`.trim() *)
Lemma trim_joined (a b : option string) :
  (forall s, a = Some s -> trimmed s) -> (forall s, b = Some s -> trimmed s) ->
  trim (str_or_dflt a EmptyString ++ " " ++ str_or_dflt b EmptyString) = joined a b.
Proof.
  intros Ha Hb. unfold joined.
  assert (Ta : str_truthy a = true -> trimmed (str_or_dflt a EmptyString)).
  { destruct a as [s|]; [|discriminate]. cbn. intros H.
    destruct (String.eqb s EmptyString); [discriminate | apply Ha; reflexivity]. }
  assert (Tb : str_truthy b = true -> trimmed (str_or_dflt b EmptyString)).
  { destruct b as [s|]; [|discriminate]. cbn. intros H.
    destruct (String.eqb s EmptyString); [discriminate | apply Hb; reflexivity]. }
  destruct (str_truthy a) eqn:Ea; destruct (str_truthy b) eqn:Eb.
  - apply trim_id, trimmed_join; auto using str_truthy_value.
  - rewrite (str_falsy_value b Eb). rewrite trim_trail. apply trim_id. auto.
  - rewrite (str_falsy_value a Ea). cbn [append]. unfold trim. cbn [trim_start is_space].
    apply trim_id. auto.
  - rewrite (str_falsy_value a Ea), (str_falsy_value b Eb). reflexivity.
Qed.

Lemma assoc_assign_same (k : string) (v : string) (o : list (string * string)) :
  assoc k (assign k v o) = Some v.
Proof.
  induction o as [|[k' v'] o IH]; cbn; [now rewrite String.eqb_refl|].
  destruct (String.eqb k k') eqn:E; cbn; rewrite ?String.eqb_refl, ?E; auto.
Qed.

Lemma assoc_assign_other (k k' : string) (v : string) (o : list (string * string)) :
  k <> k' -> assoc k (assign k' v o) = assoc k o.
Proof.
  intros Hne. apply String.eqb_neq in Hne.
  induction o as [|[k0 v0] o IH]; cbn; [now rewrite Hne|].
  destruct (String.eqb k' k0) eqn:E; cbn.
  - apply String.eqb_eq in E. subst k0. rewrite Hne. reflexivity.
  - destruct (String.eqb k k0); [reflexivity | exact IH].
Qed.

(** X14. The environment of a worker. setProcessEnv() passes every
    variable of the process on unchanged but DEBUG and NODE_OPTIONS, which
    it always sets: each to the value of the process and the value of the
    bridge configuration joined by one space when both are set, to the
    one that is set otherwise, and to the empty string when neither is.
    This is for values of DEBUG and NODE_OPTIONS that are ASCII text with
    no white space at their ends. The worker is forked silent. *)
Theorem worker_env_joins_both_sources (m : Machine) :
  (forall k s, k = "DEBUG" \/ k = "NODE_OPTIONS" ->
     assoc k (process_env (host m)) = Some s -> plain s) ->
  (forall s, bridge_env (this m) env_DEBUG = Some s -> plain s) ->
  (forall s, bridge_env (this m) env_NODE_OPTIONS = Some s -> plain s) ->
  exists env,
    setProcessEnv m =
    (Ret tt, with_this (with_processEnv {| fo_env := Some env; fo_silent := true |} (this m)) m)
    /\ assoc "DEBUG" env
       = Some (joined (assoc "DEBUG" (process_env (host m))) (bridge_env (this m) env_DEBUG))
    /\ assoc "NODE_OPTIONS" env
       = Some (joined (assoc "NODE_OPTIONS" (process_env (host m)))
                 (bridge_env (this m) env_NODE_OPTIONS))
    /\ forall k, k <> "DEBUG" -> k <> "NODE_OPTIONS" ->
                 assoc k env = assoc k (process_env (host m)).
Proof.
  intros Hp Hd Hn. eexists. split; [reflexivity|]. split; [|split].
  - rewrite assoc_assign_other by discriminate. rewrite assoc_assign_same.
    f_equal. apply trim_joined; [|intros s Hs; apply (Hd s Hs)].
    intros s Hs. apply (Hp "DEBUG" s); [left; reflexivity | exact Hs].
  - rewrite assoc_assign_same.
    f_equal. apply trim_joined; [|intros s Hs; apply (Hn s Hs)].
    intros s Hs. apply (Hp "NODE_OPTIONS" s); [right; reflexivity | exact Hs].
  - intros k H1 H2. rewrite !assoc_assign_other by assumption. reflexivity.
Qed.

Lemma worker_env_joins_both_sources_witness :
  exists env,
    fo_env (processEnv (this (snd (setProcessEnv sample_env_machine)))) = Some env
    /\ assoc "DEBUG" env = Some "HAP-NodeJS:* homebridge-example:*"
    /\ assoc "NODE_OPTIONS" env = Some EmptyString
    /\ assoc "PATH" env = Some "/usr/bin".
Proof.
  destruct (worker_env_joins_both_sources sample_env_machine) as (env & He & Hd & Hn & Ho).
  - intros k s [-> | ->] H; vm_compute in H; inversion H; subst.
    vm_compute. repeat split; reflexivity.
  - intros s H. vm_compute in H. inversion H; subst. vm_compute. repeat split; reflexivity.
  - intros s H. vm_compute in H. discriminate H.
  - exists env. rewrite He. split; [reflexivity|]. split; [exact Hd|]. split; [exact Hn|].
    rewrite (Ho "PATH"); [reflexivity | discriminate | discriminate].
Defined.

(** ** The name of the accessory cache *)

Lemma upper_char_colon (c : ascii) : is_colon (upper_char c) = is_colon c.
Proof. destruct c as [[] [] [] [] [] [] [] []]; reflexivity. Qed.

Lemma upper_char_lower (c : ascii) : is_lower (upper_char c) = false.
Proof. destruct c as [[] [] [] [] [] [] [] []]; reflexivity. Qed.

Lemma remove_colons_upper (s : string) :
  remove_colons (toUpperCase s) = toUpperCase (remove_colons s).
Proof.
  induction s as [|c s IH]; [reflexivity|].
  cbn [toUpperCase remove_colons].
  change (Ascii.eqb (upper_char c) ":"%char) with (is_colon (upper_char c)).
  change (Ascii.eqb c ":"%char) with (is_colon c).
  rewrite upper_char_colon. destruct (is_colon c); cbn [toUpperCase]; rewrite IH; reflexivity.
Qed.

Lemma remove_colons_none (s : string) : string_exists is_colon (remove_colons s) = false.
Proof.
  induction s as [|c s IH]; [reflexivity|]. cbn [remove_colons].
  change (Ascii.eqb c ":"%char) with (is_colon c).
  destruct (is_colon c) eqn:E; [exact IH|]. cbn. rewrite E. exact IH.
Qed.

Lemma toUpperCase_no_lower (s : string) : string_exists is_lower (toUpperCase s) = false.
Proof.
  induction s as [|c s IH]; [reflexivity|]. cbn. rewrite upper_char_lower. exact IH.
Qed.

(** X15. The name of the accessory cache that loadPlugin() gives the
    worker is "cachedAccessories." followed by the username without its
    colons and in upper case: the suffix has no colon and no lower-case
    letter, and two usernames that differ only in the case of their
    letters, or only in their colons, name the same cache. *)
Theorem cache_name_is_normalised (m : Machine) :
  cachedAccessoriesItemName (ld_bridgeOptions (load_data m))
  = cache_item_name (bc_username (bridgeConfig (this m)))
  /\ (forall u,
        exists suffix,
          cache_item_name u = ("cachedAccessories." ++ suffix)%string
          /\ string_exists is_colon suffix = false
          /\ string_exists is_lower suffix = false)
  /\ (forall u1 u2,
        toUpperCase u1 = toUpperCase u2 \/ remove_colons u1 = remove_colons u2 ->
        cache_item_name u1 = cache_item_name u2).
Proof.
  split; [reflexivity|]. split.
  - intros u. exists (toUpperCase (remove_colons u)). split; [reflexivity|]. split.
    + rewrite <- remove_colons_upper. apply remove_colons_none.
    + apply toUpperCase_no_lower.
  - intros u1 u2 [H|H]; unfold cache_item_name; f_equal.
    + rewrite <- !remove_colons_upper, H. reflexivity.
    + rewrite H. reflexivity.
Qed.

Lemma cache_name_is_normalised_witness :
  cache_item_name "0e:3c:22:18:ec:79" = cache_item_name "0E:3C:22:18:EC:79".
Proof.
  apply (proj2 (proj2 (cache_name_is_normalised sample_machine))).
  left. reflexivity.
Defined.

(** * logger.ts and cli.ts *)

Lemma assoc_app_last {A : Type} (q p : string) (l : A) (c : list (string * A)) :
  assoc q (c ++ [(p, l)]) =
  match assoc q c with
  | Some x => Some x
  | None => if String.eqb q p then Some l else None
  end.
Proof.
  induction c as [|[k v] c IH]; cbn; [reflexivity|].
  destruct (String.eqb q k); [reflexivity | exact IH].
Qed.

Lemma withPrefix_spec (p : string) (st : Logger.Statics) :
  cache_ok st ->
  assoc p (Logger.loggerCache (snd (Logger.withPrefix p st))) = Some (fst (Logger.withPrefix p st))
  /\ cache_grows st (snd (Logger.withPrefix p st))
  /\ cache_ok (snd (Logger.withPrefix p st)).
Proof.
  intros Hok. unfold Logger.withPrefix.
  destruct (assoc p (Logger.loggerCache st)) as [l|] eqn:Hp; cbn [fst snd].
  - split; [exact Hp|]. split; [intros q l' H; exact H | exact Hok].
  - cbn [Logger.loggerCache]. split; [|split].
    + rewrite assoc_app_last, Hp, String.eqb_refl. reflexivity.
    + intros q l' H. cbn [Logger.loggerCache]. rewrite assoc_app_last, H. reflexivity.
    + intros q l' H. cbn [Logger.loggerCache] in H. rewrite assoc_app_last in H.
      destruct (assoc q (Logger.loggerCache st)) as [x|] eqn:Hq.
      * inversion H; subst. apply (Hok q l' Hq).
      * destruct (String.eqb_spec q p) as [->|]; [|discriminate].
        inversion H; subst. reflexivity.
Qed.

Lemma withPrefixes_spec (ps : list string) (st : Logger.Statics) :
  cache_ok st ->
  cache_ok (snd (Logger.withPrefixes ps st))
  /\ cache_grows st (snd (Logger.withPrefixes ps st))
  /\ Forall2 (fun p l => assoc p (Logger.loggerCache (snd (Logger.withPrefixes ps st))) = Some l)
       ps (fst (Logger.withPrefixes ps st)).
Proof.
  revert st. induction ps as [|p ps IH]; intros st Hok.
  - cbn. split; [exact Hok|]. split; [intros q l H; exact H | constructor].
  - cbn [Logger.withPrefixes].
    destruct (withPrefix_spec p st Hok) as (H1 & H2 & H3).
    destruct (Logger.withPrefix p st) as [l st1]. cbn [fst snd] in *.
    destruct (IH st1 H3) as (I1 & I2 & I3).
    destruct (Logger.withPrefixes ps st1) as [ls st2]. cbn [fst snd] in *.
    split; [exact I1|]. split.
    + intros q l' H. apply I2, H2, H.
    + constructor; [apply I2, H1 | exact I3].
Qed.

Lemma Forall2_nth_error {A B : Type} (R : A -> B -> Prop) (l1 : list A) (l2 : list B)
    (i : nat) (a : A) (b : B) :
  Forall2 R l1 l2 -> nth_error l1 i = Some a -> nth_error l2 i = Some b -> R a b.
Proof.
  intros H. revert i. induction H as [|x y l1 l2 Hxy H IH]; intros [|i] Ha Hb;
    try discriminate.
  - inversion Ha; inversion Hb; subst. exact Hxy.
  - exact (IH i Ha Hb).
Qed.

(** X17. One logging device per prefix. In any run of calls to
    Logger.withPrefix after the module is loaded, a call returns a device
    with the prefix asked for, and two calls return the same device
    exactly when they ask for the same prefix. *)
Theorem withPrefix_one_device_per_prefix (ps : list string) (i j : nat) (p q : string)
    (a b : Logger.Logging) :
  nth_error ps i = Some p -> nth_error ps j = Some q ->
  nth_error (fst (Logger.withPrefixes ps Logger.loaded)) i = Some a ->
  nth_error (fst (Logger.withPrefixes ps Logger.loaded)) j = Some b ->
  Logger.prefix a = Some p /\ a <> Logger.internal /\ (a = b <-> p = q).
Proof.
  intros Hp Hq Ha Hb.
  assert (Hok : cache_ok Logger.loaded) by (intros k l H; discriminate H).
  destruct (withPrefixes_spec ps Logger.loaded Hok) as (H1 & _ & H3).
  pose proof (Forall2_nth_error _ _ _ i p a H3 Hp Ha) as Ca.
  pose proof (Forall2_nth_error _ _ _ j q b H3 Hq Hb) as Cb.
  pose proof (H1 p a Ca) as Pa. pose proof (H1 q b Cb) as Pb.
  split; [exact Pa|]. split.
  - intros E. rewrite E in Pa. discriminate Pa.
  - split.
    + intros E. subst b. congruence.
    + intros E. subst q. congruence.
Qed.

Lemma withPrefix_one_device_per_prefix_witness :
  Logger.prefix {| Logger.ident := 1; Logger.prefix := Some "homebridge-example" |}
  = Some "homebridge-example"
  /\ {| Logger.ident := 1; Logger.prefix := Some "homebridge-example" |} <> Logger.internal
  /\ ({| Logger.ident := 1; Logger.prefix := Some "homebridge-example" |}
      = {| Logger.ident := 1; Logger.prefix := Some "homebridge-example" |}
      <-> "homebridge-example" = "homebridge-example").
Proof.
  apply (withPrefix_one_device_per_prefix
           ["homebridge-example"; "Example"; "homebridge-example"] 0 2
           "homebridge-example" "homebridge-example"); reflexivity.
Defined.

(** X18. From the flags of the command line to a line of the log. After
    cli() has configured the logger, a call to log() on any device writes
    nothing when the level is DEBUG and -D was not given, and one line
    otherwise: to stderr for WARN and ERROR and to stdout for the rest,
    made of the time in white unless -T was given, then the prefix in
    cyan and a space when the device has a non-empty prefix, then the
    formatted message in the colour of its level. *)
Theorem cli_flags_shape_every_line (util_format : string -> list JsValue -> string)
    (f : Cli.Flags) (self : Logger.Logging) (now : string) (level : Logger.LogLevel)
    (message : string) (parameters : list JsValue) :
  Logger.log util_format (Cli.configure_logger f Logger.loaded) self now level message
    parameters =
  if Logger.is_DEBUG level && negb (Cli.debugModeEnabled f) then []
  else
    [{| Logger.stream := goes_to level;
        Logger.pieces :=
          (if Cli.noLogTimestamps f then []
           else [Logger.Styled Logger.White ("[" ++ now ++ "] ")%string])
          ++ match Logger.prefix self with
             | Some p =>
                 if String.eqb p EmptyString then []
                 else [Logger.Styled Logger.Cyan ("[" ++ p ++ "]")%string; Logger.Plain " "]
             | None => []
             end
          ++ [body level (util_format message parameters)] |}].
Proof.
  unfold Logger.log, Cli.configure_logger.
  destruct (Cli.noLogTimestamps f), (Cli.debugModeEnabled f), (Cli.forceColourLogging f);
    cbn [Logger.debugEnabled Logger.timestampEnabled Logger.setTimestampEnabled
         Logger.setDebugEnabled Logger.forceColor Logger.loaded negb andb];
    rewrite ?andb_true_r, ?andb_false_r;
    destruct level; cbn [Logger.is_DEBUG]; try reflexivity;
    destruct (Logger.prefix self) as [p|]; cbn [str_truthy str_or_dflt];
    try reflexivity; destruct (String.eqb p EmptyString); reflexivity.
Qed.

(** ** The handlers of cli() *)

Lemma nullish_prop (error : option JsValue) (key : string) :
  (Cli.nullish error = true /\ prop error key = Throw (TypeError key))
  \/ (Cli.nullish error = false /\ exists v, prop error key = Ret v).
Proof.
  destruct error as [[| | | | |]|]; cbn; eauto.
Qed.

Lemma errorHandler_cases (error : option JsValue) (s : Cli.State) :
  (Cli.nullish error = true
   /\ prop error "stack" = Throw (TypeError "stack")
   /\ Cli.errorHandler error s = (Throw (TypeError "stack"), s))
  \/ (Cli.nullish error = false
      /\ exists stack s',
           prop error "stack" = Ret stack
           /\ Cli.errorHandler error s = (Ret tt, s')
           /\ Cli.shuttingDown s' = Cli.shuttingDown s
           /\ Cli.exitTimers s' = Cli.exitTimers s
           /\ Cli.ended s' = Cli.ended s
           /\ Cli.out s' = Cli.out s
                           ++ (if truthy stack then [Cli.LogStack stack] else [])
                           ++ (if Cli.shuttingDown s then [] else [Cli.KillSelf Cli.SIGTERM])).
Proof.
  unfold Cli.errorHandler.
  destruct error as [[| | | | |]|]; cbn [Cli.nullish prop];
    try (left; repeat split; reflexivity);
    right; (split; [reflexivity|]); eexists; eexists; (split; [reflexivity|]);
    (split; [reflexivity|]);
    match goal with |- context [truthy ?x] => destruct (truthy x) end;
    destruct (Cli.shuttingDown s) eqn:Hsd; cbn; rewrite ?Hsd; cbn;
    rewrite ?app_nil_r, <- ?app_assoc; repeat split; auto.
Qed.

Lemma shutdown_state_step (fs : option Cli.Signals) (e : Cli.Event) (s s1 : Cli.State) :
  shutdown_state fs s -> Cli.step e s = Some s1 ->
  shutdown_state (or_else fs (Cli.first_signal [e])) s1.
Proof.
  intros (Hsd & Hout & Ht & Hx) Hstep. unfold Cli.step in Hstep.
  destruct (Cli.ended s) as [c|] eqn:Hex; [discriminate|].
  assert (Hkeep : forall s' l,
             Cli.shuttingDown s' = Cli.shuttingDown s ->
             Cli.exitTimers s' = Cli.exitTimers s ->
             (forall code, Cli.ended s' <> Some (Cli.ExitCode code)) ->
             Cli.out s' = Cli.out s ++ l ->
             filter Cli.is_signal_output l = [] ->
             shutdown_state fs s').
  { intros s' l H1 H2 H3 H4 H5. split; [rewrite H1; exact Hsd|]. split; [|split].
    - rewrite H4, filter_app, H5, app_nil_r. exact Hout.
    - rewrite H2. exact Ht.
    - intros code Hc. destruct (H3 code Hc). }
  assert (Herr : forall error s' (after_throw : Cli.State -> JsError -> Cli.State),
             (forall s0 err,
                 Cli.shuttingDown (after_throw s0 err) = Cli.shuttingDown s0
                 /\ Cli.exitTimers (after_throw s0 err) = Cli.exitTimers s0
                 /\ (forall code, Cli.ended (after_throw s0 err) <> Some (Cli.ExitCode code)
                                  \/ Cli.ended s0 <> None)
                 /\ exists l, Cli.out (after_throw s0 err) = Cli.out s0 ++ l
                              /\ filter Cli.is_signal_output l = []) ->
             match Cli.errorHandler error s with
             | (Ret _, s2) => Some s2
             | (Throw err, s2) => Some (after_throw s2 err)
             end = Some s' ->
             shutdown_state fs s').
  { intros error s' after_throw Hat Hs'.
    destruct (errorHandler_cases error s)
      as [(_ & _ & He) | (_ & stack & s2 & _ & He & H1 & H2 & H3 & H4)];
      rewrite He in Hs'; inversion Hs'; subst s'.
    - destruct (Hat s (TypeError "stack")) as (A1 & A2 & A3 & l & A4 & A5).
      apply (Hkeep _ l A1 A2); [|exact A4 | exact A5].
      intros code. destruct (A3 code) as [A|A]; [exact A | congruence].
    - refine (Hkeep _ _ H1 H2 _ H4 _); [rewrite H3, Hex; discriminate|].
      destruct (truthy stack), (Cli.shuttingDown s); reflexivity. }
  assert (Hsig : forall sig n, (128 + n)%Z = Cli.exit_code sig ->
                   shutdown_state (or_else fs (Some sig)) (Cli.signalHandler sig n s)).
  { intros sig n Hn. unfold Cli.signalHandler. rewrite Hsd. destruct fs as [x|].
    - cbn [or_else is_some]. split; [exact Hsd|]. split; [exact Hout|].
      split; [exact Ht|]. rewrite Hex. discriminate.
    - unfold shutdown_state.
      cbn [or_else is_some Cli.shuttingDown Cli.out Cli.exitTimers Cli.ended].
      split; [reflexivity|]. split; [|split].
      + rewrite filter_app, Hout.
        cbn [filter Cli.is_signal_output app Cli.shutdown_outputs]. rewrite Hn. reflexivity.
      + intros code Hin. apply in_app_or in Hin. destruct Hin as [Hin|[<-|[]]].
        * destruct (Ht code Hin) as (x & Hx' & _). discriminate Hx'.
        * exists sig. auto.
      + rewrite Hex. discriminate. }
  assert (Hfs : forall e0, Cli.first_signal [e0] = None -> or_else fs (Cli.first_signal [e0]) = fs)
    by (intros e0 ->; destruct fs; reflexivity).
  destruct e as [[|]|error|error|k].
  - inversion Hstep; subst. apply Hsig. reflexivity.
  - inversion Hstep; subst. apply Hsig. reflexivity.
  - rewrite Hfs by reflexivity.
    refine (Herr error s1 (fun s0 err =>
              {| Cli.shuttingDown := Cli.shuttingDown s0; Cli.exitTimers := Cli.exitTimers s0;
                 Cli.ended := Some (Cli.HandlerThrew err); Cli.out := Cli.out s0 |}) _ Hstep).
    intros s0 err. cbn. split; [reflexivity|]. split; [reflexivity|].
    split; [intros code; left; discriminate|]. exists []. rewrite app_nil_r. auto.
  - rewrite Hfs by reflexivity.
    refine (Herr error s1 (fun s0 err => Cli.print (Cli.Rejected err) s0) _ Hstep).
    intros s0 err. cbn. split; [reflexivity|]. split; [reflexivity|].
    split; [|eexists; split; reflexivity].
    intros code. destruct (Cli.ended s0) as [x|]; [right; discriminate | left; discriminate].
  - destruct (nth_error (Cli.exitTimers s) k) as [code|] eqn:Hk; [|discriminate].
    inversion Hstep; subst. rewrite Hfs by reflexivity.
    unfold shutdown_state. cbn [Cli.shuttingDown Cli.out Cli.exitTimers Cli.ended].
    split; [exact Hsd|]. split; [|split].
    + rewrite filter_app. cbn. rewrite app_nil_r. exact Hout.
    + intros c Hin. apply Ht. clear -Hin. revert k Hin.
      induction (Cli.exitTimers s) as [|a l IH]; intros [|k] Hin; cbn in *; auto.
      destruct Hin as [<-|Hin]; [left; reflexivity | right; exact (IH k Hin)].
    + intros c Hc. inversion Hc; subst. apply Ht. exact (nth_error_In _ _ Hk).
Qed.

Lemma or_else_first_signal (fs : option Cli.Signals) (e : Cli.Event) (es : list Cli.Event) :
  or_else (or_else fs (Cli.first_signal [e])) (Cli.first_signal es)
  = or_else fs (Cli.first_signal (e :: es)).
Proof. destruct fs; [reflexivity|]. destruct e; reflexivity. Qed.

Lemma shutdown_state_run (es : list Cli.Event) (fs : option Cli.Signals) (s s' : Cli.State) :
  shutdown_state fs s -> Cli.run es s = Some s' ->
  shutdown_state (or_else fs (Cli.first_signal es)) s'.
Proof.
  revert fs s. induction es as [|e es IH]; intros fs s Hs Hrun.
  - inversion Hrun; subst. destruct fs; exact Hs.
  - cbn [Cli.run] in Hrun. destruct (Cli.step e s) as [s1|] eqn:Hstep; [|discriminate].
    rewrite <- or_else_first_signal.
    apply (IH _ s1 (shutdown_state_step fs e s s1 Hs Hstep) Hrun).
Qed.

Lemma run_ended (es : list Cli.Event) (s s' : Cli.State) (x : Cli.Ending) :
  Cli.ended s = Some x -> Cli.run es s = Some s' -> s' = s.
Proof.
  intros Hx Hrun. destruct es as [|e es]; [inversion Hrun; reflexivity|].
  cbn [Cli.run] in Hrun. unfold Cli.step in Hrun. rewrite Hx in Hrun. discriminate Hrun.
Qed.

Lemma handler_threw_run (es : list Cli.Event) (s s' : Cli.State) (err : JsError) :
  Cli.ended s = None -> Cli.run es s = Some s' ->
  Cli.ended s' = Some (Cli.HandlerThrew err) ->
  err = TypeError "stack" /\ existsb Cli.throws_nullish es = true.
Proof.
  revert s. induction es as [|e es IH]; intros s Hn Hrun Hend.
  - inversion Hrun; subst. congruence.
  - cbn [Cli.run] in Hrun. destruct (Cli.step e s) as [s1|] eqn:Hstep; [|discriminate].
    cbn [existsb].
    destruct (Cli.ended s1) as [x|] eqn:Hx.
    + pose proof (run_ended es s1 s' x Hx Hrun) as ->.
      rewrite Hx in Hend. inversion Hend; subst x. clear Hend.
      unfold Cli.step in Hstep. rewrite Hn in Hstep.
      destruct e as [[|]|error|error|k].
      * inversion Hstep; subst. unfold Cli.signalHandler in Hx.
        destruct (Cli.shuttingDown s); cbn in Hx; congruence.
      * inversion Hstep; subst. unfold Cli.signalHandler in Hx.
        destruct (Cli.shuttingDown s); cbn in Hx; congruence.
      * destruct (errorHandler_cases error s)
          as [(Hnl & _ & He) | (_ & stack & s2 & _ & He & _ & _ & H3 & _)];
          rewrite He in Hstep; inversion Hstep; subst s1.
        -- cbn in Hx. inversion Hx; subst. cbn [Cli.throws_nullish]. rewrite Hnl. auto.
        -- congruence.
      * destruct (errorHandler_cases error s)
          as [(Hnl & _ & He) | (_ & stack & s2 & _ & He & _ & _ & H3 & _)];
          rewrite He in Hstep; inversion Hstep; subst s1.
        -- cbn in Hx. congruence.
        -- congruence.
      * destruct (nth_error (Cli.exitTimers s) k); [|discriminate].
        inversion Hstep; subst. cbn in Hx. discriminate Hx.
    + destruct (IH s1 Hx Hrun Hend) as [H1 H2]. split; [exact H1|].
      rewrite H2. apply orb_true_r.
Qed.

(** X19. The shutdown of cli() runs once. Whatever signals the process
    receives and whatever values are thrown or given as rejection
    reasons, in whatever order, the first SIGINT or SIGTERM, and only it,
    logs, sets the one exit timer, of five seconds, and calls
    server.teardown(); without a signal none of this happens. When the
    process ends through process.exit, the code is 130 after a first
    SIGINT and 143 after a first SIGTERM. The only other end is an
    exception leaving the 'uncaughtException' listener, which takes an
    uncaught null or undefined: errorHandler then throws a TypeError
    reading its stack. *)
Theorem shutdown_runs_once (es : list Cli.Event) (s' : Cli.State) :
  Cli.run es Cli.started = Some s' ->
  filter Cli.is_signal_output (Cli.out s') = Cli.shutdown_outputs (Cli.first_signal es)
  /\ Cli.shuttingDown s' = is_some (Cli.first_signal es)
  /\ (forall code, Cli.ended s' = Some (Cli.ExitCode code) ->
        exists sig, Cli.first_signal es = Some sig /\ code = Cli.exit_code sig)
  /\ (forall err, Cli.ended s' = Some (Cli.HandlerThrew err) ->
        err = TypeError "stack" /\ existsb Cli.throws_nullish es = true).
Proof.
  intros Hrun.
  assert (H0 : shutdown_state None Cli.started).
  { repeat split; try reflexivity; [intros code [] | intros code H; discriminate H]. }
  destruct (shutdown_state_run es None Cli.started s' H0 Hrun) as (H1 & H2 & _ & H4).
  cbn [or_else] in *. split; [exact H2|]. split; [exact H1|]. split; [exact H4|].
  intros err. apply (handler_threw_run es Cli.started s' err eq_refl Hrun).
Qed.

Lemma shutdown_runs_once_witness :
  exists s',
    Cli.run [Cli.Signal Cli.SIGINT; Cli.Signal Cli.SIGTERM; Cli.Signal Cli.SIGINT;
             Cli.ExitTimerFired 0] Cli.started = Some s'
    /\ filter Cli.is_signal_output (Cli.out s') =
       [Cli.LogGotSignal Cli.SIGINT; Cli.SetExitTimer 130%Z 5000%Z; Cli.ServerTeardown].
Proof.
  eexists. split; [vm_compute; reflexivity|].
  apply (shutdown_runs_once [Cli.Signal Cli.SIGINT; Cli.Signal Cli.SIGTERM;
                             Cli.Signal Cli.SIGINT; Cli.ExitTimerFired 0]).
  vm_compute. reflexivity.
Defined.

Lemma errors_run (es : list Cli.Event) (s s' : Cli.State) :
  Cli.run es s = Some s' ->
  filter Cli.is_KillSelf (Cli.out s')
  = filter Cli.is_KillSelf (Cli.out s)
    ++ (if Cli.shuttingDown s then [] else Cli.self_signals (Cli.before_signal es))
  /\ filter Cli.is_LogStack (Cli.out s')
     = filter Cli.is_LogStack (Cli.out s) ++ Cli.logged_stacks es
  /\ filter Cli.is_Rejected (Cli.out s')
     = filter Cli.is_Rejected (Cli.out s) ++ Cli.unhandled es.
Proof.
  revert s. induction es as [|e es IH]; intros s Hrun.
  - inversion Hrun; subst. cbn. destruct (Cli.shuttingDown s'); rewrite !app_nil_r; auto.
  - cbn [Cli.run] in Hrun. destruct (Cli.step e s) as [s1|] eqn:Hstep; [|discriminate].
    destruct (IH s1 Hrun) as (IH1 & IH2 & IH3). rewrite IH1, IH2, IH3. clear IH IH1 IH2 IH3 Hrun.
    unfold Cli.step in Hstep. destruct (Cli.ended s) as [x|] eqn:Hx; [discriminate|].
    assert (Hsig : forall sig n, s1 = Cli.signalHandler sig n s -> e = Cli.Signal sig ->
              filter Cli.is_KillSelf (Cli.out s1) = filter Cli.is_KillSelf (Cli.out s)
              /\ filter Cli.is_LogStack (Cli.out s1) = filter Cli.is_LogStack (Cli.out s)
              /\ filter Cli.is_Rejected (Cli.out s1) = filter Cli.is_Rejected (Cli.out s)
              /\ Cli.shuttingDown s1 = true).
    { intros sig n -> _. unfold Cli.signalHandler.
      destruct (Cli.shuttingDown s) eqn:Hsd; cbn; [auto|].
      rewrite !filter_app. cbn. rewrite !app_nil_r. auto. }
    destruct e as [sig|error|error|k].
    + assert (Hs1 : exists n, s1 = Cli.signalHandler sig n s)
        by (destruct sig; inversion Hstep; eauto).
      destruct Hs1 as [n Hs1]. destruct (Hsig sig n Hs1 eq_refl) as (H1 & H2 & H3 & H4).
      rewrite H1, H2, H3, H4. cbn. destruct (Cli.shuttingDown s); auto.
    + cbn [Cli.before_signal Cli.self_signals Cli.logged_stacks Cli.unhandled Cli.error_of].
      destruct (errorHandler_cases error s)
        as [(Hnl & Hp & He) | (Hnl & stack & s2 & Hp & He & H1 & _ & _ & H4)];
        rewrite He in Hstep; inversion Hstep; subst s1; rewrite Hnl, Hp.
      * cbn [Cli.shuttingDown Cli.out]. auto.
      * rewrite H1, H4, !filter_app.
        destruct (truthy stack), (Cli.shuttingDown s); cbn;
          rewrite ?app_nil_r, <- ?app_assoc; auto.
    + cbn [Cli.before_signal Cli.self_signals Cli.logged_stacks Cli.unhandled Cli.error_of].
      destruct (errorHandler_cases error s)
        as [(Hnl & Hp & He) | (Hnl & stack & s2 & Hp & He & H1 & _ & _ & H4)];
        rewrite He in Hstep; inversion Hstep; subst s1; rewrite Hnl, Hp.
      * cbn [Cli.shuttingDown Cli.out Cli.print]. rewrite !filter_app. cbn.
        rewrite ?app_nil_r, <- ?app_assoc. auto.
      * rewrite H1, H4, !filter_app.
        destruct (truthy stack), (Cli.shuttingDown s); cbn;
          rewrite ?app_nil_r, <- ?app_assoc; auto.
    + destruct (nth_error (Cli.exitTimers s) k) as [code|]; [|discriminate].
      inversion Hstep; subst s1. cbn. rewrite !filter_app. cbn. rewrite !app_nil_r. auto.
Qed.

(** X20. What errorHandler does with the values it is given, over every
    run of the process. Each uncaught exception and each rejection of
    server.start() whose value is not null or undefined has its stack
    logged when the stack is truthy, and makes the process send SIGTERM
    to itself exactly when no signal has been received before it. For
    null and undefined the handler throws reading the stack, before it
    logs or signals anything: nothing is logged and no signal is sent,
    and for a rejection the promise returned by catch is rejected with
    the TypeError, which nothing handles. *)
Theorem errors_signal_self_until_shutdown (es : list Cli.Event) (s' : Cli.State) :
  Cli.run es Cli.started = Some s' ->
  filter Cli.is_KillSelf (Cli.out s') = Cli.self_signals (Cli.before_signal es)
  /\ filter Cli.is_LogStack (Cli.out s') = Cli.logged_stacks es
  /\ filter Cli.is_Rejected (Cli.out s') = Cli.unhandled es.
Proof.
  intros Hrun. exact (errors_run es Cli.started s' Hrun).
Qed.

Lemma errors_signal_self_until_shutdown_witness :
  exists s',
    Cli.run [Cli.StartRejected (Some (JObj [("stack", JStr "Error: listen EADDRINUSE")]));
             Cli.StartRejected None;
             Cli.Signal Cli.SIGTERM;
             Cli.UncaughtException (Some (JStr "thrown text"));
             Cli.UncaughtException (Some JNull)] Cli.started = Some s'
    /\ filter Cli.is_KillSelf (Cli.out s') = [Cli.KillSelf Cli.SIGTERM]
    /\ filter Cli.is_LogStack (Cli.out s')
       = [Cli.LogStack (Some (JStr "Error: listen EADDRINUSE"))]
    /\ filter Cli.is_Rejected (Cli.out s') = [Cli.Rejected (TypeError "stack")].
Proof.
  eexists. split; [vm_compute; reflexivity|].
  apply (errors_signal_self_until_shutdown
           [Cli.StartRejected (Some (JObj [("stack", JStr "Error: listen EADDRINUSE")]));
            Cli.StartRejected None;
            Cli.Signal Cli.SIGTERM;
            Cli.UncaughtException (Some (JStr "thrown text"));
            Cli.UncaughtException (Some JNull)]).
  vm_compute. reflexivity.
Defined.

(** * A supervisor that is only started *)

(** X22. A crash-close (code 1, no signal) met with restartCount at
    maxRestarts sets the status to Down and manuallyStopped to true, and
    neither forks nor sets a timer. And on a supervisor that has been
    started once, take any run in which every close of a worker is a
    crash-close, nobody calls start, stop or restart and the api does not
    shut down, while restart timers fire and workers send messages as they
    please: once the run holds five crash-closes, the status is Down,
    manuallyStopped is true and no timer is pending; and from there no run
    of events without an explicit start (start(), startChildBridge(), or
    restartChildBridge(), which calls it) forks a worker or sets a timer,
    and the status stays Down with manuallyStopped true. *)
Theorem five_crashes_then_down :
  (forall (m : Machine) (h : nat) (p : ChildProcess),
      nth_error (procs m) h = Some p -> closed p = false -> closeListener p = true ->
      (maxRestarts <= restartCount (this m))%Z ->
      exists m' l,
        step (ProcClose h (Some 1%Z) None) m = Some (Ret tt, m')
        /\ lastBridgeStatus (this m') = DOWN
        /\ manuallyStopped (this m') = true
        /\ timers m' = timers m
        /\ out m' = out m ++ l
        /\ existsb is_fork l = false
        /\ existsb is_set_timeout l = false)
  /\ (forall (h : Host) (s : ChildBridgeService) (es : list Event) (m : Machine),
         shuttingDown s = false -> restartCount s = 0%Z ->
         forallb crashing_run_event es = true ->
         crash_count es = 5 ->
         run (CallStart :: es) (boot h s) = Some (Ret tt, m) ->
         lastBridgeStatus (this m) = DOWN
         /\ manuallyStopped (this m) = true
         /\ timers m = []
         /\ forall (es' : list Event) (o' : Outcome unit) (m' : Machine),
              Forall (fun e => explicit_start e = false) es' ->
              run es' m = Some (o', m') ->
              lastBridgeStatus (this m') = DOWN
              /\ manuallyStopped (this m') = true
              /\ exists l, out m' = out m ++ l
                           /\ existsb is_fork l = false
                           /\ existsb is_set_timeout l = false).
Proof.
  split.
  - intros m h p Hp Hc Hl Hmax. unfold step. rewrite Hp, Hc, Hl.
    rewrite handleProcessClose_give_up; [| reflexivity | exact Hmax].
    eexists. eexists. split; [reflexivity|]. cbn. auto 10.
  - intros h s es m Hs Hr Hev Hcount Hrun.
    cbn [run step] in Hrun.
    destruct (start_running h s Hs Hr) as (m0 & Hstart & Hrun0).
    rewrite Hstart in Hrun.
    assert (Hph : phase 0 m0) by (left; split; [lia | left; exact Hrun0]).
    pose proof (phase_run es 0 m0 m Hph Hev Hrun) as Hfin.
    rewrite Hcount in Hfin. cbn [Nat.add] in Hfin.
    destruct Hfin as [(Hk & _) | (_ & Hup)]; [lia|].
    pose proof Hup as (Hst & Hms & Htm & _).
    repeat (split; [assumption|]).
    intros es' o' m' Hes' Hrun'.
    destruct (given_up_run es' m o' m' Hup Hes' Hrun') as ((Hst' & Hms' & _) & Hl).
    auto.
Qed.

Lemma five_crashes_then_down_witness :
  lastBridgeStatus (this (after (CallStart :: five_crashes) sample_machine)) = DOWN
  /\ manuallyStopped (this (after (CallStart :: five_crashes) sample_machine)) = true.
Proof.
  destruct five_crashes_then_down as [_ H].
  destruct (H sample_host (this sample_machine) five_crashes
              (after (CallStart :: five_crashes) sample_machine))
    as (H1 & H2 & _); try (vm_compute; reflexivity).
  split; assumption.
Defined.
